(** * P4-OvS: the p4rt device / port / program registry (p4rt/p4rt.c)

    A shallow embedding of [p4rt/p4rt.c].  The C file keeps its state in
    globals ([all_p4rts], [p4rt_classes], the RCU callback queue) and in
    heap objects reached through pointers; here that state is one record,
    [world], threaded through a small state-and-fault monad.  A fault
    ([None]) stands for a call that does not come back to its caller in
    a defined state: a use of a pointer that designates no live object
    (a wild dereference, an fclose of a closed stream), which is
    undefined behaviour in C, or an abort of the process. *)

From Stdlib Require Import ZArith List Bool String Lia.
From stdpp Require Import base option list gmap strings.

Local Open Scope Z_scope.

(** ** Scalars *)

(** Addresses of heap objects and of the static backend descriptors.
    A nullable C pointer is an [option ptr]. *)
Definition ptr := N.

(** errno values used by p4rt.c (Linux numbering) and stdio's EOF. *)
Definition ENOENT : Z := 2.
Definition EAGAIN : Z := 11.
Definition ENOMEM : Z := 12.
Definition EACCES : Z := 13.
Definition EEXIST : Z := 17.
Definition ENODEV : Z := 19.
Definition ENOSPC : Z := 28.
Definition EAFNOSUPPORT : Z := 97.
Definition EOF : Z := -1.

(** OpenFlow port numbers.  [ofp_port_t] is a 32-bit type; the numbers
    of OpenFlow 1.0, OFPP_LOCAL and OFPP_NONE among them, fit 16 bits
    and [u16_to_ofp] widens one. *)
Definition ofp_port_t := N.
Definition OFPP_LOCAL : ofp_port_t := 65534%N.
Definition OFPP_NONE : ofp_port_t := 65535%N.
Definition u16_to_ofp (n : N) : ofp_port_t := n.

(** pi_status_t, restricted to the members p4rt.c returns. *)
Inductive pi_status_t :=
| PI_STATUS_SUCCESS
| PI_STATUS_DEV_OUT_OF_RANGE
| PI_STATUS_DEV_NOT_ASSIGNED
| PI_STATUS_TARGET_ERROR.

(** ** Structs *)

(** struct p4rt_port: what the datapath reports about a port.  The
    zeroed struct left by [memset] is only ever handed to
    [p4rt_port_destroy], so a NULL string and an empty one are not told
    apart. *)
Record p4rt_port := {
  pp_name : string;
  pp_type : string;
  pp_port_no : ofp_port_t
}.

Definition p4rt_port_zero : p4rt_port :=
  {| pp_name := ""; pp_type := ""; pp_port_no := 0%N |}.

(** struct netdev is opaque to p4rt.c, which only asks for its name:
    the handle obtained from [netdev_open(name, ...)] is the handle of
    the network device called [name]. *)
Record netdev := { netdev_get_name : string }.

(** struct p4port; its hmap_node is the list cell that holds it. *)
Record p4port := {
  port_p4rt : ptr;
  port_netdev : netdev;
  port_no : ofp_port_t;
  port_created : Z
}.

(** struct program. [prog_data] is the byte buffer the [data] pointer
    designates. *)
Record program := {
  prog_p4rt : ptr;
  prog_data : list Byte.byte;
  prog_data_len : N
}.

(** An hmap of intrusive nodes: the linked objects with their
    addresses, in traversal order.  The hash only selects a bucket:
    each node is inserted under the hash of the very key the lookup
    loops compare ([name], [port_no]) and that key is never written
    while the node is linked, so a traversal restricted to one hash
    meets the same first match as a full traversal.  A struct p4rt or
    struct p4port is linked right after it is allocated and handed to
    its dealloc right after it is unlinked, so between two calls of
    p4rt.c the linked objects are the live ones: the list cell is the
    object's memory.

    The order of the list is the order a traversal meets the nodes
    in.  lib/hmap.c decides it (bucket by hash, newest node first
    within a bucket, a resize regrouping the buckets), not p4rt.c; the
    list fixes one such order, newest first.  It matters only to which
    of several nodes bearing the compared key a loop meets first. *)
Abbreviation hmap T := (list (ptr * T)).

(** struct p4rt. *)
Record p4rt := {
  p4rt_cls : ptr;               (* p4rt_class *)
  p4rt_name : string;
  p4rt_type : string;
  p4rt_dev_id : N;
  p4rt_p4info : option ptr;
  p4rt_ports : hmap p4port;
  p4rt_prog : option ptr
}.

(** struct p4rt_switch_features. *)
Record p4rt_switch_features := {
  n_tables : N;
  n_ports : N
}.

(** stdio streams of [p4rt_initialize_datapath]. *)
Inductive stream :=
| Stdin
| File (fd : ptr).

(** Calls that leave p4rt.c, in the order they are made. *)
Inductive event :=
| EvAlloc (cls : ptr)
| EvConstruct (p : ptr)
| EvDestruct (p : ptr) (del : bool)
| EvDealloc (p : ptr)
| EvDel (cls : ptr) (type name : string)
| EvTypeRun (cls : ptr) (type : string)
| EvTypeWait (cls : ptr) (type : string)
| EvPortAlloc (p : ptr)
| EvPortConstruct (port : ptr)
| EvPortDestruct (port : ptr) (del : bool)
| EvPortDealloc (port : ptr)
| EvPortQueryByName (p : ptr) (name : string)
| EvProgramAlloc (p : ptr)
| EvProgramInsert (prog : ptr)
| EvProgDel (prog : ptr)
| EvProgDealloc (prog : ptr)
| EvNetdevOpen (name type : string)
| EvNetdevClose (nd : netdev)
| EvTimeMsec
| EvFopen (filename : string)
| EvFtell (st : stream)
| EvFread (st : stream) (len : N)
| EvFerror (st : stream)
| EvFclose (st : stream).

(** Callbacks handed to [ovsrcu_postpone]. *)
Inductive rcu_cb :=
| Cb_p4rt_destroy_defer__ (p : ptr)
| Cb_p4rt_destroy__ (p : ptr).


(** ** The hmap macros, on the list model *)
Module Hmap.
Section Ops.
Context {T : Type}.

(* hmap_insert: the node becomes the head of its bucket; here, of the
   traversal.  (Where the node comes relative to the nodes of other
   buckets, and a resize, are invisible while the compared key is
   unique.) *)
Definition insert (a : ptr) (x : T) (h : hmap T) : hmap T := (a, x) :: h.

(* hmap_remove: unlink the node at address [a]. *)
Fixpoint remove (a : ptr) (h : hmap T) : hmap T :=
  match h with
  | [] => []
  | (b, x) :: h' => if N.eqb a b then h' else (b, x) :: remove a h'
  end.

(* The linked object at address [a]. *)
Fixpoint at_addr (a : ptr) (h : hmap T) : option T :=
  match h with
  | [] => None
  | (b, x) :: h' => if N.eqb a b then Some x else at_addr a h'
  end.

(* A store through a pointer to the linked object at [a]. *)
Fixpoint store (a : ptr) (f : T → T) (h : hmap T) : hmap T :=
  match h with
  | [] => []
  | (b, x) :: h' => if N.eqb a b then (b, f x) :: h' else (b, x) :: store a f h'
  end.

(* HMAP_FOR_EACH (node, ...) { if (test(node)) return node; } return NULL; *)
Fixpoint first (test : T → bool) (h : hmap T) : option (ptr * T) :=
  match h with
  | [] => None
  | (b, x) :: h' => if test x then Some (b, x) else first test h'
  end.

(* hmap_count *)
Definition count (h : hmap T) : N := N.of_nat (length h).

End Ops.
End Hmap.

Section Model.

(** The state of everything p4rt.c calls into: the datapath backends,
    the netdev layer, stdio, the clock. *)
Context {env : Type}.

(** struct p4rt_class: the provider vtable.  Each operation reads and
    updates the collaborators' state and sees the arguments the C call
    passes (an object passed by pointer is given by address and
    contents).  The operations are taken to touch only backend-private
    state, never the fields p4rt.c keeps in its own structs. *)
Record p4rt_class := {
  cls_enumerate_types : gset string → gset string;
  cls_alloc : env → option ptr * env;
  cls_construct : ptr → p4rt → env → Z * env;
  cls_destruct : ptr → p4rt → bool → env → env;
  cls_dealloc : ptr → env → env;
  cls_del : option (string → string → env → Z * env);
  cls_type_run : option (string → env → Z * env);
  cls_type_wait : option (string → env → env);
  cls_port_alloc : env → option ptr * env;
  cls_port_construct : ptr → p4port → env → Z * env;
  cls_port_destruct : ptr → p4port → bool → env → env;
  cls_port_dealloc : ptr → env → env;
  cls_port_query_by_name : ptr → string → env → Z * p4rt_port * env;
  cls_program_alloc : env → option ptr * env;
  cls_program_insert : ptr → program → env → Z * env;
  cls_prog_del : ptr → program → env → env;
  cls_prog_dealloc : ptr → env → env
}.

(** The library collaborators (lib/dpif.h, netdev.h, timeval.h,
    stdio.h).  None of them is part of p4rt.c; [dpif_normalize_type] in
    particular is left open. *)
Record externs := {
  dpif_normalize_type : option string → string;
  netdev_open : string → string → env → Z * env;
  netdev_close : netdev → env → env;
  time_msec : env → Z * env;
  fopen : string → env → option stream * env;
  ftell_end : stream → env → Z * env;      (* fseek END; ftell; fseek SET:
                                              what ftell returns, -1 on failure *)
  fread : stream → N → env → list Byte.byte * env;
  ferror : stream → env → option Z;        (* Some errno when ferror() *)
  fclose : stream → env → env
}.

(** ** Global state *)
Record world := {
  class_at : ptr → p4rt_class;        (* the static descriptors, by address *)
  ext : externs;
  p4rt_classes : list ptr;            (* registered classes, in probe order *)
  all_p4rts : hmap p4rt;              (* the registry and the devices linked in it *)
  progs : gmap ptr program;           (* live struct program objects *)
  rcu_postponed : list rcu_cb;        (* callbacks waiting for a grace period *)
  environ : env;
  trace : list event                  (* oldest first *)
}.

Definition with_classes (cs : list ptr) (w : world) : world :=
  {| class_at := class_at w; ext := ext w;
     p4rt_classes := cs; all_p4rts := all_p4rts w; progs := progs w;
     rcu_postponed := rcu_postponed w; environ := environ w; trace := trace w |}.

Definition with_p4rts (h : hmap p4rt) (w : world) : world :=
  {| class_at := class_at w; ext := ext w;
     p4rt_classes := p4rt_classes w; all_p4rts := h; progs := progs w;
     rcu_postponed := rcu_postponed w; environ := environ w; trace := trace w |}.

Definition with_progs (m : gmap ptr program) (w : world) : world :=
  {| class_at := class_at w; ext := ext w;
     p4rt_classes := p4rt_classes w; all_p4rts := all_p4rts w; progs := m;
     rcu_postponed := rcu_postponed w; environ := environ w; trace := trace w |}.

Definition with_rcu (q : list rcu_cb) (w : world) : world :=
  {| class_at := class_at w; ext := ext w;
     p4rt_classes := p4rt_classes w; all_p4rts := all_p4rts w; progs := progs w;
     rcu_postponed := q; environ := environ w; trace := trace w |}.

Definition with_call (ev : event) (e : env) (w : world) : world :=
  {| class_at := class_at w; ext := ext w;
     p4rt_classes := p4rt_classes w; all_p4rts := all_p4rts w; progs := progs w;
     rcu_postponed := rcu_postponed w; environ := e; trace := trace w ++ [ev] |}.

Definition with_ports (h : hmap p4port) (d : p4rt) : p4rt :=
  {| p4rt_cls := p4rt_cls d; p4rt_name := p4rt_name d; p4rt_type := p4rt_type d;
     p4rt_dev_id := p4rt_dev_id d; p4rt_p4info := p4rt_p4info d;
     p4rt_ports := h; p4rt_prog := p4rt_prog d |}.

Definition with_prog (q : option ptr) (d : p4rt) : p4rt :=
  {| p4rt_cls := p4rt_cls d; p4rt_name := p4rt_name d; p4rt_type := p4rt_type d;
     p4rt_dev_id := p4rt_dev_id d; p4rt_p4info := p4rt_p4info d;
     p4rt_ports := p4rt_ports d; p4rt_prog := q |}.

Definition with_p4info (i : option ptr) (d : p4rt) : p4rt :=
  {| p4rt_cls := p4rt_cls d; p4rt_name := p4rt_name d; p4rt_type := p4rt_type d;
     p4rt_dev_id := p4rt_dev_id d; p4rt_p4info := i;
     p4rt_ports := p4rt_ports d; p4rt_prog := p4rt_prog d |}.

(** ** The monad: state, plus a fault for a wild dereference *)
Definition M (A : Type) : Type := world → option (A * world).

Definition ret {A} (x : A) : M A := fun w => Some (x, w).

Definition bind {A B} (m : M A) (k : A → M B) : M B :=
  fun w => match m w with
           | Some (x, w') => k x w'
           | None => None
           end.

Definition fault {A} : M A := fun _ => None.

Definition gets {A} (f : world → A) : M A := fun w => Some (f w, w).

Definition modify (f : world → world) : M unit := fun w => Some (tt, f w).

(* A call to a collaborator that returns a value. *)
Definition call {A} (ev : event) (f : env → A * env) : M A :=
  fun w => let '(r, e) := f (environ w) in Some (r, with_call ev e w).

(* A call to a collaborator that returns nothing. *)
Definition call_ (ev : event) (f : env → env) : M unit :=
  fun w => Some (tt, with_call ev (f (environ w)) w).

Notation "x <- m ;; k" := (bind m (fun x => k))
  (at level 100, m at next level, right associativity).
Notation "m ;;; k" := (bind m (fun _ => k))
  (at level 100, right associativity).

(* A loop over the nodes an hmap holds when the loop starts
   (HMAP_FOR_EACH_SAFE tolerates the removal of the current node). *)
Fixpoint for_each {A} (l : list A) (body : A → M unit) : M unit :=
  match l with
  | [] => ret tt
  | x :: l' => body x ;;; for_each l' body
  end.

(* *p, for a struct p4rt pointer. *)
Definition get_p4rt (p : ptr) : M p4rt :=
  fun w => match Hmap.at_addr p (all_p4rts w) with
           | Some d => Some (d, w)
           | None => None
           end.

(* A store to fields of *p. *)
Definition store_p4rt (p : ptr) (f : p4rt → p4rt) : M unit :=
  modify (fun w => with_p4rts (Hmap.store p f (all_p4rts w)) w).

(* *prog, for a struct program pointer. *)
Definition get_prog (q : ptr) : M program :=
  fun w => match progs w !! q with
           | Some pr => Some (pr, w)
           | None => None
           end.

(* p->p4rt_class *)
Definition class_of (d : p4rt) : M p4rt_class :=
  gets (fun w => class_at w (p4rt_cls d)).

Definition nonzero (e : Z) : bool := negb (Z.eqb e 0).

(** ** Private functions *)

Definition p4rt_lookup_by_dev_id (w : world) (dev_id : N) : option ptr :=
  fst <$> Hmap.first (fun d => N.eqb (p4rt_dev_id d) dev_id) (all_p4rts w).

(* The set a class enumerates into a freshly initialised sset. *)
Definition class_types (c : p4rt_class) : gset string := cls_enumerate_types c ∅.

Fixpoint class_find (at_ : ptr → p4rt_class) (classes : list ptr) (type : string)
  : option ptr :=
  match classes with
  | [] => None
  | c :: classes' =>
      if bool_decide (type ∈ class_types (at_ c)) then Some c
      else class_find at_ classes' type
  end.

Definition p4rt_class_find__ (w : world) (type : string) : option ptr :=
  class_find (class_at w) (p4rt_classes w) type.

Definition p4rt_class_register (new_class : ptr) : M Z :=
  fun w =>
    if existsb (N.eqb new_class) (p4rt_classes w) then Some (EEXIST, w)
    else Some (0, with_classes (p4rt_classes w ++ [new_class]) w).

(* free(port->name); free(port->type): nothing the model keeps. *)
Definition p4rt_port_destroy (port : p4rt_port) : M unit := ret tt.

Definition ovsrcu_postpone (cb : rcu_cb) : M unit :=
  modify (fun w => with_rcu (rcu_postponed w ++ [cb]) w).

Definition p4rt_destroy_defer__ (p : ptr) : M unit :=
  ovsrcu_postpone (Cb_p4rt_destroy__ p).

Definition p4rt_destroy__ (p : ptr) : M unit :=
  d <- get_p4rt p ;;
  modify (fun w => with_p4rts (Hmap.remove p (all_p4rts w)) w) ;;;
  c <- class_of d ;;
  call_ (EvDealloc p) (cls_dealloc c p).

Definition p4rt_program_destroy (prog : option ptr) : M unit :=
  match prog with
  | None => ret tt
  | Some q =>
      pr <- get_prog q ;;
      d <- get_p4rt (prog_p4rt pr) ;;
      c <- class_of d ;;
      call_ (EvProgDel q) (cls_prog_del c q pr) ;;;
      call_ (EvProgDealloc q) (cls_prog_dealloc c q) ;;;
      modify (fun w => with_progs (delete q (progs w)) w)
  end.

Definition p4rt_port_query_by_name (p : ptr) (name : string) : M (Z * p4rt_port) :=
  d <- get_p4rt p ;;
  c <- class_of d ;;
  r <- call (EvPortQueryByName p name) (cls_port_query_by_name c p name) ;;
  let '(error, port) := r in
  if nonzero error then ret (error, p4rt_port_zero) else ret (error, port).

Definition alloc_p4rt_port (p : ptr) (netdev_name : string) : ofp_port_t :=
  u16_to_ofp 1.

Definition set_port_no (n : ofp_port_t) (port : p4rt_port) : p4rt_port :=
  {| pp_name := pp_name port; pp_type := pp_type port; pp_port_no := n |}.

(* Returns the error, the (possibly renumbered) *p4port and *p_netdev. *)
Definition p4rt_port_open (p : ptr) (p4port : p4rt_port)
  : M (Z * p4rt_port * option netdev) :=
  x <- gets ext ;;
  error <- call (EvNetdevOpen (pp_name p4port) (pp_type p4port))
                (netdev_open x (pp_name p4port) (pp_type p4port)) ;;
  if nonzero error then ret (0, p4port, None)
  else
    let nd := {| netdev_get_name := pp_name p4port |} in
    if N.eqb (pp_port_no p4port) OFPP_NONE then
      d <- get_p4rt p ;;
      if String.eqb (p4rt_name d) (pp_name p4port) then
        ret (0, set_port_no OFPP_LOCAL p4port, Some nd)
      else
        let port_no := alloc_p4rt_port p (pp_name p4port) in
        if N.eqb port_no OFPP_NONE then
          call_ (EvNetdevClose nd) (netdev_close x nd) ;;;
          ret (ENOSPC, p4port, None)
        else ret (0, set_port_no port_no p4port, Some nd)
    else ret (0, p4port, Some nd).

Definition p4port_destroy__ (port : ptr * p4port) : M unit :=
  let p := port_p4rt port.2 in
  d <- get_p4rt p ;;
  store_p4rt p (fun d => with_ports (Hmap.remove port.1 (p4rt_ports d)) d) ;;;
  x <- gets ext ;;
  call_ (EvNetdevClose (port_netdev port.2)) (netdev_close x (port_netdev port.2)) ;;;
  c <- class_of d ;;
  call_ (EvPortDealloc port.1) (cls_port_dealloc c port.1).

Definition p4port_destroy (port : option (ptr * p4port)) (del : bool) : M unit :=
  match port with
  | None => ret tt
  | Some port =>
      d <- get_p4rt (port_p4rt port.2) ;;
      c <- class_of d ;;
      call_ (EvPortDestruct port.1 del) (cls_port_destruct c port.1 port.2 del) ;;;
      p4port_destroy__ port
  end.

Definition p4port_remove (p4port : ptr * p4port) : M unit :=
  p4port_destroy (Some p4port) true.

Definition p4rt_get_port_by_name (p : ptr) (name : string) : M (option (ptr * p4port)) :=
  d <- get_p4rt p ;;
  ret (Hmap.first (fun port => String.eqb (netdev_get_name (port_netdev port)) name)
                  (p4rt_ports d)).

Definition p4rt_get_port (p : ptr) (port_no_ : ofp_port_t) : M (option (ptr * p4port)) :=
  d <- get_p4rt p ;;
  ret (Hmap.first (fun port => N.eqb (port_no port) port_no_) (p4rt_ports d)).

Definition p4port_install (p : ptr) (nd : netdev) (port_no_ : ofp_port_t) : M Z :=
  d <- get_p4rt p ;;
  c <- class_of d ;;
  x <- gets ext ;;
  a <- call (EvPortAlloc p) (cls_port_alloc c) ;;
  match a with
  | None =>
      call_ (EvNetdevClose nd) (netdev_close x nd) ;;;
      ret ENOMEM
  | Some a =>
      created <- call EvTimeMsec (time_msec x) ;;
      let p4port := {| port_p4rt := p; port_netdev := nd;
                       port_no := port_no_; port_created := created |} in
      store_p4rt p (fun d => with_ports (Hmap.insert a p4port (p4rt_ports d)) d) ;;;
      error <- call (EvPortConstruct a) (cls_port_construct c a p4port) ;;
      if nonzero error then
        p4port_destroy__ (a, p4port) ;;;
        ret error
      else ret 0
  end.

Definition update_port (p : ptr) (name : string) : M Z :=
  q <- p4rt_port_query_by_name p name ;;
  let '(qerr, p4rt_port_) := q in
  o <- (if nonzero qerr then ret (0, p4rt_port_, None)
        else p4rt_port_open p p4rt_port_) ;;
  let '(error, p4rt_port_, nd) := o in
  error <-
     match nd with
     | Some nd =>
         port <- p4rt_get_port p (pp_port_no p4rt_port_) ;;
         match port with
         | Some port =>
             if String.eqb (netdev_get_name (port_netdev port.2)) name then ret error
             else
               p4port_remove port ;;;
               p4port_install p nd (pp_port_no p4rt_port_)
         | None => p4port_install p nd (pp_port_no p4rt_port_)
         end
     | None => ret error
     end ;;
  p4rt_port_destroy p4rt_port_ ;;;
  ret error.

(** ** Functions exposed and used by bridge *)

Definition p4rt_create (datapath_name : string) (datapath_type : option string)
  : M (Z * option ptr) :=
  x <- gets ext ;;
  let datapath_type := dpif_normalize_type x datapath_type in
  class <- gets (fun w => p4rt_class_find__ w datapath_type) ;;
  match class with
  | None => ret (EAFNOSUPPORT, None)
  | Some class =>
      c <- gets (fun w => class_at w class) ;;
      p <- call (EvAlloc class) (cls_alloc c) ;;
      match p with
      | None => ret (ENOMEM, None)
      | Some p =>
          let d := {| p4rt_cls := class; p4rt_name := datapath_name;
                      p4rt_type := datapath_type; p4rt_dev_id := 0%N;
                      p4rt_p4info := None; p4rt_ports := []; p4rt_prog := None |} in
          modify (fun w => with_p4rts (Hmap.insert p d (all_p4rts w)) w) ;;;
          error <- call (EvConstruct p) (cls_construct c p d) ;;
          if nonzero error then
            p4rt_destroy__ p ;;;
            ret (error, None)
          else ret (error, Some p)
      end
  end.

(* The buffer xzalloc(length) holds after fread stored [bytes] in it. *)
Definition fill_buffer (length_ : N) (bytes : list Byte.byte) : list Byte.byte :=
  firstn (N.to_nat length_) (bytes ++ repeat Byte.x00 (N.to_nat length_)).

Definition p4rt_initialize_datapath (p : ptr) (filename : string) : M Z :=
  d <- get_p4rt p ;;
  match p4rt_prog d with
  | Some _ => ret 0
  | None =>
      x <- gets ext ;;
      st <- (if String.eqb filename "-" then ret (Some Stdin)
             else call (EvFopen filename) (fopen x filename)) ;;
      match st with
      | None => ret ENOENT
      | Some st =>
          pos <- call (EvFtell st) (ftell_end x st) ;;
          (* size_t length = ftell(stream) is not checked: after a failed
             ftell, xzalloc((size_t) -1) finds no memory and aborts.  Any
             other allocation is taken to succeed. *)
          if Z.ltb pos 0 then fault
          else
            let length_ := Z.to_N pos in
            bytes <- call (EvFread st length_) (fread x st length_) ;;
            if negb (N.eqb (N.of_nat (length bytes)) length_) then
              e <- call (EvFerror st) (fun e => (ferror x st e, e)) ;;
              let error := match e with Some errno => errno | None => EOF end in
              call_ (EvFclose st) (fclose x st) ;;;
              ret error
            else
              call_ (EvFclose st) (fclose x st) ;;;
              c <- class_of d ;;
              prog <- call (EvProgramAlloc p) (cls_program_alloc c) ;;
              match prog with
              | None =>
                  (* error = ENOMEM; goto error, where prog == NULL leads to
                     fclose(stream) on the stream closed above. *)
                  fault
              | Some q =>
                  let pr := {| prog_p4rt := p; prog_data := fill_buffer length_ bytes;
                               prog_data_len := length_ |} in
                  modify (fun w => with_progs (<[q := pr]> (progs w)) w) ;;;
                  error <- call (EvProgramInsert q) (cls_program_insert c q pr) ;;
                  if nonzero error then ret error
                  else
                    store_p4rt p (with_prog (Some q)) ;;;
                    ret 0
              end
      end
  end.

Definition p4rt_destroy (p : option ptr) (del : bool) : M unit :=
  match p with
  | None => ret tt
  | Some p =>
      d <- get_p4rt p ;;
      for_each (p4rt_ports d) (fun port => p4port_destroy (Some port) del) ;;;
      d <- get_p4rt p ;;
      p4rt_program_destroy (p4rt_prog d) ;;;
      d <- get_p4rt p ;;
      c <- class_of d ;;
      call_ (EvDestruct p del) (cls_destruct c p d del) ;;;
      ovsrcu_postpone (Cb_p4rt_destroy_defer__ p)
  end.

Definition p4rt_delete (name type : string) : M Z :=
  class <- gets (fun w => p4rt_class_find__ w type) ;;
  match class with
  | None => ret EAFNOSUPPORT
  | Some class =>
      c <- gets (fun w => class_at w class) ;;
      match cls_del c with
      | None => ret EACCES
      | Some del => call (EvDel class type name) (del type name)
      end
  end.

(* datapath_type && datapath_type[0] ? datapath_type : "system" *)
Definition type_or_system (datapath_type : option string) : string :=
  match datapath_type with
  | Some (String c s) => String c s
  | _ => "system"
  end.

Definition p4rt_type_run (datapath_type : option string) : M Z :=
  let datapath_type := type_or_system datapath_type in
  class <- gets (fun w => p4rt_class_find__ w datapath_type) ;;
  match class with
  | None => fault                       (* class->type_run with class == NULL *)
  | Some class =>
      c <- gets (fun w => class_at w class) ;;
      match cls_type_run c with
      | Some type_run => call (EvTypeRun class datapath_type) (type_run datapath_type)
      | None => ret 0
      end
  end.

Definition p4rt_type_wait (datapath_type : option string) : M unit :=
  x <- gets ext ;;
  let datapath_type := dpif_normalize_type x datapath_type in
  class <- gets (fun w => p4rt_class_find__ w datapath_type) ;;
  match class with
  | None => fault                       (* class->type_wait with class == NULL *)
  | Some class =>
      c <- gets (fun w => class_at w class) ;;
      match cls_type_wait c with
      | Some type_wait => call_ (EvTypeWait class datapath_type) (type_wait datapath_type)
      | None => ret tt
      end
  end.

Definition p4rt_prog_del (p : ptr) : M Z :=
  d <- get_p4rt p ;;
  p4rt_program_destroy (p4rt_prog d) ;;;
  ret 0.

(** ** PI functions *)

Definition _pi_assign_device (dev_id : N) (p4info : option ptr) : M pi_status_t :=
  p <- gets (fun w => p4rt_lookup_by_dev_id w dev_id) ;;
  match p with
  | None => ret PI_STATUS_DEV_NOT_ASSIGNED
  | Some p =>
      store_p4rt p (with_p4info p4info) ;;;
      ret PI_STATUS_SUCCESS
  end.

Definition _pi_update_device_start (dev_id : N) (device_data : list Byte.byte)
    (device_data_size : N) : M pi_status_t :=
  p <- gets (fun w => p4rt_lookup_by_dev_id w dev_id) ;;
  match p with
  | None => ret PI_STATUS_DEV_OUT_OF_RANGE
  | Some p =>
      d <- get_p4rt p ;;
      c <- class_of d ;;
      prog <- match p4rt_prog d with
              | None => call (EvProgramAlloc p) (cls_program_alloc c)
              | Some q => get_prog q ;;; ret (Some q)   (* the stores below go through q *)
              end ;;
      match prog with
      | None => ret PI_STATUS_TARGET_ERROR      (* ENOMEM; nothing to free *)
      | Some q =>
          let pr := {| prog_p4rt := p; prog_data := device_data;
                       prog_data_len := device_data_size |} in
          modify (fun w => with_progs (<[q := pr]> (progs w)) w) ;;;
          error <- call (EvProgramInsert q) (cls_program_insert c q pr) ;;
          if nonzero error then
            d <- get_p4rt p ;;
            match p4rt_prog d with
            | None =>
                call_ (EvProgDealloc q) (cls_prog_dealloc c q) ;;;
                modify (fun w => with_progs (delete q (progs w)) w) ;;;
                ret PI_STATUS_TARGET_ERROR
            | Some _ => ret PI_STATUS_TARGET_ERROR
            end
          else
            store_p4rt p (with_prog (Some q)) ;;;
            ret PI_STATUS_SUCCESS
      end
  end.

(** ** Functions exposed to ovs-p4ctl *)

Definition p4rt_lookup (w : world) (name : string) : option ptr :=
  fst <$> Hmap.first (fun d => String.eqb (p4rt_name d) name) (all_p4rts w).

Definition p4rt_query_switch_features (name : string) (features : p4rt_switch_features)
  : M (Z * p4rt_switch_features) :=
  p <- gets (fun w => p4rt_lookup w name) ;;
  match p with
  | None => ret (ENODEV, features)
  | Some p =>
      d <- get_p4rt p ;;
      ret (0, {| n_tables := 0%N; n_ports := Hmap.count (p4rt_ports d) |})
  end.

(** ** The RCU queue *)

Definition run_rcu_cb (cb : rcu_cb) : M unit :=
  match cb with
  | Cb_p4rt_destroy_defer__ p => p4rt_destroy_defer__ p
  | Cb_p4rt_destroy__ p => p4rt_destroy__ p
  end.

(** Modelled from the spec: lib/ovs-rcu.c is not part of p4rt.c.  A
    postponed callback runs only after a grace period; when one has
    elapsed, the callbacks postponed before it run in order, and what
    they postpone in turn waits for the next grace period. *)
Definition ovsrcu_grace_period : M unit :=
  cbs <- gets rcu_postponed ;;
  modify (with_rcu []) ;;;
  for_each cbs run_rcu_cb.

(** ** Invariants and observations used by the properties *)

(* The device at [p] is consistent with the objects that refer to it:
   each port of its table points back to [p], and its program, if set,
   is live and points back to [p]. *)
Definition device_ok (w : world) (p : ptr) (d : p4rt) : bool :=
  forallb (fun port : ptr * p4port => N.eqb (port_p4rt port.2) p) (p4rt_ports d)
  && match p4rt_prog d with
     | None => true
     | Some q => match progs w !! q with
                 | Some pr => N.eqb (prog_p4rt pr) p
                 | None => false
                 end
     end.

Definition is_EvDealloc (ev : event) : bool :=
  match ev with
  | EvDealloc _ => true
  | _ => false
  end.

(* What the registry lookups and the class dispatch read of a device. *)
Definition ident (d : p4rt) : ptr * string * N * option ptr :=
  (p4rt_cls d, p4rt_name d, p4rt_dev_id d, p4rt_prog d).

Definition skel (h : hmap p4rt) : hmap (ptr * string * N * option ptr) :=
  (fun x : ptr * p4rt => (x.1, ident x.2)) <$> h.

(* The port number [p4rt_port_open] settles on for a reported port. *)
Definition resolved_port_no (d : p4rt) (port : p4rt_port) : ofp_port_t :=
  if N.eqb (pp_port_no port) OFPP_NONE then
    if String.eqb (p4rt_name d) (pp_name port) then OFPP_LOCAL
    else alloc_p4rt_port 0%N (pp_name port)
  else pp_port_no port.

(* What a step of p4rt_destroy keeps: the registry as the lookups see
   it, the program heap, the RCU queue, the static parts, and a trace
   that grew by calls other than a device dealloc. *)
Definition keeps_registry (w w' : world) : Prop :=
  skel (all_p4rts w') = skel (all_p4rts w)
  ∧ progs w' = progs w
  ∧ rcu_postponed w' = rcu_postponed w
  ∧ class_at w' = class_at w
  ∧ ext w' = ext w
  ∧ p4rt_classes w' = p4rt_classes w
  ∧ ∃ evs, trace w' = trace w ++ evs ∧ forallb (λ ev, negb (is_EvDealloc ev)) evs = true.


(* The port table of the device at [p] holds, as first match for the
   number [h], a port on the network device called [name]. *)
Definition port_reconciled (w : world) (p : ptr) (h : ofp_port_t) (name : string)
  : Prop :=
  ∃ a port, p4rt_get_port p h w = Some (Some (a, port), w)
            ∧ port_no port = h
            ∧ netdev_get_name (port_netdev port) = name.


End Model.

(** * The rest of p4rt.c *)

Section MoreModel.
Context {env : Type}.

(** The members of struct p4rt_class that only the functions of this
    part call.  Their calls thread the collaborators' state like the
    others but are not entered in the trace. *)
Record p4rt_class_more := {
  cls_init : env → env;
  cls_enumerate_names : string → gset string → env → Z * gset string * env;
  cls_run : ptr → p4rt → env → Z * env;
  cls_wait : ptr → p4rt → env → env;
  cls_port_add : ptr → netdev → N → env → Z * env;
  cls_port_del : ptr → N → env → Z * env
}.

(** The PI library entry points of [p4rt_init] and [p4rt_deinit]. *)
Record pi_server := {
  pi_init : N → env → env;
  PIGrpcServerRun : env → env;
  PIGrpcServerShutdown : env → env;
  PIGrpcServerCleanup : env → env
}.

(** The same descriptors as [class_at], seen through their remaining
    members; the address of the built-in [p4rt_dpif_class]; the PI
    library. *)
Variable more_at : ptr → p4rt_class_more.
Variable p4rt_dpif_class : ptr.
Variable pi : pi_server.

Notation "x <- m ;; k" := (bind m (fun x => k))
  (at level 100, m at next level, right associativity).
Notation "m ;;; k" := (bind m (fun _ => k))
  (at level 100, right associativity).

Definition with_env (e : env) (w : world) : world :=
  {| class_at := class_at w; ext := ext w;
     p4rt_classes := p4rt_classes w; all_p4rts := all_p4rts w; progs := progs w;
     rcu_postponed := rcu_postponed w; environ := e; trace := trace w |}.

Definition call_untraced {A} (f : env → A * env) : M A :=
  fun w => let '(r, e) := f (environ w) in Some (r, with_env e w).

Definition call_untraced_ (f : env → env) : M unit :=
  fun w => Some (tt, with_env (f (environ w)) w).

(* ofp_to_u16: the cast of the 32-bit ofp_port_t to uint16_t. *)
Definition ofp_to_u16 (n : ofp_port_t) : N := (n mod 65536)%N.

Definition p4rt_enumerate_names (type : string) (names : gset string)
  : M (Z * gset string) :=
  class <- gets (fun w => p4rt_class_find__ w type) ;;
  match class with
  | Some class => call_untraced (cls_enumerate_names (more_at class) type names)
  | None => ret (EAFNOSUPPORT, names)
  end.

Definition p4rt_port_open_type (port_type : string) : string :=
  if String.eqb port_type "internal" then "tap" else port_type.

(* sset_clear(types), then every registered class in probe order. *)
Definition p4rt_enumerate_types (w : world (env := env)) (types : gset string)
  : gset string :=
  foldl (fun types c => cls_enumerate_types (class_at w c) types) ∅ (p4rt_classes w).

Definition p4rt_init : M unit :=
  p4rt_class_register p4rt_dpif_class ;;;
  classes <- gets p4rt_classes ;;
  for_each classes (fun c => call_untraced_ (cls_init (more_at c))) ;;;
  call_untraced_ (pi_init pi 256%N) ;;;
  call_untraced_ (PIGrpcServerRun pi).

Definition p4rt_get_ports (p : ptr) (p4rt_ports_ : gset string)
  : M (env := env) (gset string) :=
  d <- get_p4rt p ;;
  ret (foldl (fun names (port : ptr * p4port) =>
                {[ netdev_get_name (port_netdev port.2) ]} ∪ names)
             p4rt_ports_ (p4rt_ports d)).

(* [ofp_portp] is the pointer's target, [None] for a NULL pointer; the
   result carries the error and what the target holds on return. *)
Definition p4rt_port_add (p : ptr) (nd : netdev) (ofp_portp : option ofp_port_t)
  : M (Z * option ofp_port_t) :=
  let ofp_port := match ofp_portp with Some n => n | None => OFPP_NONE end in
  d <- get_p4rt p ;;
  error <- call_untraced (cls_port_add (more_at (p4rt_cls d)) p nd (ofp_to_u16 ofp_port)) ;;
  error <- (if nonzero error then ret error
            else update_port p (netdev_get_name nd)) ;;
  match ofp_portp with
  | None => ret (error, None)
  | Some _ =>
      if nonzero error then ret (error, Some OFPP_NONE)
      else
        q <- p4rt_port_query_by_name p (netdev_get_name nd) ;;
        let '(error, p4rt_port_) := q in
        if nonzero error then ret (error, Some OFPP_NONE)
        else
          p4rt_port_destroy p4rt_port_ ;;;
          ret (error, Some (pp_port_no p4rt_port_))
  end.

Definition p4rt_port_del (p : ptr) (name : string) : M Z :=
  p4port <- p4rt_get_port_by_name p name ;;
  match p4port with
  | None => ret ENODEV
  | Some p4port =>
      d <- get_p4rt p ;;
      error <- call_untraced (cls_port_del (more_at (p4rt_cls d)) p
                                           (ofp_to_u16 (port_no p4port.2))) ;;
      if nonzero error then ret error
      else
        update_port p name ;;;
        ret error
  end.

(** ** Invariants used by the further properties *)


(* The struct [p4rt_create] links for a name and a type. *)
Definition new_p4rt (class : ptr) (name type : string) : p4rt :=
  {| p4rt_cls := class; p4rt_name := name; p4rt_type := type; p4rt_dev_id := 0%N;
     p4rt_p4info := None; p4rt_ports := []; p4rt_prog := None |}.

(* The stream [p4rt_initialize_datapath] reads: stdin for "-". *)
Definition program_source (w : world (env := env)) (filename : string) : option stream * env :=
  if String.eqb filename "-" then (Some Stdin, environ w)
  else fopen (ext w) filename (environ w).

Definition program_source_trace (filename : string) : list event :=
  if String.eqb filename "-" then [] else [EvFopen filename].

(* The calls that tear one port down. *)
Definition port_teardown (del : bool) (port : ptr * p4port) : list event :=
  [EvPortDestruct port.1 del; EvNetdevClose (port_netdev port.2); EvPortDealloc port.1].


(* The network devices closed by the calls of a trace, in order. *)
Definition netdev_closes (evs : list event) : list netdev :=
  omap (fun ev => match ev with EvNetdevClose nd => Some nd | _ => None end) evs.

(* A backend's [enumerate_types] only adds its own types to the set. *)
Definition enumerates_additively (w : world (env := env)) : Prop :=
  ∀ c types, c ∈ p4rt_classes w →
             cls_enumerate_types (class_at w c) types = class_types (class_at w c) ∪ types.

End MoreModel.

(** * A simulated datapath, for concrete runs *)

Module Sim.

Definition EINVAL : Z := 22.

(** The collaborators' state: the next free heap address. *)
Definition env := N.

Definition fresh (e : env) : option ptr * env := (Some e, N.succ e).

(** lib/dpif.c: [type && type[0] ? type : "system"]. *)
Definition normalize (type : option string) : string := type_or_system type.

(** A userspace class for the type "system".  It refuses to construct
    a device without a name and to insert an empty program, reports any
    named port without an explicit number, and has no [del],
    [type_wait]. *)
Definition system_class : p4rt_class (env := env) :=
  {| cls_enumerate_types := fun types => {[ "system" ]} ∪ types;
     cls_alloc := fresh;
     cls_construct := fun _ d e => (if String.eqb (p4rt_name d) "" then EINVAL else 0, e);
     cls_destruct := fun _ _ _ e => e;
     cls_dealloc := fun _ e => e;
     cls_del := None;
     cls_type_run := Some (fun _ e => (EAGAIN, e));
     cls_type_wait := None;
     cls_port_alloc := fresh;
     cls_port_construct := fun _ _ e => (0, e);
     cls_port_destruct := fun _ _ _ e => e;
     cls_port_dealloc := fun _ e => e;
     cls_port_query_by_name := fun _ name e =>
       if String.eqb name "" then (ENODEV, p4rt_port_zero, e)
       else (0, {| pp_name := name; pp_type := "system"; pp_port_no := OFPP_NONE |}, e);
     cls_program_alloc := fresh;
     cls_program_insert := fun _ pr e =>
       (if N.eqb (prog_data_len pr) 0 then EINVAL else 0, e);
     cls_prog_del := fun _ _ e => e;
     cls_prog_dealloc := fun _ e => e |}.

(** A class for the type "netdev" whose [port_construct] always fails
    and which numbers its ports itself; it offers [del]. *)
Definition netdev_class : p4rt_class (env := env) :=
  {| cls_enumerate_types := fun types => {[ "netdev" ]} ∪ types;
     cls_alloc := fresh;
     cls_construct := fun _ _ e => (0, e);
     cls_destruct := fun _ _ _ e => e;
     cls_dealloc := fun _ e => e;
     cls_del := Some (fun _ name e => (if String.eqb name "" then ENODEV else 0, e));
     cls_type_run := None;
     cls_type_wait := Some (fun _ e => e);
     cls_port_alloc := fresh;
     cls_port_construct := fun _ _ e => (EINVAL, e);
     cls_port_destruct := fun _ _ _ e => e;
     cls_port_dealloc := fun _ e => e;
     cls_port_query_by_name := fun _ name e =>
       (0, {| pp_name := name; pp_type := "tap"; pp_port_no := 5%N |}, e);
     cls_program_alloc := fresh;
     cls_program_insert := fun _ _ e => (0, e);
     cls_prog_del := fun _ _ e => e;
     cls_prog_dealloc := fun _ e => e |}.

(** The descriptors sit at addresses 1 and 2. *)
Definition classes (c : ptr) : p4rt_class (env := env) :=
  if N.eqb c 2 then netdev_class else system_class.

Definition externals : externs (env := env) :=
  {| dpif_normalize_type := normalize;
     netdev_open := fun name _ e => (if String.eqb name "missing" then ENODEV else 0, e);
     netdev_close := fun _ e => e;
     time_msec := fun e => (0, e);
     fopen := fun _ e => (None, e);
     ftell_end := fun _ e => (0, e);
     fread := fun _ _ e => ([], e);
     ferror := fun _ _ => None;
     fclose := fun _ e => e |}.

(** Nothing registered, nothing created; the heap starts at 100. *)
Definition boot : world (env := env) :=
  {| class_at := classes; ext := externals; p4rt_classes := []; all_p4rts := [];
     progs := ∅; rcu_postponed := []; environ := 100%N; trace := [] |}.

(** The state a run leaves behind ([boot] if it faulted). *)
Definition after {A} (m : M (env := env) A) (w : world) : world :=
  match m w with
  | Some (_, w') => w'
  | None => boot
  end.

(** Both classes registered, "system" first. *)
Definition registered : world :=
  after (p4rt_class_register 2%N) (after (p4rt_class_register 1%N) boot).

(** ... then the device "br0" of type "system" created (at 100). *)
Definition with_br0 : world := after (p4rt_create "br0" (Some "system")) registered.

(** ... then the port "eth0" reconciled on it (port struct at 101). *)
Definition with_eth0 : world := after (update_port 100%N "eth0") with_br0.

(** ... then a three-byte program pushed to device id 0 (struct at 102). *)
Definition with_program : world :=
  after (_pi_update_device_start 0%N [Byte.x01; Byte.x02; Byte.x03] 3%N) with_eth0.

(** [with_eth0], then a second device called "br0" created (at 102):
    [p4rt_create] does not look for the name. *)
Definition with_two_br0 : world := after (p4rt_create "br0" (Some "system")) with_eth0.

(** The device "br1" of type "netdev" created on [registered] (at 100). *)
Definition with_br1 : world := after (p4rt_create "br1" (Some "netdev")) registered.

End Sim.

(** * The simulated datapath, extended *)

Module Sim2.

(** A class for the type "lossy": its ports are numbered 7 and are
    reported only while the collaborators' state is below 1000; it has
    no memory for programs. *)
Definition lossy_class : p4rt_class (env := Sim.env) :=
  {| cls_enumerate_types := fun types => {[ "lossy" ]} ∪ types;
     cls_alloc := Sim.fresh;
     cls_construct := fun _ _ e => (0, e);
     cls_destruct := fun _ _ _ e => e;
     cls_dealloc := fun _ e => e;
     cls_del := None;
     cls_type_run := None;
     cls_type_wait := None;
     cls_port_alloc := Sim.fresh;
     cls_port_construct := fun _ _ e => (0, e);
     cls_port_destruct := fun _ _ _ e => e;
     cls_port_dealloc := fun _ e => e;
     cls_port_query_by_name := fun _ name e =>
       if N.ltb e 1000%N then
         (0, {| pp_name := name; pp_type := "system"; pp_port_no := 7%N |}, e)
       else (ENODEV, p4rt_port_zero, e);
     cls_program_alloc := fun e => (None, e);
     cls_program_insert := fun _ _ e => (0, e);
     cls_prog_del := fun _ _ e => e;
     cls_prog_dealloc := fun _ e => e |}.

(** The descriptors of [Sim.classes], and "lossy" at address 3. *)
Definition classes (c : ptr) : p4rt_class (env := Sim.env) :=
  if N.eqb c 3%N then lossy_class else Sim.classes c.

(** The remaining members: the "lossy" class forgets a deleted port
    (the state jumps past 1000), the others cannot delete ports; all
    refuse to add a port without a name or under the number 9. *)
Definition more (c : ptr) : p4rt_class_more (env := Sim.env) :=
  {| cls_init := fun e => e;
     cls_enumerate_names := fun _ names e => (0, names, e);
     cls_run := fun _ _ e => (EAGAIN, e);
     cls_wait := fun _ _ e => e;
     cls_port_add := fun _ nd n e =>
       (if String.eqb (netdev_get_name nd) "" || N.eqb n 9%N then Sim.EINVAL else 0, e);
     cls_port_del := fun _ _ e =>
       if N.eqb c 3%N then (0, (e + 1000)%N) else (Sim.EINVAL, e) |}.

Definition pi : pi_server (env := Sim.env) :=
  {| pi_init := fun _ e => e;
     PIGrpcServerRun := fun e => e;
     PIGrpcServerShutdown := fun e => e;
     PIGrpcServerCleanup := fun e => e |}.

(** Three files: "prog.bin" holds three bytes, "short.bin" claims
    three and yields one, "empty.bin" holds none.  Standard input is a
    pipe: ftell fails on it. *)
Definition externals : externs (env := Sim.env) :=
  {| dpif_normalize_type := Sim.normalize;
     netdev_open := fun name _ e => (if String.eqb name "missing" then ENODEV else 0, e);
     netdev_close := fun _ e => e;
     time_msec := fun e => (0, e);
     fopen := fun name e =>
       (if String.eqb name "prog.bin" then Some (File 3%N)
        else if String.eqb name "short.bin" then Some (File 4%N)
        else if String.eqb name "empty.bin" then Some (File 5%N)
        else None, e);
     ftell_end := fun st e =>
       (match st with Stdin => -1 | File 3%N | File 4%N => 3 | _ => 0 end, e);
     fread := fun st _ e =>
       (match st with
        | File 3%N => [Byte.x01; Byte.x02; Byte.x03]
        | File 4%N => [Byte.x01]
        | _ => []
        end, e);
     ferror := fun _ _ => None;
     fclose := fun _ e => e |}.

Definition boot : world (env := Sim.env) :=
  {| class_at := classes; ext := externals; p4rt_classes := []; all_p4rts := [];
     progs := ∅; rcu_postponed := []; environ := 100%N; trace := [] |}.

(** The three classes registered by [p4rt_init] and two registrations. *)
Definition registered : world :=
  Sim.after (p4rt_class_register 3%N)
    (Sim.after (p4rt_class_register 2%N) (Sim.after (p4rt_init more 1%N pi) boot)).

(** The device "br0" of type "system" (at 100). *)
Definition with_br0 : world := Sim.after (p4rt_create "br0" (Some "system")) registered.

(** The device "br2" of type "lossy" (at 100) with the port "eth0"
    reconciled (at 101, number 7). *)
Definition with_br2 : world := Sim.after (p4rt_create "br2" (Some "lossy")) registered.

Definition with_eth0 : world := Sim.after (update_port 100%N "eth0") with_br2.

(** The struct of "br0" in [Sim.with_eth0] and in [Sim.with_program]. *)
Definition eth0_port : p4port :=
  {| port_p4rt := 100%N; port_netdev := {| netdev_get_name := "eth0" |};
     port_no := 1%N; port_created := 0 |}.

Definition br0_eth0 : p4rt :=
  with_ports [(101%N, eth0_port)] (new_p4rt 1%N "br0" "system").

Definition br0_program : p4rt := with_prog (Some 102%N) br0_eth0.

(** The struct of "br2" in [with_eth0]. *)
Definition br2_eth0 : p4rt :=
  with_ports [(101%N, {| port_p4rt := 100%N;
                         port_netdev := {| netdev_get_name := "eth0" |};
                         port_no := 7%N; port_created := 0 |})]
             (new_p4rt 3%N "br2" "lossy").

End Sim2.
(** * Properties *)

Section Proofs.
Context {env : Type}.
Implicit Types (w : world (env := env)) (p q a : ptr) (d : p4rt).

(** ** Backend registry *)

Lemma class_find_none (at_ : ptr → p4rt_class (env := env)) (l : list ptr) (ty : string) :
  (∀ c, c ∈ l → ty ∉ class_types (at_ c)) ↔ class_find at_ l ty = None.
Proof.
  induction l as [|c l IH]; simpl.
  - split; [done | intros _ c Hc; inversion Hc].
  - case_bool_decide as Hty.
    + split; [|done]. intros H. exfalso. apply (H c); [left | done].
    + rewrite <- IH. split.
      * intros H c' Hc'. apply H. by right.
      * intros H c' Hc'. apply elem_of_cons in Hc' as [-> | Hc']; auto.
Qed.

Lemma class_find_first (at_ : ptr → p4rt_class (env := env)) (l1 l2 : list ptr) c ty :
  (∀ c', c' ∈ l1 → ty ∉ class_types (at_ c')) →
  ty ∈ class_types (at_ c) →
  class_find at_ (l1 ++ c :: l2) ty = Some c.
Proof.
  induction l1 as [|c1 l1 IH]; simpl; intros Hl1 Hc.
  - by rewrite bool_decide_eq_true_2.
  - rewrite bool_decide_eq_false_2; [|apply Hl1; left].
    apply IH; [|done]. intros c' Hc'. apply Hl1. by right.
Qed.

Lemma class_find_some (at_ : ptr → p4rt_class (env := env)) (l : list ptr) c ty :
  class_find at_ l ty = Some c →
  ∃ l1 l2, l = l1 ++ c :: l2 ∧ (∀ c', c' ∈ l1 → ty ∉ class_types (at_ c'))
           ∧ ty ∈ class_types (at_ c).
Proof.
  induction l as [|c1 l IH]; simpl; [done|].
  case_bool_decide as Hty.
  - intros [= <-]. exists [], l. split_and!; [done | | done].
    intros c' Hc'. inversion Hc'.
  - intros (l1 & l2 & -> & Hl1 & Hc)%IH. exists (c1 :: l1), l2. split_and!; [done | | done].
    intros c' Hc'. apply elem_of_cons in Hc' as [-> | Hc']; auto.
Qed.

Lemma class_find_app (at_ : ptr → p4rt_class (env := env)) (l1 l2 : list ptr) ty :
  class_find at_ (l1 ++ l2) ty =
  match class_find at_ l1 ty with
  | Some c => Some c
  | None => class_find at_ l2 ty
  end.
Proof.
  induction l1 as [|c1 l1 IH]; simpl; [done|]. by case_bool_decide.
Qed.

Lemma registered_existsb (l : list ptr) c : existsb (N.eqb c) l = true ↔ c ∈ l.
Proof.
  rewrite existsb_exists, list_elem_of_In. split.
  - by intros (x & Hx & ->%N.eqb_eq).
  - intros H. exists c. split; [done | apply N.eqb_refl].
Qed.

Lemma class_find_is_Some (at_ : ptr → p4rt_class (env := env)) (l : list ptr) (ty : string) :
  (∃ c, c ∈ l ∧ ty ∈ class_types (at_ c)) ↔ is_Some (class_find at_ l ty).
Proof.
  split.
  - intros (c & Hc & Hty). destruct (class_find at_ l ty) eqn:E; [by eexists|].
    rewrite <- class_find_none in E. by destruct (E c Hc).
  - intros [c (l1 & l2 & -> & _ & Hty)%class_find_some].
    exists c. split; [|done]. apply elem_of_app. right. left.
Qed.

(** C7. [p4rt_class_register] answers EEXIST when the very descriptor
    is already registered and otherwise appends it after the classes
    registered so far; [p4rt_class_find__] therefore returns the first
    class in registration order whose enumerated types contain the
    type, a class registered later never displaces an earlier match,
    and NULL comes back when no registered class enumerates the type. *)
Theorem p4rt_class_register_find w (new_class : ptr) :
  (new_class ∈ p4rt_classes w →
     p4rt_class_register new_class w = Some (EEXIST, w))
  ∧ (new_class ∉ p4rt_classes w →
     p4rt_class_register new_class w
     = Some (0, with_classes (p4rt_classes w ++ [new_class]) w))
  ∧ (∀ ty l1 c l2,
       p4rt_classes w = l1 ++ c :: l2 →
       (∀ c', c' ∈ l1 → ty ∉ class_types (class_at w c')) →
       ty ∈ class_types (class_at w c) →
       p4rt_class_find__ w ty = Some c)
  ∧ (∀ ty,
       (∀ c, c ∈ p4rt_classes w → ty ∉ class_types (class_at w c)) →
       p4rt_class_find__ w ty = None)
  ∧ (∀ ty,
       p4rt_class_find__ (with_classes (p4rt_classes w ++ [new_class]) w) ty
       = match p4rt_class_find__ w ty with
         | Some c => Some c
         | None => if bool_decide (ty ∈ class_types (class_at w new_class))
                   then Some new_class else None
         end).
Proof.
  unfold p4rt_class_register, p4rt_class_find__. split_and!.
  - intros H. apply registered_existsb in H. by rewrite H.
  - intros H. destruct (existsb _ _) eqn:E; [|done].
    by apply registered_existsb in E.
  - intros ty l1 c l2 -> Hl1 Hc. by apply class_find_first.
  - intros ty H. by apply class_find_none.
  - intros ty. simpl. rewrite class_find_app. simpl. done.
Qed.

(** C6. [p4rt_delete] answers EAFNOSUPPORT when no registered class
    enumerates the type, EACCES when the class the type resolves to has
    no [del] operation, and otherwise whatever that class's [del]
    returns for the type and name. *)
Theorem p4rt_delete_spec w (name ty : string) :
  ((∀ c, c ∈ p4rt_classes w → ty ∉ class_types (class_at w c)) →
     p4rt_delete name ty w = Some (EAFNOSUPPORT, w))
  ∧ (∀ c, p4rt_class_find__ w ty = Some c →
          cls_del (class_at w c) = None →
          p4rt_delete name ty w = Some (EACCES, w))
  ∧ (∀ c del, p4rt_class_find__ w ty = Some c →
          cls_del (class_at w c) = Some del →
          p4rt_delete name ty w
          = Some ((del ty name (environ w)).1,
                  with_call (EvDel c ty name) (del ty name (environ w)).2 w)).
Proof.
  unfold p4rt_delete, bind, gets, ret, call. split_and!.
  - intros H. apply class_find_none in H. unfold p4rt_class_find__. by rewrite H.
  - intros c Hc Hdel. by rewrite Hc, Hdel.
  - intros c del Hc Hdel. rewrite Hc, Hdel. by destruct (del ty name (environ w)).
Qed.

(** C4. When no registered class enumerates the normalised datapath
    type, [p4rt_create] answers EAFNOSUPPORT, hands back no device and
    leaves the whole state, hence the registry and its size, as it
    was. *)
Theorem p4rt_create_unsupported_type w (name : string) (ty : option string) :
  (∀ c, c ∈ p4rt_classes w →
        dpif_normalize_type (ext w) ty ∉ class_types (class_at w c)) →
  p4rt_create name ty w = Some ((EAFNOSUPPORT, None), w)
  ∧ ∀ r w', p4rt_create name ty w = Some (r, w') →
            all_p4rts w' = all_p4rts w
            ∧ Hmap.count (all_p4rts w') = Hmap.count (all_p4rts w).
Proof.
  intros H. apply class_find_none in H.
  assert (E : p4rt_create name ty w = Some ((EAFNOSUPPORT, None), w)).
  { unfold p4rt_create, bind, gets, ret, p4rt_class_find__. by rewrite H. }
  split; [done|]. intros r w'. rewrite E. by intros [= _ <-].
Qed.

(** C10. [p4rt_type_run] looks up the type it was given, or "system"
    for a NULL or empty one, and [p4rt_type_wait] the normalised type;
    both use the class pointer the lookup returns without a NULL test.
    Each runs without a fault exactly when some registered class
    enumerates that type, which is exactly when the lookup does not
    take its not-found branch.  [dpif_normalize_type] is lib/dpif.c's:
    where it does to the type what [p4rt_type_run] does itself (the
    type, or "system" for a NULL or empty one), the two functions are
    safe under one and the same condition, that some registered class
    enumerates the defaulted type. *)
Theorem p4rt_type_run_wait_safe w (ty : option string) :
  (type_or_system None = "system"
   ∧ type_or_system (Some "") = "system"
   ∧ ∀ c s, type_or_system (Some (String c s)) = String c s)
  ∧ ((∃ c, c ∈ p4rt_classes w ∧ type_or_system ty ∈ class_types (class_at w c))
     ↔ is_Some (p4rt_class_find__ w (type_or_system ty)))
  ∧ (is_Some (p4rt_class_find__ w (type_or_system ty))
     ↔ is_Some (p4rt_type_run ty w))
  ∧ ((∃ c, c ∈ p4rt_classes w
           ∧ dpif_normalize_type (ext w) ty ∈ class_types (class_at w c))
     ↔ is_Some (p4rt_class_find__ w (dpif_normalize_type (ext w) ty)))
  ∧ (is_Some (p4rt_class_find__ w (dpif_normalize_type (ext w) ty))
     ↔ is_Some (p4rt_type_wait ty w))
  ∧ (dpif_normalize_type (ext w) ty = type_or_system ty →
     ((∃ c, c ∈ p4rt_classes w ∧ type_or_system ty ∈ class_types (class_at w c))
      ↔ is_Some (p4rt_type_run ty w))
     ∧ ((∃ c, c ∈ p4rt_classes w ∧ type_or_system ty ∈ class_types (class_at w c))
        ↔ is_Some (p4rt_type_wait ty w))
     ∧ (p4rt_class_find__ w (type_or_system ty) = None
        → p4rt_type_run ty w = None ∧ p4rt_type_wait ty w = None)).
Proof.
  assert (Hrun : is_Some (p4rt_class_find__ w (type_or_system ty))
                 ↔ is_Some (p4rt_type_run ty w)).
  { unfold p4rt_type_run, bind, gets, ret, fault, call.
    destruct (p4rt_class_find__ w (type_or_system ty)) as [c|]; simpl.
    + split; [intros _ | by eexists].
      destruct (cls_type_run (class_at w c)) as [f|]; [|by eexists].
      destruct (f (type_or_system ty) (environ w)). by eexists.
    + split; by intros [? ?]. }
  assert (Hwait : is_Some (p4rt_class_find__ w (dpif_normalize_type (ext w) ty))
                  ↔ is_Some (p4rt_type_wait ty w)).
  { unfold p4rt_type_wait, bind, gets, ret, fault, call_.
    destruct (p4rt_class_find__ w (dpif_normalize_type (ext w) ty)) as [c|]; simpl.
    + split; [intros _ | by eexists].
      destruct (cls_type_wait (class_at w c)) as [f|]; by eexists.
    + split; by intros [? ?]. }
  split_and!; try done.
  - apply class_find_is_Some.
  - apply class_find_is_Some.
  - intros Hnorm. rewrite Hnorm in Hwait. split_and!.
    + by rewrite <- Hrun, class_find_is_Some.
    + by rewrite <- Hwait, class_find_is_Some.
    + intros Hnone. rewrite Hnone in Hrun, Hwait.
      split; apply eq_None_not_Some; intros H.
      * apply Hrun in H. by destruct H.
      * apply Hwait in H. by destruct H.
Qed.

(** ** The list model of hmap *)

Lemma at_addr_NoDup {T} (h : hmap T) a (x : T) :
  NoDup h.*1 → (a, x) ∈ h → Hmap.at_addr a h = Some x.
Proof.
  induction h as [|[b y] h IH]; simpl; intros Hnd Hin; [inversion Hin|].
  apply NoDup_cons in Hnd as [Hb Hnd].
  apply elem_of_cons in Hin as [[= -> ->] | Hin].
  - by rewrite N.eqb_refl.
  - destruct (N.eqb_spec a b) as [->|Hne]; [|auto].
    destruct Hb. apply list_elem_of_fmap. by exists (b, x).
Qed.

Lemma at_addr_None {T} (h : hmap T) a :
  Hmap.at_addr a h = None ↔ a ∉ h.*1.
Proof.
  induction h as [|[b y] h IH]; simpl.
  - split; [intros _ H; inversion H | done].
  - rewrite not_elem_of_cons. destruct (N.eqb_spec a b) as [->|Hne].
    + split; [done | by intros [? _]].
    + rewrite IH. tauto.
Qed.

Lemma at_addr_store {T} (h : hmap T) a (f : T → T) :
  Hmap.at_addr a (Hmap.store a f h) = f <$> Hmap.at_addr a h.
Proof.
  induction h as [|[b y] h IH]; simpl; [done|].
  destruct (N.eqb_spec a b) as [->|Hne]; simpl.
  - by rewrite N.eqb_refl.
  - by destruct (N.eqb_spec a b).
Qed.

Lemma remove_not_elem_of {T} (h : hmap T) a :
  NoDup h.*1 → a ∉ (Hmap.remove a h).*1.
Proof.
  induction h as [|[b y] h IH]; simpl; intros Hnd.
  - intros H. inversion H.
  - apply NoDup_cons in Hnd as [Hb Hnd].
    destruct (N.eqb_spec a b) as [->|Hne]; [done|].
    simpl. rewrite not_elem_of_cons. auto.
Qed.

Lemma remove_subseteq {T} (h : hmap T) a : Hmap.remove a h ⊆ h.
Proof.
  induction h as [|[b y] h IH]; simpl; [done|].
  destruct (N.eqb a b).
  - intros x Hx. by right.
  - intros x Hx. apply elem_of_cons in Hx as [-> | Hx]; [left | right; auto].
Qed.

Lemma first_None {T} (h : hmap T) (test : T → bool) :
  Hmap.first test h = None ↔ ∀ a x, (a, x) ∈ h → test x = false.
Proof.
  induction h as [|[b y] h IH]; simpl.
  - split; [intros _ a x H; inversion H | done].
  - destruct (test y) eqn:E.
    + split; [done|]. intros H. specialize (H b y). rewrite E in H.
      discriminate H. left.
    + rewrite IH. split.
      * intros H a x Hin. apply elem_of_cons in Hin as [[= -> ->] | Hin]; eauto.
      * intros H a x Hin. apply (H a). by right.
Qed.

Lemma first_Some {T} (h : hmap T) (test : T → bool) a (x : T) :
  Hmap.first test h = Some (a, x) → (a, x) ∈ h ∧ test x = true.
Proof.
  induction h as [|[b y] h IH]; simpl; [done|].
  destruct (test y) eqn:E.
  - intros [= -> ->]. split; [left | done].
  - intros [Hin Ht]%IH. split; [by right | done].
Qed.

(* With keys that identify the node, the first match is the node. *)
(** ** Program slot *)

(** C9. On a device whose [prog] is set, [p4rt_initialize_datapath]
    returns 0 at once: no stream is opened or read, no backend is
    called, and neither the program slot nor anything else changes. *)
Theorem p4rt_initialize_datapath_already_installed w p d q (filename : string) :
  Hmap.at_addr p (all_p4rts w) = Some d →
  p4rt_prog d = Some q →
  p4rt_initialize_datapath p filename w = Some (0, w).
Proof.
  intros Hp Hq. unfold p4rt_initialize_datapath, bind, get_p4rt, ret.
  by rewrite Hp, Hq.
Qed.

(** ** Registry queries *)

(** C8, as the code has it.  [p4rt_query_switch_features] answers for
    the device [p4rt_lookup] resolves the name to: it returns 0 and
    fills in [n_ports] with the number of nodes in that device's port
    table and [n_tables] with 0.  For a registered device whose name
    no other registered device bears, that is the device itself; for
    any registered device the query on its name succeeds, with the
    port count of a registered device of that name.  For a name no
    registered device bears it returns ENODEV and leaves the features
    alone.  No case changes the state. *)
Theorem p4rt_query_switch_features_spec w (features : p4rt_switch_features) :
  (∀ (name : string) p d,
     p4rt_lookup w name = Some p →
     Hmap.at_addr p (all_p4rts w) = Some d →
     p4rt_query_switch_features name features w
     = Some ((0, {| n_tables := 0; n_ports := N.of_nat (length (p4rt_ports d)) |}), w))
  ∧ (∀ p d,
       Hmap.at_addr p (all_p4rts w) = Some d →
       (∀ p' d', (p', d') ∈ all_p4rts w → p4rt_name d' = p4rt_name d → p' = p) →
       p4rt_query_switch_features (p4rt_name d) features w
       = Some ((0, {| n_tables := 0; n_ports := N.of_nat (length (p4rt_ports d)) |}), w))
  ∧ (∀ p d,
       (p, d) ∈ all_p4rts w →
       NoDup (all_p4rts w).*1 →
       ∃ p' d', (p', d') ∈ all_p4rts w
                ∧ p4rt_name d' = p4rt_name d
                ∧ p4rt_query_switch_features (p4rt_name d) features w
                  = Some ((0, {| n_tables := 0;
                                 n_ports := N.of_nat (length (p4rt_ports d')) |}), w))
  ∧ (∀ name : string,
       (∀ p d, (p, d) ∈ all_p4rts w → p4rt_name d ≠ name) →
       p4rt_query_switch_features name features w = Some ((ENODEV, features), w)).
Proof.
  assert (Hres : ∀ (name : string) p d,
    p4rt_lookup w name = Some p →
    Hmap.at_addr p (all_p4rts w) = Some d →
    p4rt_query_switch_features name features w
    = Some ((0, {| n_tables := 0; n_ports := N.of_nat (length (p4rt_ports d)) |}), w)).
  { intros name p d Hl Hp.
    unfold p4rt_query_switch_features, bind, gets, ret, get_p4rt. by rewrite Hl, Hp. }
  split_and!.
  - exact Hres.
  - intros p d Hp Huniq. apply (Hres _ p d); [|done]. unfold p4rt_lookup.
    destruct (Hmap.first _ (all_p4rts w)) as [[p' d']|] eqn:Hf; simpl.
    + apply first_Some in Hf as [Hin Hn%String.eqb_eq]. f_equal. by apply (Huniq p' d').
    + rewrite first_None in Hf. exfalso. revert Hp Hf. generalize (all_p4rts w) as h.
      induction h as [|[b y] h IH]; simpl; [done|].
      destruct (N.eqb_spec p b) as [-> | Hne].
      * intros [= ->] Hf. assert (Hin : (b, d) ∈ (b, d) :: h) by left.
        specialize (Hf b d Hin). simpl in Hf. by rewrite String.eqb_refl in Hf.
      * intros Hp Hf. apply (IH Hp). intros a x Hax. apply (Hf a x). by right.
  - intros p d Hin Hnd. unfold p4rt_query_switch_features, bind, gets, ret, p4rt_lookup,
      get_p4rt.
    destruct (Hmap.first _ (all_p4rts w)) as [[p' d']|] eqn:Hf; simpl.
    + apply first_Some in Hf as [Hin' Hn%String.eqb_eq].
      exists p', d'. rewrite (at_addr_NoDup _ p' d' Hnd Hin'). done.
    + rewrite first_None in Hf. specialize (Hf p d Hin). simpl in Hf.
      by rewrite String.eqb_refl in Hf.
  - intros name Hno.
    unfold p4rt_query_switch_features, bind, gets, ret, p4rt_lookup.
    assert (Hmap.first (λ d, String.eqb (p4rt_name d) name) (all_p4rts w) = None) as ->; [|done].
    apply first_None. intros a x Hin. apply String.eqb_neq. eauto.
Qed.

(** ** Device creation *)

(** C3. When the resolved class allocates a device and its [construct]
    then fails, [p4rt_create] returns that error and no device, and has
    by then run [p4rt_destroy__] itself: the node it linked is unlinked
    again, so the registry is exactly what it was, the class's
    [dealloc] has been called on the device, and nothing was left to
    the RCU queue. *)
Theorem p4rt_create_construct_fails w (name : string) (ty : option string)
    c p (e e' : env) (error : Z) :
  let ty' := dpif_normalize_type (ext w) ty in
  let d := {| p4rt_cls := c; p4rt_name := name; p4rt_type := ty'; p4rt_dev_id := 0%N;
              p4rt_p4info := None; p4rt_ports := []; p4rt_prog := None |} in
  p4rt_class_find__ w ty' = Some c →
  cls_alloc (class_at w c) (environ w) = (Some p, e) →
  cls_construct (class_at w c) p d e = (error, e') →
  error ≠ 0 →
  ∃ w', p4rt_create name ty w = Some ((error, None), w')
        ∧ all_p4rts w' = all_p4rts w
        ∧ (p ∉ (all_p4rts w).*1 → Hmap.at_addr p (all_p4rts w') = None)
        ∧ (∀ nm, p4rt_lookup w' nm = p4rt_lookup w nm)
        ∧ trace w' = trace w ++ [EvAlloc c; EvConstruct p; EvDealloc p]
        ∧ rcu_postponed w' = rcu_postponed w
        ∧ progs w' = progs w.
Proof.
  intros ty' d Hc Halloc Hcons Herr.
  unfold p4rt_create, bind, gets, ret, call, modify. fold ty'. rewrite Hc. simpl.
  rewrite Halloc. simpl. fold d. rewrite Hcons.
  assert (nonzero error = true) as ->.
  { unfold nonzero. by apply negb_true_iff, Z.eqb_neq. }
  unfold p4rt_destroy__, bind, get_p4rt, modify, class_of, gets, call_. simpl.
  rewrite N.eqb_refl. simpl. rewrite N.eqb_refl.
  eexists. split; [reflexivity|]. simpl. split_and!; try done.
  - intros H. by apply at_addr_None.
  - by rewrite <- !app_assoc.
Qed.

(** ** Control-plane entry points *)

(** C2, as the code has it.  When [program_insert] fails,
    [_pi_update_device_start] returns PI_STATUS_TARGET_ERROR.  If the
    device had no program, the struct just obtained from
    [program_alloc] is handed to [prog_dealloc] and the slot stays
    empty.  If the device had one, it stays in the slot and is not
    deallocated, but its [data] and [data_len] were overwritten with
    the pushed payload before the insert was tried. *)
Theorem _pi_update_device_start_insert_fails w (dev_id : N)
    (device_data : list Byte.byte) (device_data_size : N) p d :
  let c := class_at w (p4rt_cls d) in
  let pr := {| prog_p4rt := p; prog_data := device_data;
               prog_data_len := device_data_size |} in
  p4rt_lookup_by_dev_id w dev_id = Some p →
  Hmap.at_addr p (all_p4rts w) = Some d →
  (∀ q (e e' : env) error,
     p4rt_prog d = None →
     cls_program_alloc c (environ w) = (Some q, e) →
     cls_program_insert c q pr e = (error, e') →
     error ≠ 0 →
     ∃ w', _pi_update_device_start dev_id device_data device_data_size w
           = Some (PI_STATUS_TARGET_ERROR, w')
           ∧ all_p4rts w' = all_p4rts w
           ∧ progs w' = delete q (progs w)
           ∧ trace w' = trace w ++ [EvProgramAlloc p; EvProgramInsert q; EvProgDealloc q])
  ∧ (∀ q pr0 (e' : env) error,
     p4rt_prog d = Some q →
     progs w !! q = Some pr0 →
     cls_program_insert c q pr (environ w) = (error, e') →
     error ≠ 0 →
     ∃ w', _pi_update_device_start dev_id device_data device_data_size w
           = Some (PI_STATUS_TARGET_ERROR, w')
           ∧ all_p4rts w' = all_p4rts w
           ∧ progs w' = <[q := pr]> (progs w)
           ∧ trace w' = trace w ++ [EvProgramInsert q]).
Proof.
  intros c pr Hid Hp.
  assert (Hnz : ∀ error, error ≠ 0 → nonzero error = true).
  { intros error H. unfold nonzero. by apply negb_true_iff, Z.eqb_neq. }
  split.
  - intros q e e' error Hnone Halloc Hins Herr.
    unfold _pi_update_device_start, bind, gets, ret, call, call_, modify,
      get_p4rt, class_of.
    rewrite Hid, Hp. simpl. rewrite Hnone. fold c. rewrite Halloc. simpl.
    fold pr. rewrite Hins, (Hnz _ Herr). simpl. rewrite Hp, Hnone.
    eexists. split; [reflexivity|]. simpl. split_and!; [done | |].
    + by rewrite delete_insert_eq.
    + by rewrite <- !app_assoc.
  - intros q pr0 e' error Hsome Hlive Hins Herr.
    unfold _pi_update_device_start, bind, gets, ret, call, call_, modify,
      get_p4rt, get_prog, class_of.
    rewrite Hid, Hp. simpl. rewrite Hsome, Hlive. simpl. fold c pr.
    rewrite Hins, (Hnz _ Herr). simpl. rewrite Hp, Hsome.
    eexists. split; [reflexivity|]. done.
Qed.

(** ** Device destruction *)

Lemma skel_addrs (h : hmap p4rt) : (skel h).*1 = h.*1.
Proof. unfold skel. rewrite <- list_fmap_compose. done. Qed.

Lemma skel_store (h : hmap p4rt) a (f : p4rt → p4rt) :
  (∀ d, ident (f d) = ident d) → skel (Hmap.store a f h) = skel h.
Proof.
  intros Hf. induction h as [|[b y] h IH]; simpl; [done|].
  destruct (N.eqb a b); simpl; unfold skel in *; simpl.
  - by rewrite Hf.
  - by rewrite IH.
Qed.

Lemma at_addr_skel (h : hmap p4rt) a :
  Hmap.at_addr a (skel h) = ident <$> Hmap.at_addr a h.
Proof.
  induction h as [|[b y] h IH]; simpl; [done|]. by destruct (N.eqb a b).
Qed.

Lemma first_skel (h : hmap p4rt) (test : p4rt → bool) test' :
  (∀ d, test d = test' (ident d)) →
  fst <$> Hmap.first test h = fst <$> Hmap.first test' (skel h).
Proof.
  intros Ht. induction h as [|[b y] h IH]; simpl; [done|].
  rewrite Ht. by destruct (test' (ident y)).
Qed.

Lemma p4rt_lookup_skel w w' :
  skel (all_p4rts w') = skel (all_p4rts w) →
  (∀ nm, p4rt_lookup w' nm = p4rt_lookup w nm)
  ∧ (∀ id, p4rt_lookup_by_dev_id w' id = p4rt_lookup_by_dev_id w id).
Proof.
  intros Hs. unfold p4rt_lookup, p4rt_lookup_by_dev_id. split.
  - intros nm.
    rewrite !(first_skel _ _ (λ k, String.eqb k.1.1.2 nm)); [by rewrite Hs | done..].
  - intros id.
    rewrite !(first_skel _ _ (λ k, N.eqb k.1.2 id)); [by rewrite Hs | done..].
Qed.

Lemma keeps_registry_refl w : keeps_registry w w.
Proof.
  unfold keeps_registry. split_and!; try done. exists []. by rewrite app_nil_r.
Qed.

Lemma keeps_registry_trans w1 w2 w3 :
  keeps_registry w1 w2 → keeps_registry w2 w3 → keeps_registry w1 w3.
Proof.
  intros (Hs & Hp & Hr & Hc & Hx & Hl & evs & Ht & He)
         (Hs' & Hp' & Hr' & Hc' & Hx' & Hl' & evs' & Ht' & He').
  unfold keeps_registry. split_and!; try congruence.
  exists (evs ++ evs'). split.
  - by rewrite Ht', Ht, app_assoc.
  - rewrite forallb_app. by rewrite He, He'.
Qed.

Lemma keeps_registry_at_addr w w' p d :
  keeps_registry w w' →
  Hmap.at_addr p (all_p4rts w) = Some d →
  ∃ d', Hmap.at_addr p (all_p4rts w') = Some d' ∧ ident d' = ident d.
Proof.
  intros (Hs & _) Hp.
  assert (H : Hmap.at_addr p (skel (all_p4rts w')) = Some (ident d)).
  { by rewrite Hs, at_addr_skel, Hp. }
  rewrite at_addr_skel in H. destruct (Hmap.at_addr p (all_p4rts w')) as [d'|]; [|done].
  exists d'. split; [done|]. simpl in H. congruence.
Qed.

Lemma p4port_destroy_run w (port : ptr * p4port) (del : bool) d :
  Hmap.at_addr (port_p4rt port.2) (all_p4rts w) = Some d →
  ∃ w', p4port_destroy (Some port) del w = Some (tt, w') ∧ keeps_registry w w'.
Proof.
  intros Hp.
  unfold p4port_destroy, p4port_destroy__, bind, get_p4rt, class_of, gets, call_,
    store_p4rt, modify.
  rewrite Hp. simpl. rewrite Hp. simpl.
  eexists. split; [reflexivity|]. unfold keeps_registry. simpl. split_and!; try done.
  - by apply skel_store.
  - eexists. split; [by rewrite <- !app_assoc | done].
Qed.

Lemma for_each_cons {A} (x : A) (l : list A) (body : A → M unit) w :
  for_each (env := env) (x :: l) body w
  = match body x w with
    | Some (_, w') => for_each l body w'
    | None => None
    end.
Proof. done. Qed.

Lemma get_p4rt_Some w p d :
  Hmap.at_addr p (all_p4rts w) = Some d ↔ get_p4rt p w = Some (d, w).
Proof.
  unfold get_p4rt. destruct (Hmap.at_addr p (all_p4rts w)); split; congruence.
Qed.

(** ** Port reconciliation *)

Lemma nonzero_true (e : Z) : nonzero e = true ↔ e ≠ 0.
Proof. unfold nonzero. rewrite negb_true_iff. apply Z.eqb_neq. Qed.

Lemma p4rt_port_query_by_name_run w p d (name : string) (port : p4rt_port) (e : env) :
  Hmap.at_addr p (all_p4rts w) = Some d →
  cls_port_query_by_name (class_at w (p4rt_cls d)) p name (environ w) = (0, port, e) →
  p4rt_port_query_by_name p name w
  = Some ((0, port), with_call (EvPortQueryByName p name) e w).
Proof.
  intros Hp Hq. unfold p4rt_port_query_by_name, bind, get_p4rt, class_of, gets, call, ret.
  by rewrite Hp, Hq.
Qed.

Lemma p4rt_port_open_run w p d (port : p4rt_port) (e : env) :
  Hmap.at_addr p (all_p4rts w) = Some d →
  netdev_open (ext w) (pp_name port) (pp_type port) (environ w) = (0, e) →
  ∃ port', p4rt_port_open p port w
           = Some ((0, port', Some {| netdev_get_name := pp_name port |}),
                   with_call (EvNetdevOpen (pp_name port) (pp_type port)) e w)
           ∧ pp_port_no port' = resolved_port_no d port.
Proof.
  intros Hp Ho. unfold p4rt_port_open, resolved_port_no, bind, gets, call, ret, get_p4rt.
  rewrite Ho. simpl. destruct (N.eqb (pp_port_no port) OFPP_NONE); simpl.
  - rewrite Hp. destruct (String.eqb (p4rt_name d) (pp_name port)); eexists; done.
  - eexists; done.
Qed.

Lemma p4port_install_ok w w' p (nd : netdev) (h : ofp_port_t) :
  p4port_install p nd h w = Some (0, w') →
  ∃ d a created,
    Hmap.at_addr p (all_p4rts w) = Some d
    ∧ Hmap.at_addr p (all_p4rts w')
      = Some (with_ports ((a, {| port_p4rt := p; port_netdev := nd; port_no := h;
                                 port_created := created |}) :: p4rt_ports d) d)
    ∧ class_at w' = class_at w
    ∧ ext w' = ext w.
Proof.
  unfold p4port_install, bind, get_p4rt, class_of, gets, call, call_, ret,
    store_p4rt, modify.
  destruct (Hmap.at_addr p (all_p4rts w)) as [d|] eqn:Hp; [|done]. simpl.
  destruct (cls_port_alloc _ _) as [[a|] e1]; simpl; [|done].
  destruct (time_msec _ _) as [created e2]. simpl.
  destruct (cls_port_construct _ _ _ _) as [error e3]. simpl.
  destruct (nonzero error) eqn:Herr.
  - apply nonzero_true in Herr.
    destruct (p4port_destroy__ _ _) as [[[] w'']|]; [|done]. intros [= ? _]. done.
  - intros [= <-]. exists d, a, created. simpl. split_and!; try done.
    by rewrite at_addr_store, Hp.
Qed.

Lemma p4port_remove_keeps w w' (port : ptr * p4port) :
  p4port_remove port w = Some (tt, w') → keeps_registry w w'.
Proof.
  unfold p4port_remove.
  destruct (Hmap.at_addr (port_p4rt port.2) (all_p4rts w)) as [d|] eqn:Hp.
  - destruct (p4port_destroy_run w port true d Hp) as (w'' & -> & Hk).
    by intros [= <-].
  - unfold p4port_destroy, bind, get_p4rt. by rewrite Hp.
Qed.

Lemma update_port_first w w1 p d (name : string) (port : p4rt_port) (e1 e2 : env) :
  Hmap.at_addr p (all_p4rts w) = Some d →
  cls_port_query_by_name (class_at w (p4rt_cls d)) p name (environ w) = (0, port, e1) →
  pp_name port = name →
  netdev_open (ext w) (pp_name port) (pp_type port) e1 = (0, e2) →
  update_port p name w = Some (0, w1) →
  port_reconciled w1 p (resolved_port_no d port) name
  ∧ class_at w1 = class_at w ∧ ext w1 = ext w
  ∧ ∃ d1, Hmap.at_addr p (all_p4rts w1) = Some d1 ∧ ident d1 = ident d.
Proof.
  intros Hp Hq Hname Ho. unfold update_port, bind.
  rewrite (p4rt_port_query_by_name_run w p d name port e1 Hp Hq). simpl.
  set (wq := with_call (EvPortQueryByName p name) e1 w).
  destruct (p4rt_port_open_run wq p d port e2 Hp Ho) as (port' & -> & Hno).
  set (wo := with_call _ e2 wq). rewrite Hno.
  set (h := resolved_port_no d port).
  unfold p4rt_get_port at 1. unfold bind, get_p4rt at 1.
  change (all_p4rts wo) with (all_p4rts w). rewrite Hp. unfold ret at 1.
  destruct (Hmap.first _ (p4rt_ports d)) as [[a po]|] eqn:Hfirst.
  - simpl. destruct (String.eqb (netdev_get_name (port_netdev po)) name) eqn:Hnm.
    + (* the port is there already *)
      unfold ret, p4rt_port_destroy. intros [= <-]. split_and!; try done.
      * exists a, po. unfold p4rt_get_port, bind, get_p4rt, ret.
        change (all_p4rts wo) with (all_p4rts w). rewrite Hp, Hfirst.
        apply first_Some in Hfirst as [_ Hh%N.eqb_eq]. by apply String.eqb_eq in Hnm.
      * by exists d.
    + (* a stale port is removed, the new one installed *)
      destruct (p4port_remove (a, po) wo) as [[[] wr]|] eqn:Hrm; [|done].
      apply p4port_remove_keeps in Hrm.
      destruct (keeps_registry_at_addr wo wr p d Hrm Hp) as (dr & Hpr & Hidr).
      destruct Hrm as (_ & _ & _ & Hcr & Hxr & _).
      destruct (p4port_install p _ h wr) as [[err wi]|] eqn:Hin; [|done].
      unfold ret, p4rt_port_destroy. intros [= -> <-].
      apply p4port_install_ok in Hin as (d' & a' & created & Hp' & Hpi & Hci & Hxi).
      rewrite Hpr in Hp'. injection Hp' as <-.
      split_and!; [| by rewrite Hci, Hcr | by rewrite Hxi, Hxr |].
      * eexists a', _. unfold p4rt_get_port, bind, get_p4rt, ret. rewrite Hpi. simpl.
        rewrite N.eqb_refl. done.
      * eexists. split; [done|]. by rewrite <- Hidr.
  - (* no port under that number: install *)
    destruct (p4port_install p _ h wo) as [[err wi]|] eqn:Hin; [|done].
    unfold ret, p4rt_port_destroy. intros [= -> <-].
    apply p4port_install_ok in Hin as (d' & a' & created & Hp' & Hpi & Hci & Hxi).
    change (all_p4rts wo) with (all_p4rts w) in Hp'. rewrite Hp in Hp'. injection Hp' as <-.
    split_and!; [| by rewrite Hci | by rewrite Hxi |].
    + eexists a', _. unfold p4rt_get_port, bind, get_p4rt, ret. rewrite Hpi. simpl.
      rewrite N.eqb_refl. done.
    + eexists. split; [done|]. done.
Qed.

(** C5, as the code has it.  Take a reconciliation that returned 0
    after the backend reported the port under the queried name and its
    network device was opened.  Then the port table holds, under the
    number settled for the port, a port on the network device of that
    name; and if the backend gives the same answer again, a second
    reconciliation returns 0 having only queried the backend and asked
    for the device to be opened, whether that succeeds or not: no port
    is removed or installed and no device or program state changes. *)
Theorem update_port_idempotent w w1 p d (name : string) (port : p4rt_port)
    (e1 e2 e3 : env) :
  Hmap.at_addr p (all_p4rts w) = Some d →
  cls_port_query_by_name (class_at w (p4rt_cls d)) p name (environ w) = (0, port, e1) →
  pp_name port = name →
  netdev_open (ext w) name (pp_type port) e1 = (0, e2) →
  update_port p name w = Some (0, w1) →
  cls_port_query_by_name (class_at w (p4rt_cls d)) p name (environ w1) = (0, port, e3) →
  port_reconciled w1 p (resolved_port_no d port) name
  ∧ ∃ w2, update_port p name w1 = Some (0, w2)
          ∧ all_p4rts w2 = all_p4rts w1
          ∧ progs w2 = progs w1
          ∧ rcu_postponed w2 = rcu_postponed w1
          ∧ trace w2 = trace w1 ++ [EvPortQueryByName p name;
                                    EvNetdevOpen name (pp_type port)].
Proof.
  intros Hp Hq Hname Ho Hrun Hq'. subst name.
  destruct (update_port_first w w1 p d _ port e1 e2 Hp Hq eq_refl Ho Hrun)
    as (Hrec & Hc1 & Hx1 & d1 & Hp1 & Hid1).
  split; [done|].
  assert (Hcls : p4rt_cls d1 = p4rt_cls d) by (unfold ident in Hid1; congruence).
  assert (Hnm : p4rt_name d1 = p4rt_name d) by (unfold ident in Hid1; congruence).
  unfold update_port, bind.
  rewrite (p4rt_port_query_by_name_run w1 p d1 _ port e3 Hp1);
    [|by rewrite Hc1, Hcls]. simpl.
  set (wq := with_call (EvPortQueryByName p (pp_name port)) e3 w1).
  destruct (netdev_open (ext w) (pp_name port) (pp_type port) e3) as [oerr e4] eqn:Ho'.
  destruct (Z.eq_dec oerr 0) as [-> | Hoerr].
  2:{ (* the device does not open this time: the port is skipped *)
      unfold p4rt_port_open, bind, gets, call, ret. simpl. rewrite Hx1, Ho'. simpl.
      rewrite (proj2 (nonzero_true _) Hoerr). simpl. unfold p4rt_port_destroy, ret.
      eexists. split; [reflexivity|]. simpl. split_and!; try done.
      by rewrite <- app_assoc. }
  destruct (p4rt_port_open_run wq p d1 port e4 Hp1) as (port' & -> & Hno).
  { simpl. by rewrite Hx1. }
  set (wo := with_call _ e4 wq).
  assert (Hh : pp_port_no port' = resolved_port_no d port).
  { rewrite Hno. unfold resolved_port_no. by rewrite Hnm. }
  rewrite Hh. destruct Hrec as (a & po & Hget & _ & Hpo).
  unfold p4rt_get_port, bind, get_p4rt, ret in Hget |- *.
  change (all_p4rts wo) with (all_p4rts w1). rewrite Hp1 in Hget |- *.
  injection Hget as Hget. rewrite Hget. simpl.
  rewrite Hpo, String.eqb_refl. unfold p4rt_port_destroy, ret.
  eexists. split; [reflexivity|]. simpl. split_and!; try done.
  by rewrite <- app_assoc.
Qed.

End Proofs.

(** * Further properties of p4rt.c *)

Section MoreProofs.
Context {env : Type}.
Implicit Types (w : world (env := env)) (p q a : ptr) (d : p4rt).

(** ** Device creation *)

Lemma p4rt_create_shape w (name : string) (ty : option string) :
  ∃ error o w',
    p4rt_create name ty w = Some ((error, o), w')
    ∧ progs w' = progs w
    ∧ rcu_postponed w' = rcu_postponed w
    ∧ p4rt_classes w' = p4rt_classes w
    ∧ (error ≠ 0 → o = None ∧ all_p4rts w' = all_p4rts w)
    ∧ (error = 0 →
       ∃ p c, o = Some p
              ∧ p4rt_class_find__ w (dpif_normalize_type (ext w) ty) = Some c
              ∧ all_p4rts w'
                = (p, new_p4rt c name (dpif_normalize_type (ext w) ty)) :: all_p4rts w).
Proof.
  unfold p4rt_create, bind, gets, ret, call, modify.
  destruct (p4rt_class_find__ w _) as [c|] eqn:Hc; simpl.
  - destruct (cls_alloc (class_at w c) (environ w)) as [[p|] e] eqn:Ha; simpl.
    + destruct (cls_construct _ _ _ _) as [error e'] eqn:Hk. simpl.
      destruct (nonzero error) eqn:Hnz.
      * apply nonzero_true in Hnz.
        unfold p4rt_destroy__, bind, get_p4rt, modify, class_of, gets, call_. simpl.
        rewrite !N.eqb_refl. simpl.
        eexists _, _, _. split; [reflexivity|]. simpl. rewrite ?N.eqb_refl.
        split_and!; done.
      * apply not_true_iff_false in Hnz. rewrite nonzero_true in Hnz.
        assert (error = 0) as -> by lia.
        eexists _, _, _. split; [reflexivity|]. simpl. split_and!; try done.
        intros _. by exists p, c.
    + eexists _, _, _. split; [reflexivity|]. simpl. split_and!; try done.
  - eexists _, _, _. split; [reflexivity|]. simpl. split_and!; try done.
Qed.

(** X1. [p4rt_create] never faults and is atomic on the registry: a
    non-zero return hands back no device and leaves [all_p4rts] as it
    was; a zero return has linked exactly one new device, named as
    asked, of the normalised type, with device id 0, no port and no
    program, and handed back its address.  Programs, RCU queue and
    class list are untouched either way. *)
Theorem p4rt_create_atomic w (name : string) (ty : option string) :
  ∃ error o w',
    p4rt_create name ty w = Some ((error, o), w')
    ∧ progs w' = progs w
    ∧ rcu_postponed w' = rcu_postponed w
    ∧ p4rt_classes w' = p4rt_classes w
    ∧ (error ≠ 0 → o = None ∧ all_p4rts w' = all_p4rts w)
    ∧ (error = 0 →
       ∃ p c, o = Some p
              ∧ p4rt_class_find__ w (dpif_normalize_type (ext w) ty) = Some c
              ∧ all_p4rts w'
                = (p, new_p4rt c name (dpif_normalize_type (ext w) ty)) :: all_p4rts w).
Proof. apply p4rt_create_shape. Qed.

Lemma p4rt_create_ok_inv w w' (name : string) (ty : option string) p :
  p4rt_create name ty w = Some ((0, Some p), w') →
  ∃ c, p4rt_class_find__ w (dpif_normalize_type (ext w) ty) = Some c
       ∧ all_p4rts w' = (p, new_p4rt c name (dpif_normalize_type (ext w) ty)) :: all_p4rts w
       ∧ progs w' = progs w
       ∧ rcu_postponed w' = rcu_postponed w
       ∧ class_at w' = class_at w.
Proof.
  intros Hrun.
  destruct (p4rt_create_shape w name ty) as (error & o & w'' & Hrun' & Hpr & Hrcu & _ & _ & Hok).
  rewrite Hrun in Hrun'. injection Hrun' as <- <- <-.
  destruct (Hok eq_refl) as (p' & c & [= <-] & Hc & Hreg).
  exists c. split_and!; try done.
  revert Hrun. unfold p4rt_create, bind, gets, ret, call, modify. rewrite Hc. simpl.
  destruct (cls_alloc _ _) as [[p''|] e]; simpl; [|done].
  destruct (cls_construct _ _ _ _) as [error e']. simpl.
  destruct (nonzero error).
  - destruct (p4rt_destroy__ _ _) as [[[] ?]|]; done.
  - by intros [= _ _ <-].
Qed.

(** X2. Creation and lookup round trip: after a successful
    [p4rt_create] of a name no registered device bore, [p4rt_lookup]
    of that name returns the new device, every other name resolves as
    before, and [p4rt_query_switch_features] on the name reports no
    port and no table. *)
Theorem p4rt_create_lookup w w' (name : string) (ty : option string) p
    (features : p4rt_switch_features) :
  p4rt_create name ty w = Some ((0, Some p), w') →
  (∀ a x, (a, x) ∈ all_p4rts w → p4rt_name x ≠ name) →
  p4rt_lookup w' name = Some p
  ∧ (∀ nm, nm ≠ name → p4rt_lookup w' nm = p4rt_lookup w nm)
  ∧ p4rt_query_switch_features name features w'
    = Some ((0, {| n_tables := 0; n_ports := 0 |}), w').
Proof.
  intros (c & _ & Hreg & _)%p4rt_create_ok_inv Hfresh.
  assert (Hl : p4rt_lookup w' name = Some p).
  { unfold p4rt_lookup. rewrite Hreg. simpl. by rewrite String.eqb_refl. }
  split_and!; [done | |].
  - intros nm Hnm. unfold p4rt_lookup. rewrite Hreg. simpl.
    apply String.eqb_neq in Hnm. rewrite String.eqb_sym in Hnm. by rewrite Hnm.
  - unfold p4rt_query_switch_features, bind, gets, ret, get_p4rt. rewrite Hl.
    rewrite Hreg. simpl. by rewrite N.eqb_refl.
Qed.

(** X3. The device id is the constant 0.  In a registry whose devices
    all have id 0, as every device [p4rt_create] links has, whatever
    [p4rt_create] does keeps it so; hence a lookup by a non-zero id
    finds nothing, [_pi_assign_device] answers
    PI_STATUS_DEV_NOT_ASSIGNED and [_pi_update_device_start]
    PI_STATUS_DEV_OUT_OF_RANGE for it, both without touching the
    state. *)
Theorem only_device_id_zero w w' (name : string) (ty : option string)
    (r : Z * option ptr) :
  (∀ a x, (a, x) ∈ all_p4rts w → p4rt_dev_id x = 0%N) →
  p4rt_create name ty w = Some (r, w') →
  (∀ a x, (a, x) ∈ all_p4rts w' → p4rt_dev_id x = 0%N)
  ∧ ∀ dev_id : N, dev_id ≠ 0%N →
      p4rt_lookup_by_dev_id w' dev_id = None
      ∧ (∀ p4info, _pi_assign_device dev_id p4info w'
                   = Some (PI_STATUS_DEV_NOT_ASSIGNED, w'))
      ∧ (∀ data size, _pi_update_device_start dev_id data size w'
                      = Some (PI_STATUS_DEV_OUT_OF_RANGE, w')).
Proof.
  intros Hz Hrun.
  destruct (p4rt_create_shape w name ty)
    as (error & o & w'' & Hrun' & _ & _ & _ & Hfail & Hok).
  rewrite Hrun in Hrun'. injection Hrun' as -> <-.
  assert (Hz' : ∀ a x, (a, x) ∈ all_p4rts w' → p4rt_dev_id x = 0%N).
  { destruct (decide (error = 0)) as [He|He].
    - destruct (Hok He) as (p & c & _ & _ & ->).
      intros a x [[= -> ->] | Hin]%elem_of_cons; [done | eauto].
    - destruct (Hfail He) as [_ ->]. done. }
  split; [done|]. intros dev_id Hid.
  assert (Hl : p4rt_lookup_by_dev_id w' dev_id = None).
  { unfold p4rt_lookup_by_dev_id.
    assert (Hmap.first (λ d, N.eqb (p4rt_dev_id d) dev_id) (all_p4rts w') = None) as ->;
      [|done].
    apply first_None. intros a x Hin. apply N.eqb_neq. rewrite (Hz' a x Hin). done. }
  split_and!; [done | |].
  - intros p4info. unfold _pi_assign_device, bind, gets, ret. by rewrite Hl.
  - intros data size. unfold _pi_update_device_start, bind, gets, ret. by rewrite Hl.
Qed.

(** X4. Creation and destruction round trip: destroying a device right
    after its creation, and letting two grace periods pass, calls the
    class's [destruct] and [dealloc] and leaves the registry, the
    programs and the RCU queue exactly as they were before the
    creation. *)
Theorem p4rt_create_destroy_roundtrip w w1 (name : string) (ty : option string) p
    (del : bool) :
  p4rt_create name ty w = Some ((0, Some p), w1) →
  rcu_postponed w = [] →
  ∃ w2 w3 w4,
    p4rt_destroy (Some p) del w1 = Some (tt, w2)
    ∧ all_p4rts w2 = all_p4rts w1
    ∧ ovsrcu_grace_period w2 = Some (tt, w3)
    ∧ all_p4rts w3 = all_p4rts w1
    ∧ ovsrcu_grace_period w3 = Some (tt, w4)
    ∧ all_p4rts w4 = all_p4rts w
    ∧ progs w4 = progs w
    ∧ rcu_postponed w4 = []
    ∧ trace w4 = trace w1 ++ [EvDestruct p del; EvDealloc p].
Proof.
  intros (c & _ & Hreg & Hpr & Hrcu & _)%p4rt_create_ok_inv Hq.
  set (d0 := new_p4rt c name (dpif_normalize_type (ext w) ty)) in *.
  assert (Hp1 : Hmap.at_addr p (all_p4rts w1) = Some d0).
  { rewrite Hreg. simpl. by rewrite N.eqb_refl. }
  set (w2 := with_rcu (rcu_postponed w1 ++ [Cb_p4rt_destroy_defer__ p])
               (with_call (EvDestruct p del)
                  (cls_destruct (class_at w1 c) p d0 del (environ w1)) w1)).
  set (w3 := with_rcu [Cb_p4rt_destroy__ p] w2).
  set (w4 := with_call (EvDealloc p) (cls_dealloc (class_at w3 c) p (environ w3))
               (with_p4rts (Hmap.remove p (all_p4rts w3)) (with_rcu [] w3))).
  exists w2, w3, w4. split_and!.
  - unfold p4rt_destroy, bind, get_p4rt, class_of, gets, call_, ovsrcu_postpone,
      modify, ret.
    repeat (rewrite Hp1; simpl). reflexivity.
  - done.
  - unfold ovsrcu_grace_period, bind, gets, modify. simpl. rewrite Hrcu, Hq. done.
  - done.
  - unfold ovsrcu_grace_period, bind, gets, modify. simpl.
    unfold p4rt_destroy__, get_p4rt, modify, class_of, gets, call_, ret, bind. simpl.
    change (all_p4rts w3) with (all_p4rts w1). rewrite Hp1. done.
  - simpl. rewrite Hreg. simpl. by rewrite N.eqb_refl.
  - done.
  - done.
  - simpl. by rewrite <- app_assoc.
Qed.

(** ** Control-plane entry points *)

Lemma at_addr_store_other {T} (h : hmap T) a b (f : T → T) :
  a ≠ b → Hmap.at_addr b (Hmap.store a f h) = Hmap.at_addr b h.
Proof.
  intros Hab. induction h as [|[c y] h IH]; simpl; [done|].
  destruct (N.eqb_spec a c) as [->|Hne]; simpl.
  - by destruct (N.eqb_spec b c).
  - destruct (N.eqb_spec b c); [done | apply IH].
Qed.

Lemma first_store_test {T} (h : hmap T) a (f : T → T) (test : T → bool) :
  (∀ x, test (f x) = test x) →
  fst <$> Hmap.first test (Hmap.store a f h) = fst <$> Hmap.first test h.
Proof.
  intros Hf. induction h as [|[b y] h IH]; simpl; [done|].
  destruct (N.eqb a b); simpl.
  - rewrite Hf. by destruct (test y).
  - by destruct (test y).
Qed.

Lemma first_at_addr {T} (h : hmap T) (test : T → bool) a :
  fst <$> Hmap.first test h = Some a → is_Some (Hmap.at_addr a h).
Proof.
  destruct (Hmap.first test h) as [[b x]|] eqn:E; [|done]. simpl. intros [= ->].
  apply first_Some in E as [Hin _].
  destruct (Hmap.at_addr a h) eqn:Ha; [done|].
  apply at_addr_None in Ha. destruct Ha. apply list_elem_of_fmap. by exists (a, x).
Qed.

(** X5. [_pi_assign_device] answers PI_STATUS_DEV_NOT_ASSIGNED and
    changes nothing when no device has the id.  Otherwise it answers
    PI_STATUS_SUCCESS having replaced the [p4info] of the device the
    id resolves to: no other field of that device, no other device, no
    lookup result and no program changes, and no backend is called. *)
Theorem _pi_assign_device_spec w (dev_id : N) (p4info : option ptr) :
  (p4rt_lookup_by_dev_id w dev_id = None →
   _pi_assign_device dev_id p4info w = Some (PI_STATUS_DEV_NOT_ASSIGNED, w))
  ∧ (∀ p d,
       p4rt_lookup_by_dev_id w dev_id = Some p →
       Hmap.at_addr p (all_p4rts w) = Some d →
       ∃ w', _pi_assign_device dev_id p4info w = Some (PI_STATUS_SUCCESS, w')
             ∧ Hmap.at_addr p (all_p4rts w') = Some (with_p4info p4info d)
             ∧ (∀ q, q ≠ p → Hmap.at_addr q (all_p4rts w') = Hmap.at_addr q (all_p4rts w))
             ∧ (∀ nm, p4rt_lookup w' nm = p4rt_lookup w nm)
             ∧ (∀ id, p4rt_lookup_by_dev_id w' id = p4rt_lookup_by_dev_id w id)
             ∧ progs w' = progs w
             ∧ environ w' = environ w
             ∧ trace w' = trace w).
Proof.
  unfold _pi_assign_device, bind, gets, ret, store_p4rt, modify. split.
  - by intros ->.
  - intros p d -> Hp. eexists. split; [reflexivity|]. simpl. split_and!; try done.
    + by rewrite at_addr_store, Hp.
    + intros q Hq. by apply at_addr_store_other.
    + apply p4rt_lookup_skel. simpl. by apply skel_store.
    + apply p4rt_lookup_skel. simpl. by apply skel_store.
Qed.

(** X6. [_pi_update_device_start] changes a device's program slot only
    when it answers PI_STATUS_SUCCESS.  Provided the program pointer
    of the addressed device, if set, designates a live struct, the
    call returns; with any other status the registry is as before, and
    with PI_STATUS_SUCCESS the addressed device's slot designates a
    live program holding exactly the pushed bytes and length. *)
Theorem _pi_update_device_start_outcomes w (dev_id : N)
    (device_data : list Byte.byte) (device_data_size : N) :
  (∀ p d q, p4rt_lookup_by_dev_id w dev_id = Some p →
            Hmap.at_addr p (all_p4rts w) = Some d →
            p4rt_prog d = Some q → is_Some (progs w !! q)) →
  ∃ st w',
    _pi_update_device_start dev_id device_data device_data_size w = Some (st, w')
    ∧ (st ≠ PI_STATUS_SUCCESS → all_p4rts w' = all_p4rts w)
    ∧ (st = PI_STATUS_SUCCESS →
       ∃ p q, p4rt_lookup_by_dev_id w dev_id = Some p
              ∧ p4rt_prog <$> Hmap.at_addr p (all_p4rts w') = Some (Some q)
              ∧ progs w' !! q = Some {| prog_p4rt := p; prog_data := device_data;
                                        prog_data_len := device_data_size |}).
Proof.
  intros Hlive.
  unfold _pi_update_device_start, bind, gets, ret, call, call_, modify, store_p4rt,
    get_p4rt, get_prog, class_of.
  destruct (p4rt_lookup_by_dev_id w dev_id) as [p|] eqn:Hl.
  2:{ eexists _, _. split; [reflexivity|]. split; done. }
  destruct (first_at_addr _ _ _ Hl) as [d Hp]. rewrite Hp. simpl.
  destruct (p4rt_prog d) as [q|] eqn:Hq.
  - destruct (Hlive p d q eq_refl Hp Hq) as [pr0 Hq0]. rewrite Hq0. simpl.
    destruct (cls_program_insert _ _ _ _) as [error e']. simpl.
    destruct (nonzero error); simpl.
    + rewrite Hp, Hq. eexists _, _. split; [reflexivity|]. split; done.
    + eexists _, _. split; [reflexivity|]. simpl. split; [done|]. intros _.
      exists p, q. split_and!; [done | | apply lookup_insert_eq].
      by rewrite at_addr_store, Hp.
  - destruct (cls_program_alloc _ _) as [[q|] e]; simpl.
    2:{ eexists _, _. split; [reflexivity|]. split; done. }
    destruct (cls_program_insert _ _ _ _) as [error e']. simpl.
    destruct (nonzero error); simpl.
    + rewrite Hp, Hq. eexists _, _. split; [reflexivity|]. split; done.
    + eexists _, _. split; [reflexivity|]. simpl. split; [done|]. intros _.
      exists p, q. split_and!; [done | | apply lookup_insert_eq].
      by rewrite at_addr_store, Hp.
Qed.

(** X7. Two pushes in a row: when a device without a program
    receives a payload and then another, and the backend accepts
    both, the second push reuses the struct the first one allocated.
    The device ends with that one program, holding the second payload
    only, and [program_alloc] was called once. *)
Theorem _pi_update_device_start_twice w (dev_id : N)
    (data1 data2 : list Byte.byte) (size1 size2 : N) p d q (e1 e2 e3 : env) :
  let c := class_at w (p4rt_cls d) in
  let pr1 := {| prog_p4rt := p; prog_data := data1; prog_data_len := size1 |} in
  let pr2 := {| prog_p4rt := p; prog_data := data2; prog_data_len := size2 |} in
  p4rt_lookup_by_dev_id w dev_id = Some p →
  Hmap.at_addr p (all_p4rts w) = Some d →
  p4rt_prog d = None →
  cls_program_alloc c (environ w) = (Some q, e1) →
  cls_program_insert c q pr1 e1 = (0, e2) →
  cls_program_insert c q pr2 e2 = (0, e3) →
  ∃ w1 w2,
    _pi_update_device_start dev_id data1 size1 w = Some (PI_STATUS_SUCCESS, w1)
    ∧ _pi_update_device_start dev_id data2 size2 w1 = Some (PI_STATUS_SUCCESS, w2)
    ∧ Hmap.at_addr p (all_p4rts w2) = Some (with_prog (Some q) d)
    ∧ progs w2 = <[q := pr2]> (progs w)
    ∧ trace w2 = trace w ++ [EvProgramAlloc p; EvProgramInsert q; EvProgramInsert q].
Proof.
  intros c pr1 pr2 Hl Hp Hnone Halloc Hins1 Hins2.
  set (w1 := with_p4rts (Hmap.store p (with_prog (Some q)) (all_p4rts w))
               (with_call (EvProgramInsert q) e2
                  (with_progs (<[q := pr1]> (progs w))
                     (with_call (EvProgramAlloc p) e1 w)))).
  assert (H1 : _pi_update_device_start dev_id data1 size1 w
               = Some (PI_STATUS_SUCCESS, w1)).
  { unfold _pi_update_device_start, bind, gets, ret, call, call_, modify, store_p4rt,
      get_p4rt, get_prog, class_of.
    rewrite Hl, Hp. simpl. rewrite Hnone. fold c. rewrite Halloc. simpl.
    fold pr1. rewrite Hins1. done. }
  assert (Hp1 : Hmap.at_addr p (all_p4rts w1) = Some (with_prog (Some q) d)).
  { simpl. by rewrite at_addr_store, Hp. }
  assert (Hl1 : p4rt_lookup_by_dev_id w1 dev_id = Some p).
  { rewrite <- Hl. unfold p4rt_lookup_by_dev_id. simpl. by apply first_store_test. }
  eexists w1, _. split; [done|]. split.
  - unfold _pi_update_device_start, bind, gets, ret, call, call_, modify, store_p4rt,
      get_p4rt, get_prog, class_of.
    rewrite Hl1, Hp1. simpl. rewrite lookup_insert_eq. simpl. fold c pr2.
    rewrite Hins2. simpl. reflexivity.
  - simpl. split_and!.
    + rewrite at_addr_store, at_addr_store, Hp. done.
    + by rewrite insert_insert_eq.
    + by rewrite <- !app_assoc.
Qed.

(** X8. [p4rt_prog_del] destroys the program but does not clear
    [p->prog].  On a device whose program is live it returns 0 after
    [prog_del] and [prog_dealloc]; the device still designates the
    freed struct, so a following [p4rt_initialize_datapath] returns 0
    without installing anything, and a second [p4rt_prog_del] or a
    push to that device dereferences the freed struct. *)
Theorem p4rt_prog_del_leaves_slot w p d q (pr : program) :
  Hmap.at_addr p (all_p4rts w) = Some d →
  p4rt_prog d = Some q →
  progs w !! q = Some pr →
  prog_p4rt pr = p →
  ∃ w', p4rt_prog_del p w = Some (0, w')
        ∧ all_p4rts w' = all_p4rts w
        ∧ progs w' = delete q (progs w)
        ∧ trace w' = trace w ++ [EvProgDel q; EvProgDealloc q]
        ∧ (∀ filename, p4rt_initialize_datapath p filename w' = Some (0, w'))
        ∧ p4rt_prog_del p w' = None
        ∧ (∀ dev_id data size,
             p4rt_lookup_by_dev_id w dev_id = Some p →
             _pi_update_device_start dev_id data size w' = None).
Proof.
  intros Hp Hq Hlive Hback.
  unfold p4rt_prog_del, p4rt_program_destroy, bind, get_p4rt, get_prog, class_of, gets,
    call_, modify, ret.
  rewrite Hp. simpl. rewrite Hq, Hlive, Hback, Hp. simpl.
  eexists. split; [reflexivity|]. simpl. split_and!; try done.
  - by rewrite <- app_assoc.
  - intros filename. unfold p4rt_initialize_datapath, bind, get_p4rt, ret. simpl.
    by rewrite Hp, Hq.
  - rewrite Hp. simpl. rewrite Hq. simpl. by rewrite lookup_delete_eq.
  - intros dev_id data size Hl.
    unfold _pi_update_device_start, bind, gets, ret, get_p4rt, get_prog, class_of.
    unfold p4rt_lookup_by_dev_id in *. simpl. rewrite Hl. simpl. rewrite Hp. simpl.
    rewrite Hq. simpl. by rewrite lookup_delete_eq.
Qed.

(** ** Program installation from a file *)

Lemma fill_buffer_length (length_ : N) (bytes : list Byte.byte) :
  N.of_nat (length (fill_buffer length_ bytes)) = length_.
Proof.
  unfold fill_buffer. rewrite length_take, length_app, repeat_length. lia.
Qed.

Lemma fill_buffer_exact (length_ : N) (bytes : list Byte.byte) :
  N.of_nat (length bytes) = length_ → fill_buffer length_ bytes = bytes.
Proof.
  intros <-. unfold fill_buffer. rewrite Nat2N.id. by rewrite take_app_length.
Qed.

Lemma program_source_run w p d (filename : string) :
  Hmap.at_addr p (all_p4rts w) = Some d →
  p4rt_prog d = None →
  p4rt_initialize_datapath p filename w
  = match program_source w filename with
    | (None, e0) => Some (ENOENT, with_call (EvFopen filename) e0 w)
    | (Some st, e0) =>
        let w0 := if String.eqb filename "-" then w
                  else with_call (EvFopen filename) e0 w in
        let '(pos, e1) := ftell_end (ext w) st (environ w0) in
        if Z.ltb pos 0 then None
        else
          let len := Z.to_N pos in
          let w1 := with_call (EvFtell st) e1 w0 in
          let '(bytes, e2) := fread (ext w) st len e1 in
          let w2 := with_call (EvFread st len) e2 w1 in
          if negb (N.eqb (N.of_nat (length bytes)) len) then
            Some (match ferror (ext w) st e2 with Some errno => errno | None => EOF end,
                  with_call (EvFclose st) (fclose (ext w) st e2)
                    (with_call (EvFerror st) e2 w2))
          else
            let w3 := with_call (EvFclose st) (fclose (ext w) st e2) w2 in
            let c := class_at w (p4rt_cls d) in
            match cls_program_alloc c (environ w3) with
            | (None, e4) => None
            | (Some q, e4) =>
                let pr := {| prog_p4rt := p; prog_data := fill_buffer len bytes;
                             prog_data_len := len |} in
                let w5 := with_progs (<[q := pr]> (progs w))
                            (with_call (EvProgramAlloc p) e4 w3) in
                let '(error, e6) := cls_program_insert c q pr e4 in
                let w6 := with_call (EvProgramInsert q) e6 w5 in
                if nonzero error then Some (error, w6)
                else Some (0, with_p4rts (Hmap.store p (with_prog (Some q)) (all_p4rts w)) w6)
            end
    end.
Proof.
  intros Hp Hq.
  unfold p4rt_initialize_datapath, program_source, bind, get_p4rt, gets, ret, call,
    call_, modify, store_p4rt, class_of, fault.
  rewrite Hp, Hq. simpl.
  destruct (String.eqb filename "-"); simpl.
  all: try (destruct (fopen _ _ _) as [[st|] e0]; simpl; [|done]).
  all: destruct (ftell_end _ _ _) as [pos e1]; simpl.
  all: destruct (Z.ltb pos 0); simpl; [done|].
  all: destruct (fread _ _ _ _) as [bytes e2]; simpl.
  all: destruct (negb _); simpl; [done|].
  all: destruct (cls_program_alloc _ _) as [[q|] e3]; simpl; [|done].
  all: destruct (cls_program_insert _ _ _ _) as [error e4]; simpl.
  all: by destruct (nonzero error).
Qed.

(* The state in which the stream is asked for its length. *)
Lemma program_source_environ w (filename : string) (st : option stream) (e0 : env) :
  program_source w filename = (st, e0) →
  environ (if String.eqb filename "-" then w else with_call (EvFopen filename) e0 w) = e0.
Proof.
  unfold program_source. destruct (String.eqb filename "-"); [|done]. by intros [= _ <-].
Qed.

(** X9. The outcomes of [p4rt_initialize_datapath] on a registered
    device.  It fails to come back in two cases only: [ftell] failed
    on the opened stream (the unchecked -1 becomes the size handed to
    [xzalloc], which aborts), or the stream was read in full and
    [program_alloc] returned NULL (the error path then closes the
    stream, which is closed already, a second time).  Whenever it
    comes back it has changed the registry in one way at most: by
    setting the device's empty program slot to a live program that
    points back to the device and whose byte count equals its
    [data_len], in which case it returns 0; every non-zero return
    leaves the registry, hence the slot, as it was. *)
Theorem p4rt_initialize_datapath_outcomes w p d (filename : string) :
  Hmap.at_addr p (all_p4rts w) = Some d →
  match p4rt_initialize_datapath p filename w with
  | Some (error, w') =>
      (all_p4rts w' = all_p4rts w
       ∨ (error = 0
          ∧ p4rt_prog d = None
          ∧ ∃ q pr, all_p4rts w' = Hmap.store p (with_prog (Some q)) (all_p4rts w)
                    ∧ progs w' !! q = Some pr
                    ∧ prog_p4rt pr = p
                    ∧ N.of_nat (length (prog_data pr)) = prog_data_len pr))
      ∧ (error ≠ 0 → all_p4rts w' = all_p4rts w)
  | None =>
      p4rt_prog d = None
      ∧ ∃ st pos (e0 e1 : env),
          program_source w filename = (Some st, e0)
          ∧ ftell_end (ext w) st e0 = (pos, e1)
          ∧ (pos < 0
             ∨ ∃ bytes (e2 e4 : env),
                 fread (ext w) st (Z.to_N pos) e1 = (bytes, e2)
                 ∧ N.of_nat (length bytes) = Z.to_N pos
                 ∧ cls_program_alloc (class_at w (p4rt_cls d)) (fclose (ext w) st e2)
                   = (None, e4))
  end.
Proof.
  intros Hp.
  destruct (p4rt_prog d) as [q0|] eqn:Hq.
  { unfold p4rt_initialize_datapath, bind, get_p4rt, ret. rewrite Hp, Hq.
    split; [by left | done]. }
  rewrite (program_source_run w p d filename Hp Hq).
  destruct (program_source w filename) as [[st|] e0] eqn:Hsrc;
    [|split; [by left | done]].
  cbv zeta. rewrite (program_source_environ w filename _ e0 Hsrc).
  set (w0 := if String.eqb filename "-" then w else with_call (EvFopen filename) e0 w).
  assert (Hw0 : all_p4rts w0 = all_p4rts w) by (unfold w0; by destruct (String.eqb _ _)).
  assert (Hpr0 : progs w0 = progs w) by (unfold w0; by destruct (String.eqb _ _)).
  destruct (ftell_end (ext w) st e0) as [pos e1] eqn:Htell.
  destruct (Z.ltb_spec pos 0) as [Hneg | Hpos].
  { split; [done|]. exists st, pos, e0, e1. split_and!; [done | done | by left]. }
  destruct (fread (ext w) st (Z.to_N pos) e1) as [bytes e2] eqn:Hread.
  destruct (N.eqb_spec (N.of_nat (length bytes)) (Z.to_N pos)) as [Hlen | Hlen];
    simpl negb; cbv iota.
  2:{ split; [by left | done]. }
  simpl environ.
  destruct (cls_program_alloc _ _) as [[q|] e4] eqn:Halloc.
  2:{ split; [done|]. exists st, pos, e0, e1. split_and!; [done | done |].
      right. by exists bytes, e2, e4. }
  destruct (cls_program_insert _ _ _ _) as [error e6].
  destruct (nonzero error) eqn:Hnz; [split; [by left | done]|].
  split; [|done]. right. split_and!; [done | done |].
  eexists q, _. simpl. split_and!;
    [reflexivity | apply lookup_insert_eq | done | apply fill_buffer_length].
Qed.

(** X10. Installing from a file: when the stream opens (stdin for the
    name "-", without an fopen), the read returns as many bytes as the
    stream is long, and the backend allocates and accepts the program,
    [p4rt_initialize_datapath] returns 0 and the device's slot
    designates a program that points back to the device and holds
    exactly the bytes read and their count.  The stream is closed
    once, before the backend is called. *)
Theorem p4rt_initialize_datapath_installs w p d (filename : string) (st : stream)
    (len : N) (bytes : list Byte.byte) q (e0 e1 e2 e4 e6 : env) :
  let c := class_at w (p4rt_cls d) in
  let pr := {| prog_p4rt := p; prog_data := bytes; prog_data_len := len |} in
  Hmap.at_addr p (all_p4rts w) = Some d →
  p4rt_prog d = None →
  program_source w filename = (Some st, e0) →
  ftell_end (ext w) st e0 = (Z.of_N len, e1) →
  fread (ext w) st len e1 = (bytes, e2) →
  N.of_nat (length bytes) = len →
  cls_program_alloc c (fclose (ext w) st e2) = (Some q, e4) →
  cls_program_insert c q pr e4 = (0, e6) →
  ∃ w', p4rt_initialize_datapath p filename w = Some (0, w')
        ∧ Hmap.at_addr p (all_p4rts w') = Some (with_prog (Some q) d)
        ∧ progs w' = <[q := pr]> (progs w)
        ∧ trace w' = trace w ++ program_source_trace filename
                     ++ [EvFtell st; EvFread st len; EvFclose st;
                         EvProgramAlloc p; EvProgramInsert q].
Proof.
  intros c pr Hp Hq Hsrc Htell Hread Hlen Halloc Hins.
  rewrite (program_source_run w p d filename Hp Hq), Hsrc.
  cbv zeta. rewrite (program_source_environ w filename _ e0 Hsrc).
  rewrite Htell, (proj2 (Z.ltb_ge _ _) (N2Z.is_nonneg len)), !N2Z.id, Hread.
  rewrite (proj2 (N.eqb_eq _ _) Hlen). simpl negb. cbv iota.
  fold c. simpl environ. rewrite Halloc. rewrite (fill_buffer_exact _ _ Hlen). fold pr.
  rewrite Hins. simpl.
  eexists. split; [reflexivity|]. simpl. split_and!.
  - by rewrite at_addr_store, Hp.
  - done.
  - unfold program_source_trace. destruct (String.eqb filename "-"); simpl;
      by rewrite <- ?app_assoc.
Qed.

(** X11. Failures before the backend is involved: a file that cannot
    be opened gives ENOENT after the fopen alone; a read that returns
    fewer bytes than the stream is long gives the stream's errno, or
    EOF when the stream reports no error, and closes the stream once.
    Neither calls the backend or touches the registry or the
    programs. *)
Theorem p4rt_initialize_datapath_read_fails w p d (filename : string) :
  Hmap.at_addr p (all_p4rts w) = Some d →
  p4rt_prog d = None →
  (∀ e0, program_source w filename = (None, e0) →
     p4rt_initialize_datapath p filename w
     = Some (ENOENT, with_call (EvFopen filename) e0 w))
  ∧ (∀ st len bytes (e0 e1 e2 : env),
       program_source w filename = (Some st, e0) →
       ftell_end (ext w) st e0 = (Z.of_N len, e1) →
       fread (ext w) st len e1 = (bytes, e2) →
       N.of_nat (length bytes) ≠ len →
       ∃ w', p4rt_initialize_datapath p filename w
             = Some (match ferror (ext w) st e2 with
                     | Some errno => errno
                     | None => EOF
                     end, w')
             ∧ all_p4rts w' = all_p4rts w
             ∧ progs w' = progs w
             ∧ trace w' = trace w ++ program_source_trace filename
                          ++ [EvFtell st; EvFread st len; EvFerror st; EvFclose st]).
Proof.
  intros Hp Hq. split.
  - intros e0 Hsrc. by rewrite (program_source_run w p d filename Hp Hq), Hsrc.
  - intros st len bytes e0 e1 e2 Hsrc Htell Hread Hlen.
    rewrite (program_source_run w p d filename Hp Hq), Hsrc.
    cbv zeta. rewrite (program_source_environ w filename _ e0 Hsrc).
    rewrite Htell, (proj2 (Z.ltb_ge _ _) (N2Z.is_nonneg len)), !N2Z.id, Hread.
    rewrite (proj2 (N.eqb_neq _ _) Hlen). simpl negb. cbv iota.
    eexists. split; [reflexivity|]. simpl.
    unfold program_source_trace. destruct (String.eqb filename "-"); simpl;
      split_and!; try done; by rewrite <- ?app_assoc.
Qed.

(** X12. Failures once the stream is open that the function does not
    survive or does not clean up after.  When [ftell] fails, the call
    does not come back: the -1 is the size handed to [xzalloc].  When
    the stream was read in full and closed and [program_alloc] returns
    NULL, the call does not come back either: the error path closes
    the closed stream again, and ENOMEM is not returned.  When
    [program_insert] fails its error is returned, the slot stays
    empty, and the struct just allocated is left allocated
    ([prog_dealloc] is not called). *)
Theorem p4rt_initialize_datapath_install_fails w p d (filename : string) (st : stream)
    (e0 : env) :
  let c := class_at w (p4rt_cls d) in
  Hmap.at_addr p (all_p4rts w) = Some d →
  p4rt_prog d = None →
  program_source w filename = (Some st, e0) →
  (∀ pos (e1 : env),
     ftell_end (ext w) st e0 = (pos, e1) →
     pos < 0 →
     p4rt_initialize_datapath p filename w = None)
  ∧ (∀ len bytes (e1 e2 e4 : env),
       ftell_end (ext w) st e0 = (Z.of_N len, e1) →
       fread (ext w) st len e1 = (bytes, e2) →
       N.of_nat (length bytes) = len →
       cls_program_alloc c (fclose (ext w) st e2) = (None, e4) →
       p4rt_initialize_datapath p filename w = None)
  ∧ (∀ len bytes q error (e1 e2 e4 e6 : env),
       let pr := {| prog_p4rt := p; prog_data := bytes; prog_data_len := len |} in
       ftell_end (ext w) st e0 = (Z.of_N len, e1) →
       fread (ext w) st len e1 = (bytes, e2) →
       N.of_nat (length bytes) = len →
       cls_program_alloc c (fclose (ext w) st e2) = (Some q, e4) →
       cls_program_insert c q pr e4 = (error, e6) →
       error ≠ 0 →
       ∃ w', p4rt_initialize_datapath p filename w = Some (error, w')
             ∧ all_p4rts w' = all_p4rts w
             ∧ progs w' = <[q := pr]> (progs w)
             ∧ trace w' = trace w ++ program_source_trace filename
                          ++ [EvFtell st; EvFread st len; EvFclose st;
                              EvProgramAlloc p; EvProgramInsert q]).
Proof.
  intros c Hp Hq Hsrc.
  rewrite (program_source_run w p d filename Hp Hq), Hsrc.
  cbv zeta. rewrite (program_source_environ w filename _ e0 Hsrc).
  split_and!.
  - intros pos e1 Htell Hneg. by rewrite Htell, (proj2 (Z.ltb_lt _ _) Hneg).
  - intros len bytes e1 e2 e4 Htell Hread Hlen Halloc.
    rewrite Htell, (proj2 (Z.ltb_ge _ _) (N2Z.is_nonneg len)), !N2Z.id, Hread.
    rewrite (proj2 (N.eqb_eq _ _) Hlen). simpl negb. cbv iota.
    fold c. simpl environ. by rewrite Halloc.
  - intros len bytes q error e1 e2 e4 e6 Htell Hread Hlen Halloc Hins Herr.
    rewrite Htell, (proj2 (Z.ltb_ge _ _) (N2Z.is_nonneg len)), !N2Z.id, Hread.
    rewrite (proj2 (N.eqb_eq _ _) Hlen). simpl negb. cbv iota.
    fold c. simpl environ. rewrite Halloc. rewrite (fill_buffer_exact _ _ Hlen).
    rewrite Hins. rewrite (proj2 (nonzero_true _) Herr).
    eexists. split; [reflexivity|]. simpl.
    unfold program_source_trace. destruct (String.eqb filename "-"); simpl;
      split_and!; try done; by rewrite <- ?app_assoc.
Qed.

(** ** Port reconciliation, further *)

Lemma store_store {T} (h : hmap T) a (f g : T → T) :
  Hmap.store a g (Hmap.store a f h) = Hmap.store a (g ∘ f) h.
Proof.
  induction h as [|[b y] h IH]; simpl; [done|].
  destruct (N.eqb a b) eqn:E; simpl; rewrite E; [done | by rewrite IH].
Qed.

Lemma store_same {T} (h : hmap T) a (f : T → T) (x : T) :
  Hmap.at_addr a h = Some x → f x = x → Hmap.store a f h = h.
Proof.
  induction h as [|[b y] h IH]; simpl; [done|].
  destruct (N.eqb a b).
  - intros [= ->] ->. done.
  - intros Ha Hf. by rewrite IH.
Qed.

Lemma store_ext {T} (h : hmap T) a (f g : T → T) (x : T) :
  Hmap.at_addr a h = Some x → f x = g x → Hmap.store a f h = Hmap.store a g h.
Proof.
  induction h as [|[b y] h IH]; simpl; [done|].
  destruct (N.eqb a b).
  - intros [= ->] ->. done.
  - intros Ha Hf. by rewrite IH.
Qed.

Lemma update_port_unreported w p d (name : string) error port (e : env) :
  Hmap.at_addr p (all_p4rts w) = Some d →
  cls_port_query_by_name (class_at w (p4rt_cls d)) p name (environ w) = (error, port, e) →
  error ≠ 0 →
  update_port p name w = Some (0, with_call (EvPortQueryByName p name) e w).
Proof.
  intros Hp Hq Herr.
  unfold update_port, p4rt_port_query_by_name, bind, get_p4rt, class_of, gets, call, ret.
  rewrite Hp, Hq, (proj2 (nonzero_true _) Herr). simpl.
  by rewrite (proj2 (nonzero_true _) Herr).
Qed.

(** X13. A port the backend does not report, or whose network device
    cannot be opened, is skipped: [update_port] returns 0 having only
    queried the backend (and tried the open).  Nothing is installed
    and nothing is removed, also when the port table holds a port of
    that name. *)
Theorem update_port_skips w p d (name : string) :
  let c := class_at w (p4rt_cls d) in
  Hmap.at_addr p (all_p4rts w) = Some d →
  (∀ error port (e : env),
     cls_port_query_by_name c p name (environ w) = (error, port, e) →
     error ≠ 0 →
     update_port p name w = Some (0, with_call (EvPortQueryByName p name) e w))
  ∧ (∀ port error (e1 e2 : env),
       cls_port_query_by_name c p name (environ w) = (0, port, e1) →
       netdev_open (ext w) (pp_name port) (pp_type port) e1 = (error, e2) →
       error ≠ 0 →
       update_port p name w
       = Some (0, with_call (EvNetdevOpen (pp_name port) (pp_type port)) e2
                    (with_call (EvPortQueryByName p name) e1 w))).
Proof.
  intros c Hp. split.
  - intros error port e Hq Herr. by apply (update_port_unreported w p d name error port).
  - intros port error e1 e2 Hq Ho Herr.
    unfold update_port, bind.
    rewrite (p4rt_port_query_by_name_run w p d name port e1 Hp Hq). simpl.
    unfold p4rt_port_open, bind, gets, call, ret. simpl. rewrite Ho.
    by rewrite (proj2 (nonzero_true _) Herr).
Qed.

(** X14. Installing a port either succeeds or is undone.
    [p4port_install] on a registered device never faults.  A non-zero
    return leaves every port table as it was and has closed the
    network device handed in exactly once; a zero return has linked one
    new port, for that network device and number, at the head of the
    device's table, and has not closed the device. *)
Theorem p4port_install_unwinds w p d (nd : netdev) (h : ofp_port_t) :
  Hmap.at_addr p (all_p4rts w) = Some d →
  ∃ error w' evs,
    p4port_install p nd h w = Some (error, w')
    ∧ trace w' = trace w ++ evs
    ∧ progs w' = progs w
    ∧ (error ≠ 0 →
       all_p4rts w' = all_p4rts w ∧ netdev_closes evs = [nd])
    ∧ (error = 0 →
       netdev_closes evs = []
       ∧ ∃ a created,
           all_p4rts w'
           = Hmap.store p (with_ports ((a, {| port_p4rt := p; port_netdev := nd;
                                              port_no := h; port_created := created |})
                                       :: p4rt_ports d)) (all_p4rts w)).
Proof.
  intros Hp.
  unfold p4port_install, bind, get_p4rt, class_of, gets, call, call_, ret,
    store_p4rt, modify.
  rewrite Hp. simpl.
  destruct (cls_port_alloc _ _) as [[a|] e1]; simpl.
  2:{ eexists _, _, _. split; [reflexivity|]. simpl.
      split_and!; [by rewrite <- app_assoc | done | done | done]. }
  destruct (time_msec _ _) as [created e2]. simpl.
  destruct (cls_port_construct _ _ _ _) as [error e3]. simpl.
  destruct (nonzero error) eqn:Herr.
  - apply nonzero_true in Herr.
    unfold p4port_destroy__, bind, get_p4rt, class_of, gets, call_, store_p4rt, modify.
    simpl. rewrite at_addr_store, Hp. simpl.
    eexists _, _, _. split; [reflexivity|]. simpl.
    split_and!; [by rewrite <- !app_assoc | done | | done].
    intros _. split; [|done].
    rewrite store_store. apply store_same with (x := d); [done|].
    destruct d. unfold compose, with_ports, Hmap.insert. simpl. by rewrite N.eqb_refl.
  - apply not_true_iff_false in Herr. rewrite nonzero_true in Herr.
    assert (error = 0) as -> by lia.
    eexists _, _, _. split; [reflexivity|]. simpl.
    split_and!; [by rewrite <- !app_assoc | done | done |].
    intros _. split; [done|]. exists a, created. by apply store_ext with (x := d).
Qed.

(** X15. Replacing a stale port: when the number settled for the
    reported port is held by a port on a network device of another
    name, [update_port] destructs that port with the delete flag set,
    closes its network device and deallocates it, and then installs
    the new port; the table holds the new port in place of the old
    one and keeps its size. *)
Theorem update_port_replaces w p d (name : string) (port : p4rt_port) a (old : p4port)
    a' (created : Z) (e1 e2 e3 e4 e5 : env) :
  let c := class_at w (p4rt_cls d) in
  let h := resolved_port_no d port in
  let nd := {| netdev_get_name := name |} in
  let new := {| port_p4rt := p; port_netdev := nd; port_no := h;
                port_created := created |} in
  Hmap.at_addr p (all_p4rts w) = Some d →
  cls_port_query_by_name c p name (environ w) = (0, port, e1) →
  pp_name port = name →
  netdev_open (ext w) name (pp_type port) e1 = (0, e2) →
  Hmap.first (λ x, N.eqb (port_no x) h) (p4rt_ports d) = Some (a, old) →
  netdev_get_name (port_netdev old) ≠ name →
  port_p4rt old = p →
  cls_port_alloc c (cls_port_dealloc c a
                      (netdev_close (ext w) (port_netdev old)
                         (cls_port_destruct c a old true e2)))
  = (Some a', e3) →
  time_msec (ext w) e3 = (created, e4) →
  cls_port_construct c a' new e4 = (0, e5) →
  ∃ w', update_port p name w = Some (0, w')
        ∧ Hmap.at_addr p (all_p4rts w')
          = Some (with_ports ((a', new) :: Hmap.remove a (p4rt_ports d)) d)
        ∧ length ((a', new) :: Hmap.remove a (p4rt_ports d)) = length (p4rt_ports d)
        ∧ trace w' = trace w ++ [EvPortQueryByName p name; EvNetdevOpen name (pp_type port);
                                 EvPortDestruct a true; EvNetdevClose (port_netdev old);
                                 EvPortDealloc a; EvPortAlloc p; EvTimeMsec;
                                 EvPortConstruct a'].
Proof.
  intros c h nd new Hp Hq Hname Ho Hfirst Hstale Hback Halloc Htime Hcons.
  subst name. unfold update_port, bind.
  rewrite (p4rt_port_query_by_name_run w p d _ port e1 Hp Hq). simpl.
  set (wq := with_call (EvPortQueryByName p (pp_name port)) e1 w).
  destruct (p4rt_port_open_run wq p d port e2 Hp Ho) as (port' & -> & Hno).
  set (wo := with_call _ e2 wq). rewrite Hno. fold h.
  unfold p4rt_get_port at 1. unfold bind, get_p4rt at 1.
  change (all_p4rts wo) with (all_p4rts w). rewrite Hp. unfold ret at 1.
  rewrite Hfirst. simpl.
  rewrite (proj2 (String.eqb_neq _ _) Hstale).
  unfold p4port_remove, p4port_destroy, p4port_destroy__, p4port_install, bind,
    get_p4rt, class_of, gets, call, call_, ret, store_p4rt, modify, p4rt_port_destroy.
  subst wo wq. simpl. rewrite Hback.
  repeat (rewrite ?at_addr_store, ?Hp; simpl).
  fold c. rewrite Halloc. simpl. rewrite Htime. simpl. fold nd h new.
  rewrite Hcons. simpl.
  eexists. split; [reflexivity|]. simpl. split_and!.
  - rewrite store_store, at_addr_store, Hp. done.
  - apply first_Some in Hfirst as [Hin _]. clear -Hin.
    induction (p4rt_ports d) as [|[b y] l IH]; [inversion Hin|]. simpl.
    destruct (N.eqb_spec a b) as [->|Hne]; [done|]. simpl. f_equal. apply IH.
    apply elem_of_cons in Hin as [[= -> ->] | Hin]; done.
  - by rewrite <- !app_assoc.
Qed.

(** ** Explicit port removal and addition *)

Variable more_at : ptr → p4rt_class_more (env := env).

(** X16. [p4rt_port_del] answers ENODEV, without calling the backend,
    when no port of the table is on a network device of that name.
    Otherwise it asks the backend to delete the number of the first
    such port, cast to 16 bits, and hands back the backend's
    [port_del] error without reconciling.  When [port_del] succeeds
    and the backend then no longer reports the port, it returns 0 and
    the port is still in the port table: the reconciliation it runs
    skips a port the backend does not report, it does not remove
    it. *)
Theorem p4rt_port_del_spec w p d (name : string) :
  let c := class_at w (p4rt_cls d) in
  let on_name := λ port : p4port, String.eqb (netdev_get_name (port_netdev port)) name in
  Hmap.at_addr p (all_p4rts w) = Some d →
  (Hmap.first on_name (p4rt_ports d) = None →
   p4rt_port_del more_at p name w = Some (ENODEV, w))
  ∧ (∀ a port error (e : env),
       Hmap.first on_name (p4rt_ports d) = Some (a, port) →
       cls_port_del (more_at (p4rt_cls d)) p (ofp_to_u16 (port_no port)) (environ w)
       = (error, e) →
       error ≠ 0 →
       p4rt_port_del more_at p name w = Some (error, with_env e w))
  ∧ (∀ a port qerr gone (e e' : env),
       Hmap.first on_name (p4rt_ports d) = Some (a, port) →
       cls_port_del (more_at (p4rt_cls d)) p (ofp_to_u16 (port_no port)) (environ w)
       = (0, e) →
       cls_port_query_by_name c p name e = (qerr, gone, e') →
       qerr ≠ 0 →
       ∃ w', p4rt_port_del more_at p name w = Some (0, w')
             ∧ all_p4rts w' = all_p4rts w
             ∧ fst <$> p4rt_get_port_by_name p name w' = Some (Some (a, port))
             ∧ trace w' = trace w ++ [EvPortQueryByName p name]).
Proof.
  intros c on_name Hp.
  unfold p4rt_port_del, p4rt_get_port_by_name, bind, get_p4rt, ret, call_untraced.
  rewrite Hp. fold on_name. split_and!.
  - by intros ->.
  - intros a port error e -> Hdel Herr. simpl. rewrite Hp, Hdel.
    by rewrite (proj2 (nonzero_true _) Herr).
  - intros a port qerr gone e e' Hf Hdel Hq Herr. rewrite Hf. simpl.
    rewrite Hp, Hdel. simpl.
    rewrite (update_port_unreported (with_env e w) p d name qerr gone e' Hp Hq Herr).
    eexists. split; [reflexivity|]. simpl. rewrite Hp. simpl. by rewrite Hf.
Qed.

(** X17. [p4rt_port_add] asks the backend to add the port under the
    requested number cast to 16 bits (OFPP_NONE when the caller passed
    no number): a request of 65536 or more reaches the backend as
    another number.  It hands back the backend's [port_add] error
    without reconciling, and sets the caller's port number, if one was
    passed, to OFPP_NONE.  When the addition, the reconciliation and
    the re-query succeed it returns 0 and hands back the number the
    backend reports on the re-query; the port itself is in the table
    under the number [p4rt_port_open] settled, which is a different
    one whenever the backend reports OFPP_NONE. *)
Theorem p4rt_port_add_spec w p d (nd : netdev) (ofp_portp : option ofp_port_t) :
  let c := class_at w (p4rt_cls d) in
  let name := netdev_get_name nd in
  let requested :=
    ofp_to_u16 match ofp_portp with Some n => n | None => OFPP_NONE end in
  Hmap.at_addr p (all_p4rts w) = Some d →
  ((requested < 65536)%N
   ∧ (ofp_portp = None → requested = OFPP_NONE)
   ∧ (∀ n, ofp_portp = Some n → (requested = n ↔ (n < 65536)%N)))
  ∧ (∀ error (e : env),
     cls_port_add (more_at (p4rt_cls d)) p nd requested (environ w) = (error, e) →
     error ≠ 0 →
     p4rt_port_add more_at p nd ofp_portp w
     = Some ((error, (λ _, OFPP_NONE) <$> ofp_portp), with_env e w))
  ∧ (∀ n port w1 (e0 e1 e2 e3 : env),
       ofp_portp = Some n →
       cls_port_add (more_at (p4rt_cls d)) p nd requested (environ w) = (0, e0) →
       cls_port_query_by_name c p name e0 = (0, port, e1) →
       pp_name port = name →
       netdev_open (ext w) name (pp_type port) e1 = (0, e2) →
       update_port p name (with_env e0 w) = Some (0, w1) →
       cls_port_query_by_name c p name (environ w1) = (0, port, e3) →
       p4rt_port_add more_at p nd ofp_portp w
       = Some ((0, Some (pp_port_no port)), with_call (EvPortQueryByName p name) e3 w1)
       ∧ port_reconciled w1 p (resolved_port_no d port) name
       ∧ (pp_port_no port = OFPP_NONE → resolved_port_no d port ≠ pp_port_no port)).
Proof.
  intros c name requested Hp. split_and!.
  - unfold requested, ofp_to_u16. apply N.mod_lt. done.
  - by intros ->.
  - intros n ->. unfold requested, ofp_to_u16. split.
    + intros <-. apply N.mod_lt. done.
    + intros Hn. by apply N.mod_small.
  - intros error e Hadd Herr.
    unfold p4rt_port_add, bind, get_p4rt, call_untraced, ret.
    rewrite Hp. fold requested. rewrite Hadd. simpl.
    rewrite (proj2 (nonzero_true _) Herr). simpl.
    destruct ofp_portp; [|done]. by rewrite (proj2 (nonzero_true _) Herr).
  - intros n port w1 e0 e1 e2 e3 -> Hadd Hq Hname Ho Hrun Hq'.
    destruct (update_port_first (with_env e0 w) w1 p d name port e1 e2 Hp Hq Hname)
      as (Hrec & Hc1 & Hx1 & d1 & Hp1 & Hid1); [by rewrite Hname | done |].
    assert (Hcls : p4rt_cls d1 = p4rt_cls d) by (unfold ident in Hid1; congruence).
    split_and!; [| done |].
    + unfold p4rt_port_add, bind, get_p4rt, call_untraced, ret.
      rewrite Hp. fold requested. rewrite Hadd. simpl. fold name. rewrite Hrun. simpl.
      rewrite (p4rt_port_query_by_name_run w1 p d1 name port e3 Hp1);
        [|by rewrite Hc1, Hcls].
      simpl. done.
    + intros Hnone. rewrite Hnone. unfold resolved_port_no. rewrite Hnone. simpl.
      by destruct (String.eqb _ _).
Qed.

(** ** Enumerations *)

Lemma get_ports_fold (l : hmap p4port) (s : gset string) (nm : string) :
  nm ∈ foldl (λ names (port : ptr * p4port),
                {[ netdev_get_name (port_netdev port.2) ]} ∪ names) s l
  ↔ nm ∈ s ∨ ∃ a port, (a, port) ∈ l ∧ netdev_get_name (port_netdev port) = nm.
Proof.
  revert s. induction l as [|[b y] l IH]; intros s; simpl.
  - split; [by left|]. intros [H | (a & port & Hin & _)]; [done | inversion Hin].
  - rewrite IH. split.
    + intros [[->%elem_of_singleton | H]%elem_of_union | (a & port & Hin & Hn)].
      * right. exists b, y. split; [left | done].
      * by left.
      * right. exists a, port. split; [by right | done].
    + intros [H | (a & port & [[= -> ->] | Hin]%elem_of_cons & Hn)].
      * left. apply elem_of_union. by right.
      * left. apply elem_of_union. left. by apply elem_of_singleton.
      * right. by exists a, port.
Qed.

(** X18. [p4rt_get_ports] adds to the set exactly the names of the
    network devices of the device's ports: a name is in the result iff
    it was in the set or some port of the table is on a network device
    of that name, which is iff [p4rt_get_port_by_name] finds a port
    for it.  The state is not changed. *)
Theorem p4rt_get_ports_spec w p d (names : gset string) :
  Hmap.at_addr p (all_p4rts w) = Some d →
  ∃ names', p4rt_get_ports p names w = Some (names', w)
            ∧ names ⊆ names'
            ∧ (∀ nm, nm ∈ names' ↔
                     nm ∈ names
                     ∨ ∃ a port, (a, port) ∈ p4rt_ports d
                                 ∧ netdev_get_name (port_netdev port) = nm)
            ∧ (∀ nm, nm ∈ names' ↔
                     nm ∈ names
                     ∨ ∃ port, p4rt_get_port_by_name p nm w = Some (Some port, w)).
Proof.
  intros Hp. unfold p4rt_get_ports, p4rt_get_port_by_name, bind, get_p4rt, ret.
  rewrite Hp. eexists. split; [reflexivity|]. split_and!.
  - intros nm Hnm. apply get_ports_fold. by left.
  - intros nm. apply get_ports_fold.
  - intros nm. rewrite get_ports_fold. split.
    + intros [H | (a & port & Hin & Hn)]; [by left | right].
      destruct (Hmap.first _ (p4rt_ports d)) as [r|] eqn:E; [by exists r|].
      rewrite first_None in E. specialize (E a port Hin). simpl in E.
      apply String.eqb_neq in E. done.
    + intros [H | [[a port] Hf]]; [by left | right].
      injection Hf as Hf. apply first_Some in Hf as [Hin Hn%String.eqb_eq].
      by exists a, port.
Qed.

Lemma enumerate_types_fold (at_ : ptr → p4rt_class (env := env)) (l : list ptr)
    (s : gset string) (ty : string) :
  (∀ c types, c ∈ l → cls_enumerate_types (at_ c) types = class_types (at_ c) ∪ types) →
  ty ∈ foldl (λ types c, cls_enumerate_types (at_ c) types) s l
  ↔ ty ∈ s ∨ ∃ c, c ∈ l ∧ ty ∈ class_types (at_ c).
Proof.
  revert s. induction l as [|c l IH]; intros s Hadd; simpl.
  - split; [by left|]. intros [H | (c & Hin & _)]; [done | inversion Hin].
  - rewrite IH; [|intros c' types Hc'; apply Hadd; by right].
    rewrite Hadd; [|left]. rewrite elem_of_union. split.
    + intros [[H | H] | (c' & Hin & H)].
      * right. exists c. split; [left | done].
      * by left.
      * right. exists c'. split; [by right | done].
    + intros [H | (c' & [-> | Hin]%elem_of_cons & H)].
      * left. by right.
      * left. by left.
      * right. by exists c'.
Qed.

(** X19. The type enumeration and the type lookup agree.  With
    backends whose [enumerate_types] only adds their own types to the
    set, a type is in the result of [p4rt_enumerate_types], whatever
    the set held before, iff [p4rt_class_find__] resolves it; for a
    type that is not, [p4rt_enumerate_names] and [p4rt_delete] answer
    EAFNOSUPPORT and change nothing. *)
Theorem p4rt_enumerate_types_find w (types : gset string) (ty : string) :
  enumerates_additively w →
  (ty ∈ p4rt_enumerate_types w types ↔ is_Some (p4rt_class_find__ w ty))
  ∧ (ty ∉ p4rt_enumerate_types w types →
     (∀ names, p4rt_enumerate_names more_at ty names w = Some ((EAFNOSUPPORT, names), w))
     ∧ (∀ name, p4rt_delete name ty w = Some (EAFNOSUPPORT, w))).
Proof.
  intros Hadd.
  assert (Hiff : ty ∈ p4rt_enumerate_types w types ↔ is_Some (p4rt_class_find__ w ty)).
  { unfold p4rt_enumerate_types, p4rt_class_find__.
    rewrite enumerate_types_fold; [|by intros c s Hc; apply Hadd].
    rewrite <- class_find_is_Some. split; [|by right].
    intros [[]%not_elem_of_empty | H]; done. }
  split; [done|]. intros Hnot.
  assert (Hnone : p4rt_class_find__ w ty = None).
  { destruct (p4rt_class_find__ w ty) eqn:E; [|done]. destruct Hnot. apply Hiff. by eexists. }
  split.
  - intros names. unfold p4rt_enumerate_names, bind, gets, ret. by rewrite Hnone.
  - intros name. unfold p4rt_delete, bind, gets, ret. by rewrite Hnone.
Qed.

(** ** Start-up *)

Variable p4rt_dpif_class : ptr.
Variable pi : pi_server (env := env).

Lemma for_each_init (l : list ptr) w :
  for_each l (λ c, call_untraced_ (cls_init (more_at c))) w
  = Some (tt, with_env (foldl (λ e c, cls_init (more_at c) e) (environ w) l) w).
Proof.
  revert w. induction l as [|c l IH]; intros w.
  - simpl. unfold ret. by destruct w.
  - rewrite for_each_cons. unfold call_untraced_ at 1. rewrite IH. done.
Qed.

Lemma p4rt_class_register_NoDup w w' (c : ptr) (r : Z) :
  p4rt_class_register c w = Some (r, w') →
  NoDup (p4rt_classes w) →
  NoDup (p4rt_classes w') ∧ c ∈ p4rt_classes w'
  ∧ p4rt_classes w' = (if decide (c ∈ p4rt_classes w) then p4rt_classes w
                       else p4rt_classes w ++ [c]).
Proof.
  unfold p4rt_class_register. intros Hrun Hnd.
  destruct (existsb _ _) eqn:E.
  - injection Hrun as <- <-. apply registered_existsb in E.
    rewrite decide_True; done.
  - injection Hrun as <- <-. simpl.
    assert (c ∉ p4rt_classes w) as Hc.
    { intros Hc%registered_existsb. congruence. }
    rewrite decide_False; [|done]. split_and!; [| |done].
    + apply NoDup_app. split_and!; [done | | apply NoDup_singleton].
      intros x Hx ->%list_elem_of_singleton. done.
    + apply elem_of_app. right. left.
Qed.

(** X20. [p4rt_init] registers the built-in class at most once.  It
    never faults; afterwards [p4rt_dpif_class] is registered, after
    the classes registered before, and a class list without
    duplicates stays without duplicates; the [init] of every
    registered class has run, in probe order, before [pi_init] and
    [PIGrpcServerRun].  A second [p4rt_init] leaves the class list as
    it is. *)
Theorem p4rt_init_registers_once w :
  NoDup (p4rt_classes w) →
  ∃ w' w'',
    p4rt_init more_at p4rt_dpif_class pi w = Some (tt, w')
    ∧ p4rt_classes w' = (if decide (p4rt_dpif_class ∈ p4rt_classes w) then p4rt_classes w
                         else p4rt_classes w ++ [p4rt_dpif_class])
    ∧ p4rt_dpif_class ∈ p4rt_classes w'
    ∧ NoDup (p4rt_classes w')
    ∧ all_p4rts w' = all_p4rts w
    ∧ environ w'
      = PIGrpcServerRun pi
          (pi_init pi 256%N
             (foldl (λ e c, cls_init (more_at c) e) (environ w) (p4rt_classes w')))
    ∧ p4rt_init more_at p4rt_dpif_class pi w' = Some (tt, w'')
    ∧ p4rt_classes w'' = p4rt_classes w'.
Proof.
  intros Hnd.
  assert (Hinit : ∀ w0, NoDup (p4rt_classes w0) →
    ∃ w1, p4rt_init more_at p4rt_dpif_class pi w0 = Some (tt, w1)
          ∧ p4rt_classes w1 = (if decide (p4rt_dpif_class ∈ p4rt_classes w0)
                               then p4rt_classes w0
                               else p4rt_classes w0 ++ [p4rt_dpif_class])
          ∧ p4rt_dpif_class ∈ p4rt_classes w1
          ∧ NoDup (p4rt_classes w1)
          ∧ all_p4rts w1 = all_p4rts w0
          ∧ environ w1
            = PIGrpcServerRun pi
                (pi_init pi 256%N
                   (foldl (λ e c, cls_init (more_at c) e) (environ w0) (p4rt_classes w1)))).
  { intros w0 Hnd0. unfold p4rt_init, bind.
    destruct (p4rt_class_register p4rt_dpif_class w0) as [[r wr]|] eqn:Hr.
    2:{ unfold p4rt_class_register in Hr. by destruct (existsb _ _). }
    destruct (p4rt_class_register_NoDup _ _ _ _ Hr Hnd0) as (Hnd1 & Hin & Hcl).
    assert (Henv : environ wr = environ w0 ∧ all_p4rts wr = all_p4rts w0).
    { unfold p4rt_class_register in Hr. destruct (existsb _ _); by injection Hr as <- <-. }
    destruct Henv as [Henv Hreg].
    unfold gets. rewrite for_each_init. unfold call_untraced_. simpl.
    eexists. split; [reflexivity|]. simpl. rewrite <- Hcl, Henv. done. }
  destruct (Hinit w Hnd) as (w' & Hrun & Hcl & Hin & Hnd' & Hreg & Henv).
  destruct (Hinit w' Hnd') as (w'' & Hrun' & Hcl' & _).
  exists w', w''. split_and!; try done.
  rewrite Hcl'. by rewrite decide_True.
Qed.

(** ** Teardown *)

Lemma p4port_destroy_step w p d (port : ptr * p4port) (del : bool) :
  Hmap.at_addr p (all_p4rts w) = Some d →
  port_p4rt port.2 = p →
  ∃ w', p4port_destroy (Some port) del w = Some (tt, w')
        ∧ all_p4rts w'
          = Hmap.store p (λ d, with_ports (Hmap.remove port.1 (p4rt_ports d)) d)
                       (all_p4rts w)
        ∧ progs w' = progs w
        ∧ rcu_postponed w' = rcu_postponed w
        ∧ class_at w' = class_at w
        ∧ ext w' = ext w
        ∧ trace w' = trace w ++ [EvPortDestruct port.1 del;
                                 EvNetdevClose (port_netdev port.2);
                                 EvPortDealloc port.1].
Proof.
  intros Hp Hback.
  unfold p4port_destroy, p4port_destroy__, bind, get_p4rt, class_of, gets, call_,
    store_p4rt, modify.
  rewrite Hback, Hp. simpl. rewrite Hp. simpl.
  eexists. split; [reflexivity|]. simpl. split_and!; try done.
  by rewrite <- !app_assoc.
Qed.

Lemma destroy_ports_empties (del : bool) p (l : hmap p4port) : ∀ w d,
  Hmap.at_addr p (all_p4rts w) = Some d →
  p4rt_ports d = l →
  forallb (λ port : ptr * p4port, N.eqb (port_p4rt port.2) p) l = true →
  ∃ w', for_each l (λ port, p4port_destroy (Some port) del) w = Some (tt, w')
        ∧ Hmap.at_addr p (all_p4rts w') = Some (with_ports [] d)
        ∧ (∀ q, q ≠ p → Hmap.at_addr q (all_p4rts w') = Hmap.at_addr q (all_p4rts w))
        ∧ progs w' = progs w
        ∧ rcu_postponed w' = rcu_postponed w
        ∧ class_at w' = class_at w
        ∧ trace w' = trace w ++ flat_map (port_teardown del) l.
Proof.
  induction l as [|port l IH]; intros w d Hp Hl Hback.
  - exists w. simpl. rewrite app_nil_r. split_and!; try done.
    rewrite Hp. f_equal. destruct d. simpl in Hl. by subst.
  - simpl in Hback. apply andb_true_iff in Hback as [Hport%N.eqb_eq Hback].
    destruct (p4port_destroy_step w p d port del Hp Hport)
      as (w1 & Hrun & Hreg & Hpr & Hrcu & Hcl & _ & Htr).
    assert (Hp1 : Hmap.at_addr p (all_p4rts w1) = Some (with_ports l d)).
    { rewrite Hreg, at_addr_store, Hp. simpl. rewrite Hl. destruct port as [a po].
      simpl. by rewrite N.eqb_refl. }
    destruct (IH w1 (with_ports l d) Hp1 eq_refl Hback)
      as (w2 & Hrun2 & Hp2 & Hoth & Hpr2 & Hrcu2 & Hcl2 & Htr2).
    exists w2. rewrite for_each_cons, Hrun. split_and!; try congruence.
    + by rewrite Hp2.
    + intros q Hq. rewrite (Hoth q Hq), Hreg. by apply at_addr_store_other.
    + rewrite Htr2, Htr. simpl. by rewrite <- app_assoc.
Qed.

Lemma p4port_destroy_keeps w w' (port : ptr * p4port) (del : bool) :
  p4port_destroy (Some port) del w = Some (tt, w') → keeps_registry w w'.
Proof.
  destruct (Hmap.at_addr (port_p4rt port.2) (all_p4rts w)) as [d|] eqn:Hp.
  - destruct (p4port_destroy_run w port del d Hp) as (w'' & -> & Hk). by intros [= <-].
  - unfold p4port_destroy, bind, get_p4rt. by rewrite Hp.
Qed.

Lemma destroy_ports_keeps (del : bool) (l : hmap p4port) : ∀ w w',
  for_each l (λ port, p4port_destroy (Some port) del) w = Some (tt, w') →
  keeps_registry w w'.
Proof.
  induction l as [|port l IH]; intros w w'.
  - intros [= <-]. apply keeps_registry_refl.
  - rewrite for_each_cons.
    destruct (p4port_destroy (Some port) del w) as [[[] w1]|] eqn:Hrun; [|done].
    intros Hrest. eapply keeps_registry_trans; [by eapply p4port_destroy_keeps | by apply IH].
Qed.

Lemma p4rt_program_destroy_keeps w w' (prog_ : option ptr) :
  p4rt_program_destroy prog_ w = Some (tt, w') →
  all_p4rts w' = all_p4rts w
  ∧ rcu_postponed w' = rcu_postponed w
  ∧ class_at w' = class_at w
  ∧ ∃ evs, trace w' = trace w ++ evs
           ∧ forallb (λ ev, negb (is_EvDealloc ev)) evs = true.
Proof.
  unfold p4rt_program_destroy. destruct prog_ as [q|].
  - unfold bind, get_prog, get_p4rt, class_of, gets, call_, modify.
    destruct (progs w !! q) as [pr|]; [|done].
    destruct (Hmap.at_addr (prog_p4rt pr) (all_p4rts w)) as [d|]; [|done]. simpl.
    intros [= <-]. simpl. split_and!; try done.
    eexists. split; [by rewrite <- !app_assoc | done].
  - intros [= <-]. split_and!; try done. exists []. by rewrite app_nil_r.
Qed.

(* What holds whenever [p4rt_destroy] returns, whatever the device's
   ports and program point to. *)
Lemma p4rt_destroy_inv w w1 p d (del : bool) :
  Hmap.at_addr p (all_p4rts w) = Some d →
  p4rt_destroy (Some p) del w = Some (tt, w1) →
  ∃ d1 evs,
    Hmap.at_addr p (all_p4rts w1) = Some d1
    ∧ skel (all_p4rts w1) = skel (all_p4rts w)
    ∧ rcu_postponed w1 = rcu_postponed w ++ [Cb_p4rt_destroy_defer__ p]
    ∧ class_at w1 = class_at w
    ∧ trace w1 = trace w ++ evs ++ [EvDestruct p del]
    ∧ forallb (λ ev, negb (is_EvDealloc ev)) evs = true.
Proof.
  intros Hp. unfold p4rt_destroy, bind. rewrite (proj1 (get_p4rt_Some w p d) Hp).
  destruct (for_each _ _ w) as [[[] wa]|] eqn:Hloop; [|done].
  pose proof (destroy_ports_keeps _ _ _ _ Hloop) as Hka.
  destruct (keeps_registry_at_addr _ _ _ _ Hka Hp) as (da & Hpa & Hida).
  destruct Hka as (Hsa & Hprogs_a & Hrcu_a & Hcls_a & _ & _ & evs_a & Htr_a & Hev_a).
  rewrite (proj1 (get_p4rt_Some wa p da) Hpa).
  destruct (p4rt_program_destroy (p4rt_prog da) wa) as [[[] wb]|] eqn:Hpd; [|done].
  apply p4rt_program_destroy_keeps in Hpd
    as (Hreg_b & Hrcu_b & Hcls_b & evs_b & Htr_b & Hev_b).
  assert (Hpb : Hmap.at_addr p (all_p4rts wb) = Some da) by by rewrite Hreg_b.
  rewrite (proj1 (get_p4rt_Some wb p da) Hpb).
  unfold class_of, gets, call_, ovsrcu_postpone, modify. simpl. intros [= <-].
  exists da, (evs_a ++ evs_b). simpl. split_and!.
  - done.
  - by rewrite Hreg_b.
  - by rewrite Hrcu_b, Hrcu_a.
  - by rewrite Hcls_b, Hcls_a.
  - by rewrite Htr_b, Htr_a, <- !app_assoc.
  - by rewrite forallb_app, Hev_a, Hev_b.
Qed.

Lemma p4rt_destroy_run w p d (del : bool) :
  Hmap.at_addr p (all_p4rts w) = Some d →
  device_ok w p d = true →
  ∃ w', p4rt_destroy (Some p) del w = Some (tt, w')
        ∧ Hmap.at_addr p (all_p4rts w') = Some (with_ports [] d)
        ∧ (∀ q, q ≠ p → Hmap.at_addr q (all_p4rts w') = Hmap.at_addr q (all_p4rts w))
        ∧ progs w' = match p4rt_prog d with
                     | Some q => delete q (progs w)
                     | None => progs w
                     end
        ∧ rcu_postponed w' = rcu_postponed w ++ [Cb_p4rt_destroy_defer__ p]
        ∧ trace w' = trace w
                     ++ flat_map (port_teardown del) (p4rt_ports d)
                     ++ match p4rt_prog d with
                        | Some q => [EvProgDel q; EvProgDealloc q]
                        | None => []
                        end
                     ++ [EvDestruct p del].
Proof.
  intros Hp [Hports Hprog]%andb_true_iff.
  destruct (destroy_ports_empties del p (p4rt_ports d) w d Hp eq_refl Hports)
    as (wa & Hloop & Hpa & Hoth & Hpr & Hrcu & Hcl & Htr).
  unfold p4rt_destroy, bind.
  rewrite (proj1 (get_p4rt_Some w p d) Hp), Hloop.
  rewrite (proj1 (get_p4rt_Some wa p _) Hpa). simpl p4rt_prog.
  destruct (p4rt_prog d) as [q|] eqn:Hq.
  - destruct (progs w !! q) as [pr|] eqn:Hlive; [|done]. apply N.eqb_eq in Hprog.
    unfold p4rt_program_destroy, bind, get_prog, get_p4rt, class_of, gets, call_,
      modify, ovsrcu_postpone.
    rewrite Hpr, Hlive, Hprog, Hpa. simpl. rewrite Hpa. simpl.
    eexists. split; [reflexivity|]. simpl. split_and!; try done.
    + by rewrite Hpr.
    + by rewrite Hrcu.
    + rewrite Htr. by rewrite <- !app_assoc.
  - unfold p4rt_program_destroy, ret, get_p4rt, class_of, gets, call_, modify,
      ovsrcu_postpone, bind.
    rewrite Hpa. simpl.
    eexists. split; [reflexivity|]. simpl. split_and!; try done.
    + by rewrite Hrcu.
    + rewrite Htr. by rewrite <- !app_assoc.
Qed.

(** X21. What [p4rt_destroy] has done when it returns.  On a device
    whose ports point back to it and whose program, if any, is live,
    it has destructed every port with the caller's delete flag, closed
    each port's network device once and deallocated the port, in
    table order; then deleted and deallocated the program; then called
    the class's [destruct]; and postponed one callback.  The port
    table is empty, other devices are untouched, and [p->prog] still
    holds the address of the program just freed. *)
Theorem p4rt_destroy_tears_down w p d (del : bool) :
  Hmap.at_addr p (all_p4rts w) = Some d →
  device_ok w p d = true →
  ∃ w', p4rt_destroy (Some p) del w = Some (tt, w')
        ∧ Hmap.at_addr p (all_p4rts w') = Some (with_ports [] d)
        ∧ (∀ q, q ≠ p → Hmap.at_addr q (all_p4rts w') = Hmap.at_addr q (all_p4rts w))
        ∧ progs w' = match p4rt_prog d with
                     | Some q => delete q (progs w)
                     | None => progs w
                     end
        ∧ rcu_postponed w' = rcu_postponed w ++ [Cb_p4rt_destroy_defer__ p]
        ∧ trace w' = trace w
                     ++ flat_map (port_teardown del) (p4rt_ports d)
                     ++ match p4rt_prog d with
                        | Some q => [EvProgDel q; EvProgDealloc q]
                        | None => []
                        end
                     ++ [EvDestruct p del].
Proof. apply p4rt_destroy_run. Qed.

(** C1, as the code has it.  [p4rt_destroy] only postpones
    [p4rt_destroy_defer__]: whenever it returns (the last call it made
    being the class's [destruct]) the device is still linked in
    [all_p4rts], every lookup by name or by id answers what it
    answered before, and no device has been handed to [dealloc].  It
    does return on a device whose ports point back to it and whose
    program, if set, is live and points back to it, having torn down,
    in this order, every port, the program and the backend state.
    The postponed callback postpones [p4rt_destroy__] in turn, and it
    is that second callback which unlinks the device and, in the same
    breath, hands it to the class's [dealloc]; from then on no lookup
    returns the device, and a lookup by its name (by its id) finds
    nothing if no other registered device bears that name (that
    id). *)
Theorem p4rt_destroy_defers_unregistration w p d (del : bool) :
  Hmap.at_addr p (all_p4rts w) = Some d →
  NoDup (all_p4rts w).*1 →
  (device_ok w p d = true →
   ∃ w1, p4rt_destroy (Some p) del w = Some (tt, w1)
         ∧ Hmap.at_addr p (all_p4rts w1) = Some (with_ports [] d)
         ∧ progs w1 = match p4rt_prog d with
                      | Some q => delete q (progs w)
                      | None => progs w
                      end
         ∧ trace w1 = trace w
                      ++ flat_map (port_teardown del) (p4rt_ports d)
                      ++ match p4rt_prog d with
                         | Some q => [EvProgDel q; EvProgDealloc q]
                         | None => []
                         end
                      ++ [EvDestruct p del])
  ∧ (∀ w1,
       p4rt_destroy (Some p) del w = Some (tt, w1) →
       ∃ w2 w3 evs,
         is_Some (Hmap.at_addr p (all_p4rts w1))
         ∧ (∀ nm, p4rt_lookup w1 nm = p4rt_lookup w nm)
         ∧ (∀ id, p4rt_lookup_by_dev_id w1 id = p4rt_lookup_by_dev_id w id)
         ∧ rcu_postponed w1 = rcu_postponed w ++ [Cb_p4rt_destroy_defer__ p]
         ∧ trace w1 = trace w ++ evs ++ [EvDestruct p del]
         ∧ forallb (λ ev, negb (is_EvDealloc ev)) evs = true
         ∧ run_rcu_cb (Cb_p4rt_destroy_defer__ p) w1 = Some (tt, w2)
         ∧ all_p4rts w2 = all_p4rts w1
         ∧ trace w2 = trace w1
         ∧ rcu_postponed w2 = rcu_postponed w1 ++ [Cb_p4rt_destroy__ p]
         ∧ run_rcu_cb (Cb_p4rt_destroy__ p) w2 = Some (tt, w3)
         ∧ all_p4rts w3 = Hmap.remove p (all_p4rts w1)
         ∧ trace w3 = trace w2 ++ [EvDealloc p]
         ∧ Hmap.at_addr p (all_p4rts w3) = None
         ∧ (∀ nm, p4rt_lookup w3 nm ≠ Some p)
         ∧ (∀ id, p4rt_lookup_by_dev_id w3 id ≠ Some p)
         ∧ ((∀ p' d', (p', d') ∈ all_p4rts w → p4rt_name d' = p4rt_name d → p' = p) →
            p4rt_lookup w3 (p4rt_name d) = None)
         ∧ ((∀ p' d', (p', d') ∈ all_p4rts w → p4rt_dev_id d' = p4rt_dev_id d → p' = p) →
            p4rt_lookup_by_dev_id w3 (p4rt_dev_id d) = None)).
Proof.
  intros Hp Hnd. split.
  { intros Hok. destruct (p4rt_destroy_run w p d del Hp Hok)
      as (w1 & Hrun & Hp1 & _ & Hpr & _ & Htr).
    by exists w1. }
  intros w1 Hrun.
  destruct (p4rt_destroy_inv w w1 p d del Hp Hrun)
    as (d1 & evs & Hp1 & Hs1 & Hrcu1 & Hcls1 & Htr1 & Hev1).
  set (w2 := with_rcu (rcu_postponed w1 ++ [Cb_p4rt_destroy__ p]) w1).
  set (w3 := with_call (EvDealloc p)
               (cls_dealloc (class_at w2 (p4rt_cls d1)) p (environ w2))
               (with_p4rts (Hmap.remove p (all_p4rts w2)) w2)).
  assert (Hnd1 : NoDup (all_p4rts w1).*1).
  { by rewrite <- skel_addrs, Hs1, skel_addrs. }
  assert (Hgone : p ∉ (all_p4rts w3).*1).
  { simpl. by apply remove_not_elem_of. }
  assert (Hsub : ∀ a x, (a, x) ∈ all_p4rts w3 →
                        ∃ x0, (a, x0) ∈ all_p4rts w ∧ ident x0 = ident x).
  { intros a x Hin. simpl in Hin. apply remove_subseteq in Hin.
    apply list_elem_of_lookup in Hin as [i Hi].
    assert (Hi' : skel (all_p4rts w1) !! i = Some (a, ident x)).
    { unfold skel. by rewrite list_lookup_fmap, Hi. }
    rewrite Hs1 in Hi'. unfold skel in Hi'. rewrite list_lookup_fmap in Hi'.
    destruct (all_p4rts w !! i) as [[a0 x0]|] eqn:Hi0; simpl in Hi'; [|done].
    exists x0. split; [|congruence].
    apply list_elem_of_lookup. exists i. congruence. }
  exists w2, w3, evs.
  split_and!.
  - by rewrite Hp1.
  - by apply p4rt_lookup_skel.
  - by apply p4rt_lookup_skel.
  - done.
  - done.
  - done.
  - done.
  - done.
  - done.
  - done.
  - unfold run_rcu_cb, p4rt_destroy__, bind.
    assert (Hp2 : Hmap.at_addr p (all_p4rts w2) = Some d1) by done.
    rewrite (proj1 (get_p4rt_Some w2 p d1) Hp2). done.
  - done.
  - done.
  - by apply at_addr_None.
  - intros nm Hl. unfold p4rt_lookup in Hl.
    destruct (Hmap.first _ _) as [[a x]|] eqn:E; [|done].
    apply first_Some in E as [Hin _]. simpl in Hl. injection Hl as ->.
    apply Hgone. apply list_elem_of_fmap. by exists (p, x).
  - intros id Hl. unfold p4rt_lookup_by_dev_id in Hl.
    destruct (Hmap.first _ _) as [[a x]|] eqn:E; [|done].
    apply first_Some in E as [Hin _]. simpl in Hl. injection Hl as ->.
    apply Hgone. apply list_elem_of_fmap. by exists (p, x).
  - intros Huniq. unfold p4rt_lookup.
    assert (Hmap.first (λ d0, String.eqb (p4rt_name d0) (p4rt_name d)) (all_p4rts w3)
            = None) as ->; [|done].
    apply first_None. intros a x Hin. apply String.eqb_neq. intros Hname.
    destruct (Hsub a x Hin) as (x0 & Hin0 & Hid).
    assert (a = p) as ->.
    { apply (Huniq a x0 Hin0). unfold ident in Hid. congruence. }
    apply Hgone. apply list_elem_of_fmap. by exists (p, x).
  - intros Huniq. unfold p4rt_lookup_by_dev_id.
    assert (Hmap.first (λ d0, N.eqb (p4rt_dev_id d0) (p4rt_dev_id d)) (all_p4rts w3)
            = None) as ->; [|done].
    apply first_None. intros a x Hin. apply N.eqb_neq. intros Hname.
    destruct (Hsub a x Hin) as (x0 & Hin0 & Hid).
    assert (a = p) as ->.
    { apply (Huniq a x0 Hin0). unfold ident in Hid. congruence. }
    apply Hgone. apply list_elem_of_fmap. by exists (p, x).
Qed.

(** ** The port table invariant *)












(** X23. [p4rt_port_open_type] is idempotent and never answers
    "internal": an internal port is opened as a tap device, every
    other type is kept, and applying the function to its own answer
    changes nothing ("tap" is not mapped further). *)
Theorem p4rt_port_open_type_idempotent (port_type : string) :
  p4rt_port_open_type (p4rt_port_open_type port_type) = p4rt_port_open_type port_type
  ∧ p4rt_port_open_type port_type ≠ "internal"
  ∧ (p4rt_port_open_type port_type = port_type ↔ port_type ≠ "internal").
Proof.
  unfold p4rt_port_open_type.
  destruct (String.eqb_spec port_type "internal") as [-> | Hne].
  - simpl. split_and!; [done | done |]. split; [done | by intros []].
  - destruct (String.eqb_spec port_type "internal") as [? | _]; [done|].
    split_and!; done.
Qed.

End MoreProofs.

(** * The properties on the simulated datapath *)

(* A run that returns [r] leaves the state [Sim.after] names. *)
Lemma run_after {A} (m : M (env := Sim.env) A) (w : world) (r : A) :
  fst <$> m w = Some r → m w = Some (r, Sim.after m w).
Proof.
  unfold Sim.after. destruct (m w) as [[r' w']|]; simpl; [|done]. by intros [= ->].
Qed.

Lemma p4rt_class_register_find_witness :
  p4rt_class_register 2%N Sim.registered = Some (EEXIST, Sim.registered)
  ∧ p4rt_class_register 2%N (Sim.after (p4rt_class_register 1%N) Sim.boot)
    = Some (0, Sim.registered)
  ∧ p4rt_class_find__ Sim.registered "netdev" = Some 2%N
  ∧ p4rt_class_find__ Sim.registered "dummy" = None.
Proof.
  split_and!.
  - apply (p4rt_class_register_find Sim.registered 2%N). compute_done.
  - apply (p4rt_class_register_find (Sim.after (p4rt_class_register 1%N) Sim.boot) 2%N).
    compute_done.
  - apply (proj1 (proj2 (proj2 (p4rt_class_register_find Sim.registered 2%N)))
             "netdev" [1%N] 2%N []).
    + reflexivity.
    + intros c' ->%list_elem_of_singleton. compute_done.
    + compute_done.
  - apply (p4rt_class_register_find Sim.registered 2%N).
    intros c [-> | [-> | []%elem_of_nil]%elem_of_cons]%elem_of_cons; compute_done.
Defined.

Lemma p4rt_delete_spec_witness :
  p4rt_delete "br0" "dummy" Sim.registered = Some (EAFNOSUPPORT, Sim.registered)
  ∧ p4rt_delete "br0" "system" Sim.registered = Some (EACCES, Sim.registered)
  ∧ p4rt_delete "br1" "netdev" Sim.registered
    = Some (0, with_call (EvDel 2%N "netdev" "br1") 100%N Sim.registered).
Proof.
  split_and!.
  - apply (p4rt_delete_spec Sim.registered "br0" "dummy").
    intros c [-> | [-> | []%elem_of_nil]%elem_of_cons]%elem_of_cons; compute_done.
  - apply (proj1 (proj2 (p4rt_delete_spec Sim.registered "br0" "system")) 1%N);
      reflexivity.
  - apply (proj2 (proj2 (p4rt_delete_spec Sim.registered "br1" "netdev")) 2%N
             (fun _ name e => (if String.eqb name "" then ENODEV else 0, e)));
      reflexivity.
Defined.

Lemma p4rt_create_unsupported_type_witness :
  p4rt_create "br9" (Some "dummy") Sim.with_br0 = Some ((EAFNOSUPPORT, None), Sim.with_br0)
  ∧ ∀ r w', p4rt_create "br9" (Some "dummy") Sim.with_br0 = Some (r, w') →
            all_p4rts w' = all_p4rts Sim.with_br0
            ∧ Hmap.count (all_p4rts w') = Hmap.count (all_p4rts Sim.with_br0).
Proof.
  apply (p4rt_create_unsupported_type Sim.with_br0 "br9" (Some "dummy")).
  intros c [-> | [-> | []%elem_of_nil]%elem_of_cons]%elem_of_cons; compute_done.
Defined.

Lemma p4rt_type_run_wait_safe_witness :
  is_Some (p4rt_type_run None Sim.registered)
  ∧ is_Some (p4rt_type_wait None Sim.registered)
  ∧ is_Some (p4rt_type_wait (Some "") Sim.registered)
  ∧ ¬ is_Some (p4rt_type_wait (Some "dummy") Sim.registered)
  ∧ p4rt_type_run (Some "dummy") Sim.registered = None.
Proof.
  destruct (p4rt_type_run_wait_safe Sim.registered None)
    as (_ & _ & _ & _ & _ & Hnone).
  destruct (p4rt_type_run_wait_safe Sim.registered (Some ""))
    as (_ & _ & _ & _ & _ & Hempty).
  destruct (p4rt_type_run_wait_safe Sim.registered (Some "dummy"))
    as (_ & _ & _ & Hfind' & Hwait & Hdummy).
  destruct (Hnone eq_refl) as (Hrun0 & Hwait0 & _).
  destruct (Hempty eq_refl) as (_ & Hwait1 & _).
  destruct (Hdummy eq_refl) as (_ & _ & Hfault).
  split_and!.
  - apply Hrun0. exists 1%N. split; compute_done.
  - apply Hwait0. exists 1%N. split; compute_done.
  - apply Hwait1. exists 1%N. split; compute_done.
  - intros H. apply Hwait, Hfind' in H.
    destruct H as (c & [-> | [-> | []%elem_of_nil]%elem_of_cons]%elem_of_cons & H);
      revert H; compute_done.
  - apply Hfault. reflexivity.
Defined.

Lemma p4rt_initialize_datapath_already_installed_witness :
  p4rt_initialize_datapath 100%N "prog.bin" Sim.with_program
  = Some (0, Sim.with_program).
Proof.
  eapply (p4rt_initialize_datapath_already_installed Sim.with_program 100%N _ 102%N).
  - vm_compute. reflexivity.
  - reflexivity.
Defined.

(** C8, refuted as stated: two registered devices are called "br0",
    the one at 100 holds a port and the one at 102 holds none.  The
    query on "br0" answers 0 ports, which is not the count of the
    device at 100; were the two met in the other order it would answer
    1, which is not the count of the device at 102. *)
Lemma p4rt_query_switch_features_same_name :
  let f := {| n_tables := 7%N; n_ports := 7%N |} in
  let w := Sim.with_two_br0 in
  let w' := with_p4rts (reverse (all_p4rts w)) w in
  p4rt_name <$> Hmap.at_addr 100%N (all_p4rts w) = Some "br0"
  ∧ length ∘ p4rt_ports <$> Hmap.at_addr 100%N (all_p4rts w) = Some 1%nat
  ∧ p4rt_name <$> Hmap.at_addr 102%N (all_p4rts w) = Some "br0"
  ∧ length ∘ p4rt_ports <$> Hmap.at_addr 102%N (all_p4rts w) = Some 0%nat
  ∧ fst <$> p4rt_query_switch_features "br0" f w
    = Some (0, {| n_tables := 0%N; n_ports := 0%N |})
  ∧ fst <$> p4rt_query_switch_features "br0" f w'
    = Some (0, {| n_tables := 0%N; n_ports := 1%N |}).
Proof.
  split_and!; vm_compute; reflexivity.
Qed.

Lemma p4rt_query_switch_features_spec_witness :
  p4rt_query_switch_features "br0" {| n_tables := 7; n_ports := 7 |} Sim.with_program
  = Some ((0, {| n_tables := 0; n_ports := 1 |}), Sim.with_program)
  ∧ p4rt_query_switch_features "br0" {| n_tables := 7; n_ports := 7 |} Sim.with_two_br0
    = Some ((0, {| n_tables := 0; n_ports := 0 |}), Sim.with_two_br0)
  ∧ p4rt_query_switch_features "br5" {| n_tables := 7; n_ports := 7 |} Sim.with_program
    = Some ((ENODEV, {| n_tables := 7; n_ports := 7 |}), Sim.with_program).
Proof.
  split_and!.
  - refine (proj1 (proj2 (p4rt_query_switch_features_spec Sim.with_program _)) 100%N
              {| p4rt_cls := 1%N; p4rt_name := "br0"; p4rt_type := "system";
                 p4rt_dev_id := 0%N; p4rt_p4info := None;
                 p4rt_ports := [(101%N, {| port_p4rt := 100%N;
                                           port_netdev := {| netdev_get_name := "eth0" |};
                                           port_no := 1%N; port_created := 0 |})];
                 p4rt_prog := Some 102%N |} _ _).
    + vm_compute. reflexivity.
    + intros p' d' [[= -> ->] | []%elem_of_nil]%elem_of_cons _. reflexivity.
  - refine (proj1 (p4rt_query_switch_features_spec Sim.with_two_br0 _) "br0" 102%N
              {| p4rt_cls := 1%N; p4rt_name := "br0"; p4rt_type := "system";
                 p4rt_dev_id := 0%N; p4rt_p4info := None; p4rt_ports := [];
                 p4rt_prog := None |} _ _); vm_compute; reflexivity.
  - apply (p4rt_query_switch_features_spec Sim.with_program).
    intros p d [[= -> ->] | []%elem_of_nil]%elem_of_cons. compute_done.
Defined.

Lemma p4rt_create_construct_fails_witness :
  ∃ w', p4rt_create "" (Some "system") Sim.with_br0 = Some ((Sim.EINVAL, None), w')
        ∧ all_p4rts w' = all_p4rts Sim.with_br0
        ∧ (101%N ∉ (all_p4rts Sim.with_br0).*1 → Hmap.at_addr 101%N (all_p4rts w') = None)
        ∧ (∀ nm, p4rt_lookup w' nm = p4rt_lookup Sim.with_br0 nm)
        ∧ trace w' = trace Sim.with_br0 ++ [EvAlloc 1%N; EvConstruct 101%N; EvDealloc 101%N]
        ∧ rcu_postponed w' = rcu_postponed Sim.with_br0
        ∧ progs w' = progs Sim.with_br0.
Proof.
  apply (p4rt_create_construct_fails Sim.with_br0 "" (Some "system")
           1%N 101%N 102%N 102%N Sim.EINVAL).
  - reflexivity.
  - reflexivity.
  - reflexivity.
  - discriminate.
Defined.

(** C2, refuted as stated: a push that the backend rejects leaves the
    device's earlier program in place with its bytes and length
    replaced by the rejected payload. *)
Lemma _pi_update_device_start_overwrites_program :
  let w' := Sim.after (_pi_update_device_start 0%N [] 0%N) Sim.with_program in
  progs Sim.with_program !! 102%N
  = Some {| prog_p4rt := 100%N; prog_data := [Byte.x01; Byte.x02; Byte.x03];
            prog_data_len := 3%N |}
  ∧ _pi_update_device_start 0%N [] 0%N Sim.with_program
    = Some (PI_STATUS_TARGET_ERROR, w')
  ∧ p4rt_prog <$> Hmap.at_addr 100%N (all_p4rts w') = Some (Some 102%N)
  ∧ progs w' !! 102%N
    = Some {| prog_p4rt := 100%N; prog_data := []; prog_data_len := 0%N |}
  ∧ progs w' !! 102%N ≠ progs Sim.with_program !! 102%N.
Proof.
  split_and!.
  - vm_compute. reflexivity.
  - apply run_after. vm_compute. reflexivity.
  - vm_compute. reflexivity.
  - vm_compute. reflexivity.
  - vm_compute. discriminate.
Qed.

Lemma _pi_update_device_start_insert_fails_witness :
  (∃ w', _pi_update_device_start 0%N [] 0%N Sim.with_eth0
         = Some (PI_STATUS_TARGET_ERROR, w')
         ∧ all_p4rts w' = all_p4rts Sim.with_eth0
         ∧ progs w' = delete 102%N (progs Sim.with_eth0)
         ∧ trace w' = trace Sim.with_eth0
                      ++ [EvProgramAlloc 100%N; EvProgramInsert 102%N; EvProgDealloc 102%N])
  ∧ (∃ w', _pi_update_device_start 0%N [] 0%N Sim.with_program
           = Some (PI_STATUS_TARGET_ERROR, w')
           ∧ all_p4rts w' = all_p4rts Sim.with_program
           ∧ progs w' = <[102%N := {| prog_p4rt := 100%N; prog_data := [];
                                      prog_data_len := 0%N |}]> (progs Sim.with_program)
           ∧ trace w' = trace Sim.with_program ++ [EvProgramInsert 102%N]).
Proof.
  split.
  - eapply (proj1 (_pi_update_device_start_insert_fails Sim.with_eth0 0%N [] 0%N 100%N _
                     eq_refl eq_refl) 102%N 103%N 103%N Sim.EINVAL).
    + reflexivity.
    + reflexivity.
    + reflexivity.
    + discriminate.
  - eapply (proj2 (_pi_update_device_start_insert_fails Sim.with_program 0%N [] 0%N 100%N _
                     eq_refl eq_refl) 102%N _ 103%N Sim.EINVAL).
    + reflexivity.
    + reflexivity.
    + reflexivity.
    + discriminate.
Defined.

(** C1, refuted as stated: when [p4rt_destroy] has returned, the device
    is still found by name and by id; it is only with the second
    grace period that it leaves the registry. *)
Lemma p4rt_destroy_still_registered :
  let w1 := Sim.after (p4rt_destroy (Some 100%N) true) Sim.with_program in
  let w2 := Sim.after ovsrcu_grace_period w1 in
  let w3 := Sim.after ovsrcu_grace_period w2 in
  p4rt_lookup Sim.with_program "br0" = Some 100%N
  ∧ p4rt_destroy (Some 100%N) true Sim.with_program = Some (tt, w1)
  ∧ p4rt_lookup w1 "br0" = Some 100%N
  ∧ p4rt_lookup_by_dev_id w1 0%N = Some 100%N
  ∧ rcu_postponed w1 = [Cb_p4rt_destroy_defer__ 100%N]
  ∧ ovsrcu_grace_period w1 = Some (tt, w2)
  ∧ p4rt_lookup w2 "br0" = Some 100%N
  ∧ rcu_postponed w2 = [Cb_p4rt_destroy__ 100%N]
  ∧ ovsrcu_grace_period w2 = Some (tt, w3)
  ∧ p4rt_lookup w3 "br0" = None
  ∧ p4rt_lookup_by_dev_id w3 0%N = None.
Proof.
  split_and!; try (apply run_after); vm_compute; reflexivity.
Qed.

Lemma p4rt_destroy_defers_unregistration_witness :
  ∃ w1 w2 w3,
    p4rt_destroy (Some 100%N) true Sim.with_program = Some (tt, w1)
    ∧ trace w1 = trace Sim.with_program
                 ++ [EvPortDestruct 101%N true;
                     EvNetdevClose {| netdev_get_name := "eth0" |};
                     EvPortDealloc 101%N]
                 ++ [EvProgDel 102%N; EvProgDealloc 102%N]
                 ++ [EvDestruct 100%N true]
    ∧ is_Some (Hmap.at_addr 100%N (all_p4rts w1))
    ∧ (∀ nm, p4rt_lookup w1 nm = p4rt_lookup Sim.with_program nm)
    ∧ rcu_postponed w1 = rcu_postponed Sim.with_program ++ [Cb_p4rt_destroy_defer__ 100%N]
    ∧ run_rcu_cb (Cb_p4rt_destroy_defer__ 100%N) w1 = Some (tt, w2)
    ∧ run_rcu_cb (Cb_p4rt_destroy__ 100%N) w2 = Some (tt, w3)
    ∧ trace w3 = trace w2 ++ [EvDealloc 100%N]
    ∧ p4rt_lookup w3 "br0" = None.
Proof.
  destruct (p4rt_destroy_defers_unregistration Sim.with_program 100%N
              {| p4rt_cls := 1%N; p4rt_name := "br0"; p4rt_type := "system";
                 p4rt_dev_id := 0%N; p4rt_p4info := None;
                 p4rt_ports := [(101%N, {| port_p4rt := 100%N;
                                           port_netdev := {| netdev_get_name := "eth0" |};
                                           port_no := 1%N; port_created := 0 |})];
                 p4rt_prog := Some 102%N |} true)
    as [Hdown Hdefer].
  - reflexivity.
  - vm_compute. apply NoDup_singleton.
  - destruct Hdown as (w1 & Hrun & _ & _ & Htr); [reflexivity|].
    destruct (Hdefer w1 Hrun)
      as (w2 & w3 & evs & H1 & H2 & _ & H4 & _ & _ & H7 & _ & _ & _ & H11
          & _ & H13 & _ & _ & _ & H17 & _).
    exists w1, w2, w3.
    refine (conj Hrun (conj Htr (conj H1 (conj H2 (conj H4 (conj H7 (conj H11
              (conj H13 _)))))))).
    apply H17.
    intros p' d' [[= -> ->] | []%elem_of_nil]%elem_of_cons _. reflexivity.
Defined.

(** C5, refuted as stated: with a backend whose [port_construct]
    fails, the backend's answer for the port is the same before each
    of two reconciliations, yet after the first no port bears the
    reported number, and the second installs and removes a port again
    and returns the error. *)
Lemma update_port_failing_construct_repeats :
  let w1 := Sim.after (update_port 100%N "eth0") Sim.with_br1 in
  let w2 := Sim.after (update_port 100%N "eth0") w1 in
  cls_port_query_by_name Sim.netdev_class 100%N "eth0" (environ Sim.with_br1)
  = (0, {| pp_name := "eth0"; pp_type := "tap"; pp_port_no := 5%N |},
     environ Sim.with_br1)
  ∧ update_port 100%N "eth0" Sim.with_br1 = Some (Sim.EINVAL, w1)
  ∧ fst <$> p4rt_get_port 100%N 5%N w1 = Some None
  ∧ cls_port_query_by_name Sim.netdev_class 100%N "eth0" (environ w1)
    = (0, {| pp_name := "eth0"; pp_type := "tap"; pp_port_no := 5%N |}, environ w1)
  ∧ update_port 100%N "eth0" w1 = Some (Sim.EINVAL, w2)
  ∧ trace w2 = trace w1 ++ [EvPortQueryByName 100%N "eth0"; EvNetdevOpen "eth0" "tap";
                            EvPortAlloc 100%N; EvTimeMsec; EvPortConstruct 102%N;
                            EvNetdevClose {| netdev_get_name := "eth0" |};
                            EvPortDealloc 102%N].
Proof.
  split_and!; try (apply run_after); vm_compute; reflexivity.
Qed.

Lemma update_port_idempotent_witness :
  port_reconciled Sim.with_eth0 100%N 1%N "eth0"
  ∧ ∃ w2, update_port 100%N "eth0" Sim.with_eth0 = Some (0, w2)
          ∧ all_p4rts w2 = all_p4rts Sim.with_eth0
          ∧ progs w2 = progs Sim.with_eth0
          ∧ rcu_postponed w2 = rcu_postponed Sim.with_eth0
          ∧ trace w2 = trace Sim.with_eth0
                       ++ [EvPortQueryByName 100%N "eth0"; EvNetdevOpen "eth0" "system"].
Proof.
  apply (update_port_idempotent Sim.with_br0 Sim.with_eth0 100%N
           {| p4rt_cls := 1%N; p4rt_name := "br0"; p4rt_type := "system";
              p4rt_dev_id := 0%N; p4rt_p4info := None; p4rt_ports := [];
              p4rt_prog := None |}
           "eth0" {| pp_name := "eth0"; pp_type := "system"; pp_port_no := OFPP_NONE |}
           101%N 101%N 102%N).
  - vm_compute. reflexivity.
  - vm_compute. reflexivity.
  - reflexivity.
  - vm_compute. reflexivity.
  - apply run_after. vm_compute. reflexivity.
  - vm_compute. reflexivity.
Defined.

(** * The further properties on the simulated datapath *)

Lemma p4rt_create_lookup_witness :
  let w' := Sim.after (p4rt_create "br2" (Some "system")) Sim.with_br0 in
  p4rt_lookup w' "br2" = Some 101%N
  ∧ (∀ nm, nm ≠ "br2" → p4rt_lookup w' nm = p4rt_lookup Sim.with_br0 nm)
  ∧ p4rt_query_switch_features "br2" {| n_tables := 9; n_ports := 9 |} w'
    = Some ((0, {| n_tables := 0; n_ports := 0 |}), w').
Proof.
  apply (p4rt_create_lookup Sim.with_br0 _ "br2" (Some "system") 101%N).
  - apply run_after. vm_compute. reflexivity.
  - intros a x Hin. vm_compute in Hin.
    apply elem_of_cons in Hin as [[= -> ->] | []%elem_of_nil]. discriminate.
Defined.

Lemma only_device_id_zero_witness :
  let w' := Sim.after (p4rt_create "br2" (Some "system")) Sim.with_br0 in
  (∀ a x, (a, x) ∈ all_p4rts w' → p4rt_dev_id x = 0%N)
  ∧ ∀ dev_id : N, dev_id ≠ 0%N →
      p4rt_lookup_by_dev_id w' dev_id = None
      ∧ (∀ p4info, _pi_assign_device dev_id p4info w'
                   = Some (PI_STATUS_DEV_NOT_ASSIGNED, w'))
      ∧ (∀ data size, _pi_update_device_start dev_id data size w'
                      = Some (PI_STATUS_DEV_OUT_OF_RANGE, w')).
Proof.
  apply (only_device_id_zero Sim.with_br0 _ "br2" (Some "system") (0, Some 101%N)).
  - intros a x Hin. vm_compute in Hin.
    apply elem_of_cons in Hin as [[= -> ->] | []%elem_of_nil]. reflexivity.
  - apply run_after. vm_compute. reflexivity.
Defined.

Lemma p4rt_create_destroy_roundtrip_witness :
  ∃ w2 w3 w4,
    p4rt_destroy (Some 100%N) true Sim.with_br0 = Some (tt, w2)
    ∧ all_p4rts w2 = all_p4rts Sim.with_br0
    ∧ ovsrcu_grace_period w2 = Some (tt, w3)
    ∧ all_p4rts w3 = all_p4rts Sim.with_br0
    ∧ ovsrcu_grace_period w3 = Some (tt, w4)
    ∧ all_p4rts w4 = all_p4rts Sim.registered
    ∧ progs w4 = progs Sim.registered
    ∧ rcu_postponed w4 = []
    ∧ trace w4 = trace Sim.with_br0 ++ [EvDestruct 100%N true; EvDealloc 100%N].
Proof.
  apply (p4rt_create_destroy_roundtrip Sim.registered Sim.with_br0 "br0" (Some "system")
           100%N true).
  - apply run_after. vm_compute. reflexivity.
  - vm_compute. reflexivity.
Defined.

Lemma _pi_assign_device_spec_witness :
  _pi_assign_device 4%N (Some 7%N) Sim.with_program
  = Some (PI_STATUS_DEV_NOT_ASSIGNED, Sim.with_program)
  ∧ ∃ w', _pi_assign_device 0%N (Some 7%N) Sim.with_program = Some (PI_STATUS_SUCCESS, w')
          ∧ p4rt_p4info <$> Hmap.at_addr 100%N (all_p4rts w') = Some (Some 7%N)
          ∧ (∀ nm, p4rt_lookup w' nm = p4rt_lookup Sim.with_program nm)
          ∧ progs w' = progs Sim.with_program
          ∧ trace w' = trace Sim.with_program.
Proof.
  split.
  - apply (_pi_assign_device_spec Sim.with_program 4%N (Some 7%N)). vm_compute. reflexivity.
  - edestruct (proj2 (_pi_assign_device_spec Sim.with_program 0%N (Some 7%N)) 100%N)
      as (w' & Hrun & Hp & _ & Hl & _ & Hpr & _ & Htr).
    + vm_compute. reflexivity.
    + vm_compute. reflexivity.
    + exists w'. split_and!; try done. by rewrite Hp.
Defined.

Lemma _pi_update_device_start_outcomes_witness :
  ∃ st w',
    _pi_update_device_start 0%N [Byte.x09] 1%N Sim.with_program = Some (st, w')
    ∧ (st ≠ PI_STATUS_SUCCESS → all_p4rts w' = all_p4rts Sim.with_program)
    ∧ (st = PI_STATUS_SUCCESS →
       ∃ p q, p4rt_lookup_by_dev_id Sim.with_program 0%N = Some p
              ∧ p4rt_prog <$> Hmap.at_addr p (all_p4rts w') = Some (Some q)
              ∧ progs w' !! q = Some {| prog_p4rt := p; prog_data := [Byte.x09];
                                        prog_data_len := 1%N |}).
Proof.
  apply (_pi_update_device_start_outcomes Sim.with_program 0%N [Byte.x09] 1%N).
  intros p d q Hl Hp Hq. vm_compute in Hl. injection Hl as <-.
  vm_compute in Hp. injection Hp as <-. injection Hq as <-.
  vm_compute. by eexists.
Defined.

Lemma _pi_update_device_start_twice_witness :
  ∃ w1 w2,
    _pi_update_device_start 0%N [Byte.x01] 1%N Sim.with_eth0
    = Some (PI_STATUS_SUCCESS, w1)
    ∧ _pi_update_device_start 0%N [Byte.x02; Byte.x03] 2%N w1
      = Some (PI_STATUS_SUCCESS, w2)
    ∧ p4rt_prog <$> Hmap.at_addr 100%N (all_p4rts w2) = Some (Some 102%N)
    ∧ progs w2 = <[102%N := {| prog_p4rt := 100%N; prog_data := [Byte.x02; Byte.x03];
                               prog_data_len := 2%N |}]> (progs Sim.with_eth0)
    ∧ trace w2 = trace Sim.with_eth0
                 ++ [EvProgramAlloc 100%N; EvProgramInsert 102%N; EvProgramInsert 102%N].
Proof.
  edestruct (_pi_update_device_start_twice Sim.with_eth0 0%N [Byte.x01] [Byte.x02; Byte.x03]
               1%N 2%N 100%N Sim2.br0_eth0 102%N 103%N 103%N 103%N)
    as (w1 & w2 & H1 & H2 & Hp & Hpr & Htr).
  - vm_compute. reflexivity.
  - vm_compute. reflexivity.
  - reflexivity.
  - vm_compute. reflexivity.
  - vm_compute. reflexivity.
  - vm_compute. reflexivity.
  - exists w1, w2. split_and!; try done. by rewrite Hp.
Defined.

Lemma p4rt_prog_del_leaves_slot_witness :
  ∃ w', p4rt_prog_del 100%N Sim.with_program = Some (0, w')
        ∧ all_p4rts w' = all_p4rts Sim.with_program
        ∧ progs w' = delete 102%N (progs Sim.with_program)
        ∧ trace w' = trace Sim.with_program ++ [EvProgDel 102%N; EvProgDealloc 102%N]
        ∧ (∀ filename, p4rt_initialize_datapath 100%N filename w' = Some (0, w'))
        ∧ p4rt_prog_del 100%N w' = None
        ∧ (∀ dev_id data size,
             p4rt_lookup_by_dev_id Sim.with_program dev_id = Some 100%N →
             _pi_update_device_start dev_id data size w' = None).
Proof.
  eapply (p4rt_prog_del_leaves_slot Sim.with_program 100%N Sim2.br0_program 102%N).
  - vm_compute. reflexivity.
  - reflexivity.
  - vm_compute. reflexivity.
  - reflexivity.
Defined.

Lemma p4rt_initialize_datapath_outcomes_witness :
  (∃ error w',
     p4rt_initialize_datapath 100%N "short.bin" Sim2.with_br0 = Some (error, w')
     ∧ (all_p4rts w' = all_p4rts Sim2.with_br0
        ∨ (error = 0
           ∧ p4rt_prog (new_p4rt 1%N "br0" "system") = None
           ∧ ∃ q pr, all_p4rts w'
                     = Hmap.store 100%N (with_prog (Some q)) (all_p4rts Sim2.with_br0)
                     ∧ progs w' !! q = Some pr
                     ∧ prog_p4rt pr = 100%N
                     ∧ N.of_nat (length (prog_data pr)) = prog_data_len pr))
     ∧ (error ≠ 0 → all_p4rts w' = all_p4rts Sim2.with_br0))
  ∧ (p4rt_initialize_datapath 100%N "-" Sim2.with_br0 = None
     ∧ ∃ st pos (e0 e1 : Sim.env),
         program_source Sim2.with_br0 "-" = (Some st, e0)
         ∧ ftell_end (ext Sim2.with_br0) st e0 = (pos, e1)
         ∧ (pos < 0
            ∨ ∃ bytes (e2 e4 : Sim.env),
                fread (ext Sim2.with_br0) st (Z.to_N pos) e1 = (bytes, e2)
                ∧ N.of_nat (length bytes) = Z.to_N pos
                ∧ cls_program_alloc
                    (class_at Sim2.with_br0 (p4rt_cls (new_p4rt 1%N "br0" "system")))
                    (fclose (ext Sim2.with_br0) st e2) = (None, e4))).
Proof.
  split.
  - pose proof (p4rt_initialize_datapath_outcomes Sim2.with_br0 100%N
                  (new_p4rt 1%N "br0" "system") "short.bin") as H.
    assert (Hret : fst <$> p4rt_initialize_datapath 100%N "short.bin" Sim2.with_br0
                   = Some EOF) by (vm_compute; reflexivity).
    destruct (p4rt_initialize_datapath 100%N "short.bin" Sim2.with_br0)
      as [[error w']|]; [|discriminate Hret].
    exists error, w'. split; [reflexivity|]. apply H. vm_compute. reflexivity.
  - pose proof (p4rt_initialize_datapath_outcomes Sim2.with_br0 100%N
                  (new_p4rt 1%N "br0" "system") "-") as H.
    assert (Hnone : p4rt_initialize_datapath 100%N "-" Sim2.with_br0 = None)
      by (vm_compute; reflexivity).
    rewrite Hnone in H. split; [reflexivity|]. apply H. vm_compute. reflexivity.
Defined.

Lemma p4rt_initialize_datapath_installs_witness :
  ∃ w', p4rt_initialize_datapath 100%N "prog.bin" Sim2.with_br0 = Some (0, w')
        ∧ Hmap.at_addr 100%N (all_p4rts w')
          = Some (with_prog (Some 101%N) (new_p4rt 1%N "br0" "system"))
        ∧ progs w' = <[101%N := {| prog_p4rt := 100%N;
                                   prog_data := [Byte.x01; Byte.x02; Byte.x03];
                                   prog_data_len := 3%N |}]> (progs Sim2.with_br0)
        ∧ trace w' = trace Sim2.with_br0 ++ [EvFopen "prog.bin"]
                     ++ [EvFtell (File 3%N); EvFread (File 3%N) 3%N; EvFclose (File 3%N);
                         EvProgramAlloc 100%N; EvProgramInsert 101%N].
Proof.
  apply (p4rt_initialize_datapath_installs Sim2.with_br0 100%N
           (new_p4rt 1%N "br0" "system") "prog.bin" (File 3%N) 3%N
           [Byte.x01; Byte.x02; Byte.x03] 101%N 101%N 101%N 101%N 102%N 102%N);
    vm_compute; reflexivity.
Defined.

Lemma p4rt_initialize_datapath_read_fails_witness :
  p4rt_initialize_datapath 100%N "nofile" Sim2.with_br0
  = Some (ENOENT, with_call (EvFopen "nofile") 101%N Sim2.with_br0)
  ∧ ∃ w', p4rt_initialize_datapath 100%N "short.bin" Sim2.with_br0 = Some (EOF, w')
          ∧ all_p4rts w' = all_p4rts Sim2.with_br0
          ∧ progs w' = progs Sim2.with_br0
          ∧ trace w' = trace Sim2.with_br0 ++ [EvFopen "short.bin"]
                       ++ [EvFtell (File 4%N); EvFread (File 4%N) 3%N;
                           EvFerror (File 4%N); EvFclose (File 4%N)].
Proof.
  destruct (p4rt_initialize_datapath_read_fails Sim2.with_br0 100%N
              (new_p4rt 1%N "br0" "system") "short.bin") as [_ Hshort];
    [vm_compute; reflexivity | reflexivity |].
  destruct (p4rt_initialize_datapath_read_fails Sim2.with_br0 100%N
              (new_p4rt 1%N "br0" "system") "nofile") as [Hnone _];
    [vm_compute; reflexivity | reflexivity |].
  split.
  - apply Hnone. vm_compute. reflexivity.
  - apply (Hshort (File 4%N) 3%N [Byte.x01] 101%N 101%N 101%N);
      try (vm_compute; reflexivity). vm_compute. discriminate.
Defined.

Lemma p4rt_initialize_datapath_install_fails_witness :
  p4rt_initialize_datapath 100%N "-" Sim2.with_br0 = None
  ∧ p4rt_initialize_datapath 100%N "prog.bin" Sim2.with_br2 = None
  ∧ (∃ w', p4rt_initialize_datapath 100%N "empty.bin" Sim2.with_br0
           = Some (Sim.EINVAL, w')
           ∧ all_p4rts w' = all_p4rts Sim2.with_br0
           ∧ progs w' = <[101%N := {| prog_p4rt := 100%N; prog_data := [];
                                      prog_data_len := 0%N |}]> (progs Sim2.with_br0)
           ∧ trace w' = trace Sim2.with_br0 ++ [EvFopen "empty.bin"]
                        ++ [EvFtell (File 5%N); EvFread (File 5%N) 0%N;
                            EvFclose (File 5%N); EvProgramAlloc 100%N;
                            EvProgramInsert 101%N]).
Proof.
  split_and!.
  - refine (proj1 (p4rt_initialize_datapath_install_fails Sim2.with_br0 100%N
                     (new_p4rt 1%N "br0" "system") "-" Stdin 101%N _ _ _)
              (-1) 101%N _ _); try (vm_compute; reflexivity).
  - refine (proj1 (proj2 (p4rt_initialize_datapath_install_fails Sim2.with_br2 100%N
                            (new_p4rt 3%N "br2" "lossy") "prog.bin" (File 3%N) 101%N
                            _ _ _))
              3%N [Byte.x01; Byte.x02; Byte.x03] 101%N 101%N 101%N _ _ _ _);
      vm_compute; reflexivity.
  - refine (proj2 (proj2 (p4rt_initialize_datapath_install_fails Sim2.with_br0 100%N
                            (new_p4rt 1%N "br0" "system") "empty.bin" (File 5%N) 101%N
                            _ _ _))
              0%N [] 101%N Sim.EINVAL 101%N 101%N 102%N 102%N _ _ _ _ _ _);
      try (vm_compute; reflexivity). discriminate.
Defined.

Lemma update_port_skips_witness :
  update_port 100%N "" Sim.with_eth0
  = Some (0, with_call (EvPortQueryByName 100%N "") 102%N Sim.with_eth0)
  ∧ update_port 100%N "missing" Sim.with_eth0
    = Some (0, with_call (EvNetdevOpen "missing" "system") 102%N
                 (with_call (EvPortQueryByName 100%N "missing") 102%N Sim.with_eth0)).
Proof.
  split.
  - refine (proj1 (update_port_skips Sim.with_eth0 100%N Sim2.br0_eth0 "" _)
              ENODEV p4rt_port_zero 102%N _ _);
      [vm_compute; reflexivity | vm_compute; reflexivity | discriminate].
  - refine (proj2 (update_port_skips Sim.with_eth0 100%N Sim2.br0_eth0 "missing" _)
              {| pp_name := "missing"; pp_type := "system"; pp_port_no := OFPP_NONE |}
              ENODEV 102%N 102%N _ _ _);
      [vm_compute; reflexivity | vm_compute; reflexivity | vm_compute; reflexivity
      | discriminate].
Defined.

Lemma p4port_install_unwinds_witness :
  ∃ error w' evs,
    p4port_install 100%N {| netdev_get_name := "eth0" |} 5%N Sim.with_br1
    = Some (error, w')
    ∧ trace w' = trace Sim.with_br1 ++ evs
    ∧ progs w' = progs Sim.with_br1
    ∧ (error ≠ 0 →
       all_p4rts w' = all_p4rts Sim.with_br1
       ∧ netdev_closes evs = [{| netdev_get_name := "eth0" |}])
    ∧ (error = 0 →
       netdev_closes evs = []
       ∧ ∃ a created,
           all_p4rts w'
           = Hmap.store 100%N
               (with_ports ((a, {| port_p4rt := 100%N;
                                   port_netdev := {| netdev_get_name := "eth0" |};
                                   port_no := 5%N; port_created := created |})
                            :: p4rt_ports (new_p4rt 2%N "br1" "netdev")))
               (all_p4rts Sim.with_br1)).
Proof.
  apply (p4port_install_unwinds Sim.with_br1 100%N (new_p4rt 2%N "br1" "netdev")).
  vm_compute. reflexivity.
Defined.

Lemma update_port_replaces_witness :
  ∃ w', update_port 100%N "eth1" Sim.with_eth0 = Some (0, w')
        ∧ p4rt_ports <$> Hmap.at_addr 100%N (all_p4rts w')
          = Some [(102%N, {| port_p4rt := 100%N;
                             port_netdev := {| netdev_get_name := "eth1" |};
                             port_no := 1%N; port_created := 0 |})]
        ∧ trace w' = trace Sim.with_eth0
                     ++ [EvPortQueryByName 100%N "eth1"; EvNetdevOpen "eth1" "system";
                         EvPortDestruct 101%N true;
                         EvNetdevClose {| netdev_get_name := "eth0" |};
                         EvPortDealloc 101%N; EvPortAlloc 100%N; EvTimeMsec;
                         EvPortConstruct 102%N].
Proof.
  edestruct (update_port_replaces Sim.with_eth0 100%N Sim2.br0_eth0 "eth1"
               {| pp_name := "eth1"; pp_type := "system"; pp_port_no := OFPP_NONE |}
               101%N Sim2.eth0_port 102%N 0 102%N 102%N 103%N 103%N 103%N)
    as (w' & Hrun & Hp & _ & Htr).
  - vm_compute. reflexivity.
  - vm_compute. reflexivity.
  - reflexivity.
  - vm_compute. reflexivity.
  - vm_compute. reflexivity.
  - vm_compute. discriminate.
  - reflexivity.
  - vm_compute. reflexivity.
  - vm_compute. reflexivity.
  - vm_compute. reflexivity.
  - exists w'. split_and!; [done | by rewrite Hp | done].
Defined.

Lemma p4rt_port_del_spec_witness :
  p4rt_port_del Sim2.more 100%N "eth9" Sim2.with_eth0 = Some (ENODEV, Sim2.with_eth0)
  ∧ p4rt_port_del Sim2.more 100%N "eth0" Sim.with_eth0
    = Some (Sim.EINVAL, with_env 102%N Sim.with_eth0)
  ∧ ∃ w', p4rt_port_del Sim2.more 100%N "eth0" Sim2.with_eth0 = Some (0, w')
          ∧ all_p4rts w' = all_p4rts Sim2.with_eth0
          ∧ fst <$> p4rt_get_port_by_name 100%N "eth0" w'
            = Some (Some (101%N, {| port_p4rt := 100%N;
                                    port_netdev := {| netdev_get_name := "eth0" |};
                                    port_no := 7%N; port_created := 0 |}))
          ∧ trace w' = trace Sim2.with_eth0 ++ [EvPortQueryByName 100%N "eth0"].
Proof.
  split_and!.
  - refine (proj1 (p4rt_port_del_spec Sim2.more Sim2.with_eth0 100%N Sim2.br2_eth0
                     "eth9" _) _); vm_compute; reflexivity.
  - refine (proj1 (proj2 (p4rt_port_del_spec Sim2.more Sim.with_eth0 100%N Sim2.br0_eth0
                            "eth0" _)) 101%N Sim2.eth0_port Sim.EINVAL 102%N _ _ _);
      [vm_compute; reflexivity | vm_compute; reflexivity | vm_compute; reflexivity
      | discriminate].
  - refine (proj2 (proj2 (p4rt_port_del_spec Sim2.more Sim2.with_eth0 100%N Sim2.br2_eth0
                            "eth0" _)) 101%N _ ENODEV p4rt_port_zero 1102%N 1102%N
              _ _ _ _);
      [vm_compute; reflexivity | vm_compute; reflexivity | vm_compute; reflexivity
      | vm_compute; reflexivity | discriminate].
Defined.

Lemma p4rt_port_add_spec_witness :
  let nd := {| netdev_get_name := "eth0" |} in
  let w1 := Sim.after (update_port 100%N "eth0") Sim.with_br0 in
  p4rt_port_add Sim2.more 100%N {| netdev_get_name := "" |} (Some 5%N) Sim.with_br0
  = Some ((Sim.EINVAL, Some OFPP_NONE), with_env 101%N Sim.with_br0)
  ∧ p4rt_port_add Sim2.more 100%N nd (Some 9%N) Sim.with_br0
    = Some ((Sim.EINVAL, Some OFPP_NONE), with_env 101%N Sim.with_br0)
  ∧ p4rt_port_add Sim2.more 100%N nd (Some 65545%N) Sim.with_br0
    = Some ((Sim.EINVAL, Some OFPP_NONE), with_env 101%N Sim.with_br0)
  ∧ ofp_to_u16 65545%N ≠ 65545%N
  ∧ p4rt_port_add Sim2.more 100%N nd (Some 5%N) Sim.with_br0
    = Some ((0, Some OFPP_NONE), with_call (EvPortQueryByName 100%N "eth0") 102%N w1)
  ∧ port_reconciled w1 100%N 1%N "eth0".
Proof.
  split_and!.
  - refine (proj1 (proj2 (p4rt_port_add_spec Sim2.more Sim.with_br0 100%N
                            (new_p4rt 1%N "br0" "system") {| netdev_get_name := "" |}
                            (Some 5%N) _)) Sim.EINVAL 101%N _ _);
      [vm_compute; reflexivity | vm_compute; reflexivity | discriminate].
  - refine (proj1 (proj2 (p4rt_port_add_spec Sim2.more Sim.with_br0 100%N
                            (new_p4rt 1%N "br0" "system") {| netdev_get_name := "eth0" |}
                            (Some 9%N) _)) Sim.EINVAL 101%N _ _);
      [vm_compute; reflexivity | vm_compute; reflexivity | discriminate].
  - refine (proj1 (proj2 (p4rt_port_add_spec Sim2.more Sim.with_br0 100%N
                            (new_p4rt 1%N "br0" "system") {| netdev_get_name := "eth0" |}
                            (Some 65545%N) _)) Sim.EINVAL 101%N _ _);
      [vm_compute; reflexivity | vm_compute; reflexivity | discriminate].
  - intros H.
    apply (proj2 (proj2 (proj1 (p4rt_port_add_spec Sim2.more Sim.with_br0 100%N
                                  (new_p4rt 1%N "br0" "system")
                                  {| netdev_get_name := "eth0" |} (Some 65545%N)
                                  ltac:(vm_compute; reflexivity)))) 65545%N eq_refl) in H.
    revert H. vm_compute. discriminate.
  - edestruct (proj2 (proj2 (p4rt_port_add_spec Sim2.more Sim.with_br0 100%N
                        (new_p4rt 1%N "br0" "system") {| netdev_get_name := "eth0" |}
                        (Some 5%N) ltac:(vm_compute; reflexivity)))
                 5%N {| pp_name := "eth0"; pp_type := "system"; pp_port_no := OFPP_NONE |}
                 (Sim.after (update_port 100%N "eth0") Sim.with_br0)
                 101%N 101%N 101%N 102%N)
      as (Hrun & _).
    + reflexivity.
    + vm_compute. reflexivity.
    + vm_compute. reflexivity.
    + reflexivity.
    + vm_compute. reflexivity.
    + apply run_after. vm_compute. reflexivity.
    + vm_compute. reflexivity.
    + exact Hrun.
  - edestruct (proj2 (proj2 (p4rt_port_add_spec Sim2.more Sim.with_br0 100%N
                        (new_p4rt 1%N "br0" "system") {| netdev_get_name := "eth0" |}
                        (Some 5%N) ltac:(vm_compute; reflexivity)))
                 5%N {| pp_name := "eth0"; pp_type := "system"; pp_port_no := OFPP_NONE |}
                 (Sim.after (update_port 100%N "eth0") Sim.with_br0)
                 101%N 101%N 101%N 102%N)
      as (_ & Hrec & _).
    + reflexivity.
    + vm_compute. reflexivity.
    + vm_compute. reflexivity.
    + reflexivity.
    + vm_compute. reflexivity.
    + apply run_after. vm_compute. reflexivity.
    + vm_compute. reflexivity.
    + exact Hrec.
Defined.

Lemma p4rt_get_ports_spec_witness :
  ∃ names', p4rt_get_ports 100%N {[ "lo" ]} Sim.with_eth0 = Some (names', Sim.with_eth0)
            ∧ ({[ "lo" ]} : gset string) ⊆ names'
            ∧ "eth0" ∈ names'
            ∧ "eth1" ∉ names'.
Proof.
  destruct (p4rt_get_ports_spec Sim.with_eth0 100%N Sim2.br0_eth0 {[ "lo" ]})
    as (names' & Hrun & Hsub & Hiff & _); [vm_compute; reflexivity|].
  exists names'. split_and!; [done | done | |].
  - apply Hiff. right. exists 101%N, Sim2.eth0_port. split; [left | done].
  - intros [Hlo%elem_of_singleton | (a & port & Hin & Hn)]%Hiff; [done|].
    apply list_elem_of_singleton in Hin as [= -> ->]. done.
Defined.

Lemma p4rt_enumerate_types_find_witness :
  ("lossy" ∈ p4rt_enumerate_types Sim2.registered {[ "stale" ]}
   ↔ is_Some (p4rt_class_find__ Sim2.registered "lossy"))
  ∧ ("stale" ∉ p4rt_enumerate_types Sim2.registered {[ "stale" ]} →
     (∀ names, p4rt_enumerate_names Sim2.more "stale" names Sim2.registered
               = Some ((EAFNOSUPPORT, names), Sim2.registered))
     ∧ (∀ name, p4rt_delete name "stale" Sim2.registered
                = Some (EAFNOSUPPORT, Sim2.registered))).
Proof.
  split.
  - apply (p4rt_enumerate_types_find Sim2.more Sim2.registered {[ "stale" ]} "lossy").
    intros c types Hc. vm_compute in Hc.
    apply elem_of_cons in Hc as [-> | Hc]; [|apply elem_of_cons in Hc as [-> | Hc];
      [|apply list_elem_of_singleton in Hc as ->]].
    all: unfold class_types; simpl; by rewrite (right_id_L ∅ (∪)).
  - apply (p4rt_enumerate_types_find Sim2.more Sim2.registered {[ "stale" ]} "stale").
    intros c types Hc. vm_compute in Hc.
    apply elem_of_cons in Hc as [-> | Hc]; [|apply elem_of_cons in Hc as [-> | Hc];
      [|apply list_elem_of_singleton in Hc as ->]].
    all: unfold class_types; simpl; by rewrite (right_id_L ∅ (∪)).
Defined.

Lemma p4rt_init_registers_once_witness :
  ∃ w' w'',
    p4rt_init Sim2.more 1%N Sim2.pi Sim2.boot = Some (tt, w')
    ∧ p4rt_classes w' = [1%N]
    ∧ NoDup (p4rt_classes w')
    ∧ p4rt_init Sim2.more 1%N Sim2.pi w' = Some (tt, w'')
    ∧ p4rt_classes w'' = [1%N].
Proof.
  destruct (p4rt_init_registers_once Sim2.more 1%N Sim2.pi Sim2.boot)
    as (w' & w'' & Hrun & Hcl & _ & Hnd & _ & _ & Hrun' & Hcl'); [apply NoDup_nil_2|].
  exists w', w''. split_and!; try done. by rewrite Hcl', Hcl.
Defined.

Lemma p4rt_destroy_tears_down_witness :
  ∃ w', p4rt_destroy (Some 100%N) true Sim.with_program = Some (tt, w')
        ∧ Hmap.at_addr 100%N (all_p4rts w') = Some (with_ports [] Sim2.br0_program)
        ∧ progs w' = delete 102%N (progs Sim.with_program)
        ∧ rcu_postponed w' = rcu_postponed Sim.with_program ++ [Cb_p4rt_destroy_defer__ 100%N]
        ∧ trace w' = trace Sim.with_program
                     ++ [EvPortDestruct 101%N true;
                         EvNetdevClose {| netdev_get_name := "eth0" |};
                         EvPortDealloc 101%N]
                     ++ [EvProgDel 102%N; EvProgDealloc 102%N]
                     ++ [EvDestruct 100%N true].
Proof.
  destruct (p4rt_destroy_tears_down Sim.with_program 100%N Sim2.br0_program true)
    as (w' & Hrun & Hp & _ & Hpr & Hrcu & Htr);
    [vm_compute; reflexivity | vm_compute; reflexivity |].
  exists w'. split_and!; done.
Defined.

